(** * Elyx conversation simulator: a shallow embedding of the simulation core

    The development follows the Python sources under [task1/src]:
    [calendar2.py], [scheduler.py], [validators.py], [interventions.py],
    [state.py], [nlg.py], [content/generator.py] and [run.py].

    Conventions of the embedding.
    - Python [int] is [Z]; [%] and [//] are [Z.modulo] and [Z.div] (both floor).
    - A [datetime] is a wall-clock instant at minute resolution.  Every
      instant of the program is built by [SimClock.datetime_for] (seconds 0)
      and moved by whole days or minutes, and arithmetic between aware
      datetimes sharing one [tzinfo] is wall-clock arithmetic, so the zone
      plays no role.
    - The process-wide [random] generator is a cursor on a tape of draws;
      every library call consumes one entry and maps it into its range.
    - Python [float] is kept abstract behind the class [Arith]; it is
      instantiated with exact rationals (state evolution) and with IEEE
      binary64 (the arithmetic the interpreter really performs).
    - A [str] is a [string] of code points below 256. *)

From Stdlib Require Import ZArith QArith Qround List String Ascii Bool Lia.
From Stdlib Require Import Floats.
From Stdlib Require Import Sorted Lqa Qabs Qfield.
From stdpp Require Import base option gmap strings.
Import ListNotations.

Local Open Scope string_scope.
Local Open Scope list_scope.
Local Open Scope Z_scope.

(* ===================================================================== *)
(** ** calendar2.py *)
(* ===================================================================== *)

Module Clock.

(** Minutes elapsed since midnight of proleptic ordinal day 0. *)
Abbreviation datetime := Z (only parsing).

Definition of_fields (ordinal hour minute : Z) : datetime :=
  (ordinal * 24 + hour) * 60 + minute.

Definition toordinal (dt : datetime) : Z := dt / 1440.
Definition hour (dt : datetime) : Z := (dt / 60) mod 24.
Definition minute (dt : datetime) : Z := dt mod 60.

(** [date.weekday()]: Monday is 0; ordinal 1 (0001-01-01) is a Monday. *)
Definition weekday (dt : datetime) : Z := (toordinal dt + 6) mod 7.

(** [dt.replace(hour=h, minute=m)] *)
Definition replace (dt : datetime) (h m : Z) : datetime :=
  of_fields (toordinal dt) h m.

(** [dt + timedelta(days=d)], [dt + timedelta(minutes=m)] *)
Definition plus_days (dt : datetime) (d : Z) : datetime := dt + d * 1440.
Definition plus_minutes (dt : datetime) (m : Z) : datetime := dt + m.

Record SimClock := { start_date : datetime }.

Definition datetime_for (c : SimClock) (week day_offset hour minute : Z)
  : datetime :=
  let base_monday := plus_days (start_date c) (7 * (week - 1)) in
  plus_days (of_fields (toordinal base_monday) hour minute) day_offset.

End Clock.

(** [range(start, stop, step)] for a positive step. *)
Definition py_range (start stop step : Z) : list Z :=
  map (fun k => start + step * Z.of_nat k)
      (seq 0 (Z.to_nat ((stop - start + step - 1) / step))).

Module Travel.

Record TravelPlan := {
  travel_weeks : list Z;
  destinations : list string
}.

(** [list.index(x)] for an element known to be present. *)
Fixpoint index (x : Z) (l : list Z) : Z :=
  match l with
  | [] => 0
  | y :: r => if x =? y then 0 else 1 + index x r
  end.

Definition mem (x : Z) (l : list Z) : bool := existsb (Z.eqb x) l.

Definition destination_for_week (p : TravelPlan) (week : Z) : option string :=
  if mem week (travel_weeks p) then
    let idx := index week (travel_weeks p) mod Z.of_nat (length (destinations p)) in
    Some (nth (Z.to_nat idx) (destinations p) "")
  else None.

Definition build_travel_plan (weeks : Z) : TravelPlan :=
  {| travel_weeks := py_range 4 (weeks + 1) 4;
     destinations :=
       ["United Kingdom"; "United States"; "South Korea"; "Jakarta"] |}.

End Travel.

(* ===================================================================== *)
(** ** The process-wide random generator *)
(* ===================================================================== *)

Module Rng.

Record t := { tape : nat -> Q; pos : nat }.

Definition next (g : t) : Q * t :=
  (tape g (pos g), {| tape := tape g; pos := S (pos g) |}).

(** [random.random()]: a value of [0, 1). *)
Definition random (g : t) : Q * t :=
  let '(q, g) := next g in ((q - inject_Z (Qfloor q))%Q, g).

(** [random.randint(lo, hi)]: both ends included. *)
Definition randint (lo hi : Z) (g : t) : Z * t :=
  let '(q, g) := next g in (lo + Qfloor q mod (hi - lo + 1), g).

(** [random.choice(l)] on a non-empty list. *)
Definition choice {A : Type} (d : A) (l : list A) (g : t) : A * t :=
  let '(q, g) := next g in
  (nth (Z.to_nat (Qfloor q mod Z.of_nat (length l))) l d, g).

(** [random.gauss(mu, sigma)] returns [mu + z * sigma] for a deviate [z]. *)
Definition gauss (mu sigma : Q) (g : t) : Q * t :=
  let '(z, g) := next g in ((mu + z * sigma)%Q, g).

End Rng.

(* ===================================================================== *)
(** ** scheduler.py *)
(* ===================================================================== *)

Module Scheduler.

Record Event := {
  kind : string;
  week : Z;
  when : Clock.datetime;
  meta : option (gmap string string)
}.

Definition _random_time (base : Clock.datetime) (hour_low hour_high : Z)
    (g : Rng.t) : Clock.datetime * Rng.t :=
  let '(hour, g) := Rng.randint hour_low hour_high g in
  let '(minute, g) :=
    Rng.choice 0 [0; 5; 10; 15; 20; 25; 30; 35; 40; 45; 50; 55] g in
  (Clock.replace base hour minute, g).

Definition diagnostic_weeks : list Z := [4; 16; 28].

Definition nutrition_weeks : list Z := [3; 7; 11; 15; 19; 23; 27; 31].

(** The [for i in range(weekly_count)] loop of member questions. *)
Fixpoint curiosity_events (n : nat) (w : Z) (monday_9am : Clock.datetime)
    (g : Rng.t) : list Event * Rng.t :=
  match n with
  | O => ([], g)
  | S n' =>
      let '(day, g) := Rng.randint 0 6 g in
      let '(t, g) := _random_time (Clock.plus_days monday_9am day) 8 20 g in
      let '(rest, g) := curiosity_events n' w monday_9am g in
      ({| kind := "member_curiosity"; week := w; when := t; meta := None |}
         :: rest, g)
  end.

(** The events appended by one iteration of the loop over weeks. *)
Definition week_events (clock : Clock.SimClock) (travel : Travel.TravelPlan)
    (w : Z) (g : Rng.t) : list Event * Rng.t :=
  let monday_9am := Clock.datetime_for clock w 0 9 0 in
  let '(t, g) := _random_time monday_9am 8 20 g in
  let ev_report :=
    [{| kind := "weekly_report"; week := w; when := t; meta := None |}] in
  let '(ev_exercise, g) :=
    if w mod 2 =? 0 then
      let '(t, g) := _random_time monday_9am 8 20 g in
      ([{| kind := "exercise_update"; week := w; when := t; meta := None |}], g)
    else ([], g) in
  let '(ev_medical, g) :=
    if w mod 2 =? 0 then
      let '(t, g) := _random_time monday_9am 10 14 g in
      ([{| kind := "medical_checkin"; week := w; when := t; meta := None |}], g)
    else ([], g) in
  let '(ev_nutrition, g) :=
    if Travel.mem w nutrition_weeks then
      let '(t, g) := _random_time monday_9am 11 16 g in
      ([{| kind := "nutrition_update"; week := w; when := t; meta := None |}], g)
    else ([], g) in
  let '(ev_travel, g) :=
    match Travel.destination_for_week travel w with
    | Some dest =>
        if String.eqb dest "" then ([], g)
        else
          let '(t, g) := _random_time monday_9am 8 20 g in
          ([{| kind := "travel_adaptation"; week := w; when := t;
               meta := Some {[ "dest" := dest ]} |}], g)
    | None => ([], g)
    end in
  let '(ev_diag, g) :=
    if Travel.mem w diagnostic_weeks then
      let '(t1, g) := _random_time monday_9am 8 11 g in
      let friday := Clock.plus_days monday_9am 4 in
      let '(t2, g) := _random_time friday 13 18 g in
      ([{| kind := "diagnostics_schedule"; week := w; when := t1; meta := None |};
        {| kind := "diagnostics_results"; week := w; when := t2; meta := None |}], g)
    else ([], g) in
  let '(weekly_count, g) := Rng.randint 3 7 g in
  let '(ev_curiosity, g) :=
    curiosity_events (Z.to_nat weekly_count) w monday_9am g in
  let '(u, g) := Rng.random g in
  let '(ev_wearable, g) :=
    if Qlt_le_dec u (1 # 2) then
      let '(day, g) := Rng.randint 1 6 g in
      let '(t, g) := _random_time (Clock.plus_days monday_9am day) 8 20 g in
      ([{| kind := "wearable_anomaly"; week := w; when := t; meta := None |}], g)
    else ([], g) in
  (ev_report ++ ev_exercise ++ ev_medical ++ ev_nutrition ++ ev_travel
     ++ ev_diag ++ ev_curiosity ++ ev_wearable, g).

Fixpoint all_weeks (clock : Clock.SimClock) (travel : Travel.TravelPlan)
    (ws : list Z) (g : Rng.t) : list Event * Rng.t :=
  match ws with
  | [] => ([], g)
  | w :: ws' =>
      let '(evs, g) := week_events clock travel w g in
      let '(rest, g) := all_weeks clock travel ws' g in
      (evs ++ rest, g)
  end.

(** [events.sort(key=lambda e: e.when)]: the sort is stable. *)
Fixpoint insert_by_when (e : Event) (l : list Event) : list Event :=
  match l with
  | [] => [e]
  | x :: r => if when e <=? when x then e :: x :: r
              else x :: insert_by_when e r
  end.

Definition sort_by_when (l : list Event) : list Event :=
  fold_right insert_by_when [] l.

(** The member profile argument of the source is never read and is left out. *)
Definition build_events (clock : Clock.SimClock) (travel : Travel.TravelPlan)
    (total_weeks : Z) (g : Rng.t) : list Event * Rng.t :=
  let '(events, g) :=
    all_weeks clock travel (py_range 1 (total_weeks + 1) 1) g in
  (sort_by_when events, g).

End Scheduler.

(* ===================================================================== *)
(** ** validators.py *)
(* ===================================================================== *)

Module Validators.

(** The [while w <= total_weeks] loop, with the number of iterations left
    as the structural argument. *)
Fixpoint diagnostic_loop (fuel : nat) (w total_weeks : Z) : option (list Z) :=
  if w <=? total_weeks then
    match fuel with
    | O => None
    | S fuel' =>
        match diagnostic_loop fuel' (w + 12) total_weeks with
        | Some r => Some (w :: r)
        | None => None
        end
    end
  else Some [].

(** The loop adds 12 at each turn, so [total_weeks] turns are enough
    (lemma [diagnostic_loop_closed_form] below). *)
Definition _diagnostic_weeks (total_weeks : Z) : list Z :=
  match diagnostic_loop (Z.to_nat total_weeks) 4 total_weeks with
  | Some weeks => weeks
  | None => []
  end.

Definition _expected_diagnostics_count (total_weeks : Z) : Z :=
  Z.of_nat (length (_diagnostic_weeks total_weeks)).

End Validators.

(* ===================================================================== *)
(** ** Python floats *)
(* ===================================================================== *)

(** The operations the simulation performs on [float] values.  [dec n d] is
    the decimal literal whose value is [n / d] ([0.15] is [dec 15 100]). *)
Class Arith (F : Type) := {
  dec : Z -> Z -> F;
  add : F -> F -> F;
  sub : F -> F -> F;
  ltb : F -> F -> bool
}.

(** [max(a, b)] and [min(a, b)] keep their first argument unless the second
    one compares strictly greater (resp. smaller). *)
Definition py_max {F} `{Arith F} (a b : F) : F := if ltb a b then b else a.
Definition py_min {F} `{Arith F} (a b : F) : F := if ltb b a then b else a.

(** Exact arithmetic. *)
Definition Qltb (x y : Q) : bool := if Qlt_le_dec x y then true else false.

#[export] Instance exact : Arith Q := {
  dec n d := Qmake n (Z.to_pos d);
  add := Qplus;
  sub := Qminus;
  ltb := Qltb
}.

(** IEEE 754 binary64, the arithmetic of CPython's [float].  A decimal
    literal denotes the double nearest to its value, which is what the
    correctly rounded quotient of two small integers returns. *)
Definition float_of_Z (n : Z) : float :=
  if n <? 0 then PrimFloat.opp (PrimFloat.of_uint63 (Uint63.of_Z (- n)))
  else PrimFloat.of_uint63 (Uint63.of_Z n).

#[export] Instance binary64 : Arith float := {
  dec n d := PrimFloat.div (float_of_Z n) (float_of_Z d);
  add := PrimFloat.add;
  sub := PrimFloat.sub;
  ltb := PrimFloat.ltb
}.

(* ===================================================================== *)
(** ** interventions.py *)
(* ===================================================================== *)

Module Interventions.

Record Intervention := {
  name : string;
  domain : string;
  effect_vector : list (string * Q);
  time_cost_hours : Q;
  recommended_by : string;
  base_adherence : Q
}.

Definition default_interventions : list Intervention := [
  {| name := "Mediterranean-pattern meals; reduce refined carbs";
     domain := "Nutrition";
     effect_vector := [("apob", dec (-7) 10); ("ldl_c", dec (-9) 10);
                       ("hs_crp", dec (-6) 100); ("bmi", dec (-3) 100)];
     time_cost_hours := dec 15 10;
     recommended_by := "Carla";
     base_adherence := dec 50 100 |};
  {| name := "Omega-3 (EPA/DHA) supplementation";
     domain := "Nutrition";
     effect_vector := [("apob", dec (-4) 10); ("hs_crp", dec (-5) 100)];
     time_cost_hours := dec 1 10;
     recommended_by := "Carla";
     base_adherence := dec 50 100 |};
  {| name := "Caffeine cutoff at 13:00";
     domain := "Sleep";
     effect_vector := [("sleep_hours", dec 10 100); ("hrv_ms", dec 5 10);
                       ("rhr_bpm", dec (-2) 10)];
     time_cost_hours := dec 0 10;
     recommended_by := "Carla";
     base_adherence := dec 50 100 |};
  {| name := "Morning light exposure (10–15 min)";
     domain := "Sleep/Stress";
     effect_vector := [("sleep_hours", dec 8 100); ("hrv_ms", dec 6 10);
                       ("rhr_bpm", dec (-2) 10)];
     time_cost_hours := dec 3 10;
     recommended_by := "Advik";
     base_adherence := dec 50 100 |};
  {| name := "Zone-2 calibration run (1×/wk)";
     domain := "Cardio";
     effect_vector := [("hrv_ms", dec 7 10); ("rhr_bpm", dec (-3) 10);
                       ("systolic_bp", dec (-6) 10);
                       ("diastolic_bp", dec (-4) 10)];
     time_cost_hours := dec 8 10;
     recommended_by := "Advik";
     base_adherence := dec 50 100 |};
  {| name := "Strength training (2×/wk) + daily 10-min mobility";
     domain := "PT";
     effect_vector := [("bmi", dec (-4) 100); ("systolic_bp", dec (-5) 10);
                       ("diastolic_bp", dec (-3) 10)];
     time_cost_hours := dec 22 10;
     recommended_by := "Rachel";
     base_adherence := dec 50 100 |};
  {| name := "Sodium awareness (restaurant swaps when traveling)";
     domain := "Nutrition/Travel";
     effect_vector := [("systolic_bp", dec (-4) 10);
                       ("diastolic_bp", dec (-3) 10)];
     time_cost_hours := dec 2 10;
     recommended_by := "Carla";
     base_adherence := dec 50 100 |}
].

Definition weekly_adherence_probability {F} `{Arith F}
    (base : F) (travel pa_support busy_week last_week_win : bool)
    (weekly_hours : F) : F :=
  let p := base in
  let p := if travel then sub p (dec 15 100) else p in
  let p := if busy_week then sub p (dec 10 100) else p in
  let p := if pa_support then add p (dec 10 100) else p in
  let p := if last_week_win then add p (dec 5 100) else p in
  let p := if ltb (dec 50 10) weekly_hours then sub p (dec 10 100) else p in
  py_max (dec 5 100) (py_min (dec 95 100) p).

Definition bernoulli (p : Q) (g : Rng.t) : bool * Rng.t :=
  let '(u, g) := Rng.random g in (Qltb u p, g).

End Interventions.

(* ===================================================================== *)
(** ** state.py *)
(* ===================================================================== *)

Module State.

Record BiomarkerState := {
  systolic_bp : Q;
  diastolic_bp : Q;
  apob : Q;
  ldl_c : Q;
  hs_crp : Q;
  hba1c : Q;
  bmi : Q;
  hrv_ms : Q;
  rhr_bpm : Q;
  sleep_hours : Q;
  week_index : Z;
  adherence_log : list (string * bool);
  weekly_hours_committed : Q;
  weekly_hours_completed : Q
}.

(** The dataclass defaults. *)
Definition baseline : BiomarkerState := {|
  systolic_bp := dec 1340 10;
  diastolic_bp := dec 860 10;
  apob := dec 1050 10;
  ldl_c := dec 1400 10;
  hs_crp := dec 22 10;
  hba1c := dec 57 10;
  bmi := dec 260 10;
  hrv_ms := dec 400 10;
  rhr_bpm := dec 660 10;
  sleep_hours := dec 625 100;
  week_index := 0;
  adherence_log := [];
  weekly_hours_committed := dec 50 10;
  weekly_hours_completed := dec 0 10
|}.

(** [_apply_delta]: [setattr(self, key, getattr(self, key) + delta)] when the
    attribute exists.  The keys the program passes name float attributes; a
    key naming no float attribute leaves the state as it is. *)
Definition _apply_delta (s : BiomarkerState) (key : string) (delta : Q)
  : BiomarkerState :=
  let upd (attr : string) (v : Q) : Q :=
    if String.eqb key attr then add v delta else v in
  {| systolic_bp := upd "systolic_bp" (systolic_bp s);
     diastolic_bp := upd "diastolic_bp" (diastolic_bp s);
     apob := upd "apob" (apob s);
     ldl_c := upd "ldl_c" (ldl_c s);
     hs_crp := upd "hs_crp" (hs_crp s);
     hba1c := upd "hba1c" (hba1c s);
     bmi := upd "bmi" (bmi s);
     hrv_ms := upd "hrv_ms" (hrv_ms s);
     rhr_bpm := upd "rhr_bpm" (rhr_bpm s);
     sleep_hours := upd "sleep_hours" (sleep_hours s);
     week_index := week_index s;
     adherence_log := adherence_log s;
     weekly_hours_committed :=
       upd "weekly_hours_committed" (weekly_hours_committed s);
     weekly_hours_completed :=
       upd "weekly_hours_completed" (weekly_hours_completed s) |}.

Definition apply_deltas (s : BiomarkerState) (deltas : list (string * Q))
  : BiomarkerState :=
  fold_left (fun s kd => _apply_delta s (fst kd) (snd kd)) deltas s.

Definition apply_intervention_effects (s : BiomarkerState)
    (effect_vector : list (string * Q)) (adhered : bool) : BiomarkerState :=
  if adhered then apply_deltas s effect_vector else s.

Definition apply_travel_penalty (s : BiomarkerState) : BiomarkerState :=
  apply_deltas s [("sleep_hours", dec (-20) 100); ("hrv_ms", dec (-10) 10);
                  ("rhr_bpm", dec 10 10); ("systolic_bp", dec 5 10);
                  ("diastolic_bp", dec 3 10)].

Definition noise_spec : list (string * Q) := [
  ("systolic_bp", dec 4 10); ("diastolic_bp", dec 3 10); ("apob", dec 6 10);
  ("ldl_c", dec 8 10); ("hs_crp", dec 10 100); ("hba1c", dec 2 100);
  ("bmi", dec 3 100); ("hrv_ms", dec 8 10); ("rhr_bpm", dec 5 10);
  ("sleep_hours", dec 10 100)
].

Fixpoint add_noise_loop (spec : list (string * Q)) (s : BiomarkerState)
    (g : Rng.t) : BiomarkerState * Rng.t :=
  match spec with
  | [] => (s, g)
  | (key, sigma) :: rest =>
      let '(jitter, g) := Rng.gauss (dec 0 10) sigma g in
      add_noise_loop rest (_apply_delta s key jitter) g
  end.

Definition add_noise (s : BiomarkerState) (g : Rng.t)
  : BiomarkerState * Rng.t := add_noise_loop noise_spec s g.

Definition weekly_bounds (s : BiomarkerState) : BiomarkerState :=
  {| systolic_bp := py_min (py_max (systolic_bp s) (dec 950 10)) (dec 1700 10);
     diastolic_bp := py_min (py_max (diastolic_bp s) (dec 550 10)) (dec 1100 10);
     apob := py_min (py_max (apob s) (dec 500 10)) (dec 2000 10);
     ldl_c := py_min (py_max (ldl_c s) (dec 400 10)) (dec 2500 10);
     hs_crp := py_min (py_max (hs_crp s) (dec 2 10)) (dec 100 10);
     hba1c := py_min (py_max (hba1c s) (dec 48 10)) (dec 70 10);
     bmi := py_min (py_max (bmi s) (dec 180 10)) (dec 350 10);
     hrv_ms := py_min (py_max (hrv_ms s) (dec 200 10)) (dec 1200 10);
     rhr_bpm := py_min (py_max (rhr_bpm s) (dec 450 10)) (dec 900 10);
     sleep_hours := py_min (py_max (sleep_hours s) (dec 40 10)) (dec 90 10);
     week_index := week_index s;
     adherence_log := adherence_log s;
     weekly_hours_committed := weekly_hours_committed s;
     weekly_hours_completed := weekly_hours_completed s |}.

(** [round(x, 1)]: to the nearest tenth, ties to the even tenth. *)
Definition round1 (x : Q) : Q :=
  let y := (x * 10)%Q in
  let f := Qfloor y in
  let r := (y - inject_Z f)%Q in
  let n := if Qltb r (1 # 2) then f
           else if Qltb (1 # 2) r then f + 1
           else if Z.even f then f else f + 1 in
  Qmake n 10.

Definition sample_weekly_hours (s : BiomarkerState) (g : Rng.t)
  : Q * BiomarkerState * Rng.t :=
  let '(val, g) := Rng.gauss (dec 50 10) (dec 10 10) g in
  let val := py_max (dec 20 10) (py_min (dec 70 10) val) in
  let done := round1 val in
  (done,
   {| systolic_bp := systolic_bp s; diastolic_bp := diastolic_bp s;
      apob := apob s; ldl_c := ldl_c s; hs_crp := hs_crp s;
      hba1c := hba1c s; bmi := bmi s; hrv_ms := hrv_ms s;
      rhr_bpm := rhr_bpm s; sleep_hours := sleep_hours s;
      week_index := week_index s; adherence_log := adherence_log s;
      weekly_hours_committed := weekly_hours_committed s;
      weekly_hours_completed := done |}, g).

End State.

(* ===================================================================== *)
(** ** Text cleanup: [ContentEngine._tidy] and [templates._tidy_text] *)
(* ===================================================================== *)

Module Text.

Definition code (c : ascii) : nat := nat_of_ascii c.

Definition between (lo hi n : nat) : bool := ((lo <=? n) && (n <=? hi))%nat.

(** [str.isspace], which is also the regex class [\s]. *)
Definition isspace (c : ascii) : bool :=
  let n := code c in
  between 9 13 n || between 28 32 n || (n =? 133)%nat || (n =? 160)%nat.

(** The line boundaries of [str.splitlines]. *)
Definition is_linebreak (c : ascii) : bool :=
  let n := code c in
  between 10 13 n || between 28 30 n || (n =? 133)%nat.

Definition is_lower (c : ascii) : bool := between 97 122 (code c).
Definition is_upper (c : ascii) : bool := between 65 90 (code c).
Definition upper (c : ascii) : ascii :=
  if is_lower c then ascii_of_nat (code c - 32) else c.
Definition lower (c : ascii) : ascii :=
  if is_upper c then ascii_of_nat (code c + 32) else c.

(** The regex class [\w]: alphanumeric code points and the underscore. *)
Definition is_word (c : ascii) : bool :=
  let n := code c in
  between 48 57 n || between 65 90 n || between 97 122 n || (n =? 95)%nat
  || (n =? 170)%nat || between 178 179 n || (n =? 181)%nat
  || between 185 186 n || between 188 190 n
  || between 192 214 n || between 216 246 n || between 248 255 n.

Fixpoint lstrip (s : string) : string :=
  match s with
  | EmptyString => EmptyString
  | String c r => if isspace c then lstrip r else s
  end.

Fixpoint rstrip (s : string) : string :=
  match s with
  | EmptyString => EmptyString
  | String c r =>
      match rstrip r with
      | EmptyString => if isspace c then EmptyString else String c EmptyString
      | r' => String c r'
      end
  end.

Definition strip (s : string) : string := rstrip (lstrip s).

Fixpoint drop (n : nat) (s : string) : string :=
  match n, s with
  | S n', String _ r => drop n' r
  | _, _ => s
  end.

(** Length of the longest prefix whose characters satisfy [p]. *)
Fixpoint count_while (p : ascii -> bool) (s : string) : nat :=
  match s with
  | String c r => if p c then S (count_while p r) else O
  | EmptyString => O
  end.

(** [re.sub(pattern, repl, s)] for a pattern that cannot match the empty
    string.  [m suffix] tells whether the pattern matches at the start of
    [suffix] and, if so, the replacement text and the length of the match.
    The scan goes left to right and resumes after each match. *)
Fixpoint re_sub_from (m : string -> option (string * nat)) (skip : nat)
    (s : string) : string :=
  match s with
  | EmptyString => EmptyString
  | String c r =>
      match skip with
      | S k => re_sub_from m k r
      | O =>
          match m s with
          | Some (repl, n) => String.append repl (re_sub_from m (Nat.pred n) r)
          | None => String c (re_sub_from m O r)
          end
      end
  end.

Definition re_sub (m : string -> option (string * nat)) (s : string) : string :=
  re_sub_from m O s.

(** [\?\.] and [\!\.], replaced by the mark alone. *)
Definition m_mark_dot (mark : ascii) (s : string) : option (string * nat) :=
  match s with
  | String c (String d _) =>
      if Ascii.eqb c mark && Ascii.eqb d "." then
        Some (String mark EmptyString, 2%nat)
      else None
  | _ => None
  end.

(** [\.{2,}], replaced by one dot. *)
Definition m_dots (s : string) : option (string * nat) :=
  let n := count_while (Ascii.eqb ".") s in
  if (2 <=? n)%nat then Some (".", n) else None.

(** [\s{2,}], replaced by one space. *)
Definition m_spaces (s : string) : option (string * nat) :=
  let n := count_while isspace s in
  if (2 <=? n)%nat then Some (" ", n) else None.

(** [$] under [(?m)]: the end of the text or the position before a newline. *)
Definition at_eol (s : string) : bool :=
  match s with
  | EmptyString => true
  | String c _ => Ascii.eqb c "010"
  end.

(** The greedy [\s*] takes up to [n] characters and gives them back one by
    one until [$] holds. *)
Fixpoint longest_eol (n : nat) (s : string) : option nat :=
  if at_eol (drop n s) then Some n
  else match n with
       | O => None
       | S n' => longest_eol n' s
       end.

(** [(?m)[:;]\s*$], replaced by a dot. *)
Definition m_trailing_colon (s : string) : option (string * nat) :=
  match s with
  | String c r =>
      if Ascii.eqb c ":" || Ascii.eqb c ";" then
        match longest_eol (count_while isspace r) r with
        | Some k => Some (".", S k)
        | None => None
        end
      else None
  | EmptyString => None
  end.

(** Case-insensitive match of a literal at the start of the text; returns
    what follows the match. *)
Fixpoint istarts_with (pat s : string) : option string :=
  match pat with
  | EmptyString => Some s
  | String p pat' =>
      match s with
      | String c r =>
          if Ascii.eqb (lower p) (lower c) then istarts_with pat' r else None
      | EmptyString => None
      end
  end.

(** [(?i)put attention on\b], replaced by "focus on". *)
Definition m_put_attention (s : string) : option (string * nat) :=
  match istarts_with "put attention on" s with
  | Some rest =>
      let boundary := match rest with
                      | EmptyString => true
                      | String c _ => negb (is_word c)
                      end in
      if boundary then Some ("focus on", 16%nat) else None
  | None => None
  end.

(** [\s+([,.;!?])], replaced by the punctuation mark. *)
Definition is_punct (c : ascii) : bool :=
  Ascii.eqb c "," || Ascii.eqb c "." || Ascii.eqb c ";" || Ascii.eqb c "!"
  || Ascii.eqb c "?".

Definition m_space_before_punct (s : string) : option (string * nat) :=
  let n := count_while isspace s in
  if (1 <=? n)%nat then
    match drop n s with
    | String c _ => if is_punct c then Some (String c EmptyString, S n) else None
    | EmptyString => None
    end
  else None.

(** [([,;])([^\s])], replaced by the two characters with a space between. *)
Definition m_glued_comma (s : string) : option (string * nat) :=
  match s with
  | String c (String d _) =>
      if (Ascii.eqb c "," || Ascii.eqb c ";") && negb (isspace d) then
        Some (String c (String " " (String d EmptyString)), 2%nat)
      else None
  | _ => None
  end.

(** [str.splitlines()]; [cur] is the line being read. *)
Fixpoint splitlines_from (cur : string) (s : string) : list string :=
  match s with
  | EmptyString => if String.eqb cur "" then [] else [cur]
  | String c r =>
      if is_linebreak c then
        cur :: match r with
               | String d r' =>
                   if Ascii.eqb c "013" && Ascii.eqb d "010"
                   then splitlines_from "" r'
                   else splitlines_from "" r
               | EmptyString => splitlines_from "" r
               end
      else splitlines_from (String.append cur (String c EmptyString)) r
  end.

Definition splitlines (s : string) : list string := splitlines_from "" s.

Definition newline : string := String "010" EmptyString.

(** The nested [_cap]: after any leading whitespace, a first character in
    [a-z] is put in upper case; otherwise the line is returned as it is. *)
Fixpoint _cap (line : string) : string :=
  match line with
  | EmptyString => EmptyString
  | String c r =>
      if isspace c then String c (_cap r)
      else if is_lower c then String (upper c) r
      else line
  end.

(** [ContentEngine._tidy] *)
Definition _tidy (s : string) : string :=
  if String.eqb s "" then s
  else
    let txt := strip s in
    let txt := re_sub (m_mark_dot "?") txt in
    let txt := re_sub (m_mark_dot "!") txt in
    let txt := re_sub m_dots txt in
    let txt := re_sub m_spaces txt in
    let txt := re_sub m_trailing_colon txt in
    let txt := re_sub m_put_attention txt in
    let lines := map _cap (splitlines txt) in
    strip (String.concat newline lines).

(** [templates._tidy_text] *)
Definition _tidy_text (text : string) : string :=
  if String.eqb text "" then text
  else
    let t := strip text in
    let t := re_sub (m_mark_dot "?") t in
    let t := re_sub (m_mark_dot "!") t in
    let t := re_sub m_dots t in
    let t := re_sub m_spaces t in
    let t := re_sub m_space_before_punct t in
    let t := re_sub m_glued_comma t in
    let t := re_sub m_trailing_colon t in
    let lines :=
      map (fun L => _cap (strip L))
          (List.filter (fun L => negb (String.eqb (strip L) ""))
                       (splitlines t)) in
    strip (String.concat newline lines).

End Text.

(* ===================================================================== *)
(** ** Exceptions *)
(* ===================================================================== *)

(** The outcome of a call that may raise; [Raise e] carries the name of the
    exception class. *)
Inductive result (A : Type) : Type :=
| Ok (a : A)
| Raise (e : string).
Arguments Ok {A} a.
Arguments Raise {A} e.

(* ===================================================================== *)
(** ** nlg.py *)
(* ===================================================================== *)

Module NLG.

Record NLGConfig := {
  provider : string;
  mode : string;
  model : string;
  host : string;
  timeout_sec : Z;
  temperature : Q;
  top_p : Q;
  num_predict : Z;
  enable_cache : bool
}.

Record NLGEngine := {
  cfg : NLGConfig;
  _cache : gmap string string
}.

Definition from_args (provider mode model : string) : option NLGEngine :=
  if String.eqb provider "none" || String.eqb mode "off" then None
  else Some {| cfg := {| provider := provider; mode := mode; model := model;
                         host := "http://localhost:11434"; timeout_sec := 6;
                         temperature := dec 7 10; top_p := dec 95 100;
                         num_predict := 160; enable_cache := false |};
               _cache := ∅ |}.

(** The JSON payload posted to the model server. *)
Record Payload := {
  p_model : string;
  p_prompt : string;
  p_temperature : Q;
  p_top_p : Q;
  p_num_predict : Z
}.

(** What the exchange inside [_ollama_generate] amounts to: a reply whose
    [response] field is read (a missing field reads as the empty text); one
    of the errors the function catches itself ([URLError], [socket.timeout],
    [TimeoutError]); or any other [Exception] (a malformed body, a reset
    connection, a [response] that is no text), which leaves the function. *)
Inductive http_outcome :=
| Replied (response : string)
| Unreachable
| Failed (e : string).

(** The parts of the adapter that lie outside the properties studied: the
    server, the cache key digest, the wording of the prompts, and the
    post-processing of a reply ([_sanitize] then [_finalize_message]).
    Prompts and post-processing draw from the random generator and, being
    inside the [try] block, may raise. *)
Record Delegate := {
  urlopen : Payload -> http_outcome;
  _key : string -> string -> string -> string -> list (string * string) ->
         string -> string -> string;
  _prompt_paraphrase : string -> string -> string -> string ->
                       list (string * string) -> Rng.t -> result string * Rng.t;
  _prompt_full : string -> string -> string -> list (string * string) ->
                 Rng.t -> result string * Rng.t;
  polish : string -> string -> string -> Rng.t -> result string * Rng.t
}.

Section Adapter.
Variable D : Delegate.

(** [random.uniform(a, b)] is [a + (b - a) * random()]. *)
Definition uniform (a b : Q) (g : Rng.t) : Q * Rng.t :=
  let '(u, g) := Rng.random g in ((a + (b - a) * u)%Q, g).

Definition _ollama_generate (c : NLGConfig) (prompt : string) (g : Rng.t)
  : result string * Rng.t :=
  let '(j1, g) := uniform (- (15 # 100)) (15 # 100) g in
  let t := py_max (dec 2 10) (py_min (dec 12 10) (temperature c + j1)%Q) in
  let '(j2, g) := uniform (- (3 # 100)) (3 # 100) g in
  let tp := py_max (dec 5 10) (py_min (dec 99 100) (top_p c + j2)%Q) in
  let '(j3, g) := Rng.randint (-16) 24 g in
  let np := Z.max 96 (Z.min 240 (num_predict c + j3)) in
  let payload := {| p_model := model c; p_prompt := prompt;
                    p_temperature := t; p_top_p := tp;
                    p_num_predict := np |} in
  match urlopen D payload with
  | Replied response => (Ok response, g)
  | Unreachable => (Ok "", g)
  | Failed e => (Raise e, g)
  end.

(** The [try] block of [enhance] from the call of [_ollama_generate] on;
    [prompt] is what building the prompt returned. *)
Definition generate_and_polish (n : NLGEngine)
    (key role header base_body : string) (prompt : result string) (g : Rng.t)
  : result string * NLGEngine * Rng.t :=
  let c := cfg n in
  match prompt with
  | Raise e => (Raise e, n, g)
  | Ok prompt =>
      match _ollama_generate c prompt g with
      | (Raise e, g) => (Raise e, n, g)
      | (Ok reply, g) =>
          let text := Text.strip reply in
          if String.eqb text "" then (Ok base_body, n, g)
          else
            match polish D text role header g with
            | (Raise e, g) => (Raise e, n, g)
            | (Ok text, g) =>
                let n := if enable_cache c
                         then {| cfg := c; _cache := <[key := text]> (_cache n) |}
                         else n in
                (Ok text, n, g)
            end
      end
  end.

(** The body of the [try] block of [enhance]. *)
Definition enhance_try (n : NLGEngine) (key role event header base_body : string)
    (facts : list (string * string)) (g : Rng.t)
  : result string * NLGEngine * Rng.t :=
  let c := cfg n in
  if String.eqb (mode c) "paraphrase" then
    let '(prompt, g) := _prompt_paraphrase D role event header base_body facts g in
    generate_and_polish n key role header base_body prompt g
  else if String.eqb (mode c) "full" then
    let '(prompt, g) := _prompt_full D role event header facts g in
    generate_and_polish n key role header base_body prompt g
  else (Ok base_body, n, g).

Definition enhance (n : NLGEngine) (role event header base_body : string)
    (facts : list (string * string)) (g : Rng.t)
  : result string * NLGEngine * Rng.t :=
  let c := cfg n in
  if String.eqb (provider c) "none" || String.eqb (mode c) "off"
  then (Ok base_body, n, g)
  else
    let key := _key D role event header base_body facts (mode c) (model c) in
    match (if enable_cache c then _cache n !! key else None) with
    | Some cached => (Ok cached, n, g)
    | None =>
        match enhance_try n key role event header base_body facts g with
        | (Ok text, n, g) => (Ok text, n, g)
        | (Raise _, n, g) => (Ok base_body, n, g)   (* except Exception *)
        end
    end.

End Adapter.

End NLG.

(* ===================================================================== *)
(** ** content/voices.py and content/generator.py *)
(* ===================================================================== *)

Module Generator.

Record Voice := { tag : string; tone : string; signature : string }.

Definition VOICES : gmap string Voice := list_to_map [
  ("ruby", {| tag := "Ruby (Elyx Concierge)";
              tone := "Empathetic, organized, proactive"; signature := "" |});
  ("dr_warren", {| tag := "Dr. Warren (Elyx Medical)";
                   tone := "Authoritative, precise, scientific"; signature := "" |});
  ("advik", {| tag := "Advik (Elyx Performance Scientist)";
               tone := "Analytical, hypothesis-driven"; signature := "" |});
  ("carla", {| tag := "Carla (Elyx Nutrition)";
               tone := "Practical, behavioral, educational"; signature := "" |});
  ("rachel", {| tag := "Rachel (Elyx PT)";
                tone := "Direct, encouraging, form & function"; signature := "" |});
  ("neel", {| tag := "Neel (Elyx Concierge Lead)";
              tone := "Strategic, reassuring, big-picture"; signature := "" |});
  ("pa", {| tag := "Sarah Tan (PA)";
            tone := "Efficient, scheduling-focused"; signature := "" |});
  ("member", {| tag := "Rohan"; tone := "Analytical, concise"; signature := "" |})
].

Record Message := {
  timestamp : Clock.datetime;
  sender : string;
  text : string;
  attachments : option (list string);
  initiated_by_member : bool;
  meta : gmap string string
}.

Record GenerationContext := {
  last_week_win : bool;
  cumulative_plan_hours : Q;
  exercise_phase : Z;
  last_openers : gmap string string
}.

Record ContentEngine := {
  interventions : list Interventions.Intervention;
  ctx : GenerationContext;
  week_counter : Z;
  nlg : option NLG.NLGEngine;
  _recent : gmap (string * string) Clock.datetime
}.

(** [ContentEngine.__init__]; the member and team arguments are stored but
    never read by the builders and are left out. *)
Definition new_engine (nlg : option NLG.NLGEngine) : ContentEngine := {|
  interventions := Interventions.default_interventions;
  ctx := {| last_week_win := false; cumulative_plan_hours := dec 0 10;
            exercise_phase := 0; last_openers := ∅ |};
  week_counter := 0;
  nlg := nlg;
  _recent := ∅
|}.

Definition set_ctx (e : ContentEngine) (c : GenerationContext) : ContentEngine :=
  {| interventions := interventions e; ctx := c;
     week_counter := week_counter e; nlg := nlg e; _recent := _recent e |}.

Definition set_nlg (e : ContentEngine) (n : option NLG.NLGEngine)
  : ContentEngine :=
  {| interventions := interventions e; ctx := ctx e;
     week_counter := week_counter e; nlg := n; _recent := _recent e |}.

Definition set_recent (e : ContentEngine)
    (r : gmap (string * string) Clock.datetime) : ContentEngine :=
  {| interventions := interventions e; ctx := ctx e;
     week_counter := week_counter e; nlg := nlg e; _recent := r |}.

(** [_emit]: the suppression gate.  [delta_h] is the number of hours between
    the two instants. *)
Definition _emit (e : ContentEngine) (msg : Message) (kind : string)
    (window_hours : Q) : list Message * ContentEngine :=
  let key := (sender msg, kind) in
  let suppressed :=
    match _recent e !! key with
    | Some last =>
        let delta_h := (inject_Z (timestamp msg - last) / 60)%Q in
        Qltb delta_h window_hours
    | None => false
    end in
  if suppressed then ([], e)
  else ([msg], set_recent e (<[key := timestamp msg]> (_recent e))).

(** [begin_week]: the weekly update of the biomarker state. *)
Fixpoint adherence_loop (ivs : list Interventions.Intervention)
    (travel busy win : bool) (weekly_hours : Q) (st : State.BiomarkerState)
    (g : Rng.t) : list (string * bool) * State.BiomarkerState * Rng.t :=
  match ivs with
  | [] => ([], st, g)
  | iv :: rest =>
      let p := Interventions.weekly_adherence_probability
                 (Interventions.base_adherence iv) travel true busy win
                 weekly_hours in
      let '(did, g) := Interventions.bernoulli p g in
      let st := State.apply_intervention_effects st
                  (Interventions.effect_vector iv) did in
      let '(amap, st, g) :=
        adherence_loop rest travel busy win weekly_hours st g in
      ((Interventions.name iv, did) :: amap, st, g)
  end.

Definition begin_week (e : ContentEngine) (st : State.BiomarkerState)
    (travel busy : bool) (g : Rng.t)
  : list (string * bool) * ContentEngine * State.BiomarkerState * Rng.t :=
  let weekly_hours :=
    fold_left (fun acc iv => add acc (Interventions.time_cost_hours iv))
              (interventions e) (inject_Z 0) in
  let '(adherence_map, st, g) :=
    adherence_loop (interventions e) travel busy (last_week_win (ctx e))
                   weekly_hours st g in
  let st := if travel then State.apply_travel_penalty st else st in
  let '(st, g) := State.add_noise st g in
  let st := State.weekly_bounds st in
  let win_count := 0 in
  let win_count := if ltb (dec 400 10) (State.hrv_ms st)
                   then win_count + 1 else win_count in
  let win_count := if ltb (State.apob st) (dec 1050 10)
                   then win_count + 1 else win_count in
  let win_count := if ltb (State.systolic_bp st) (dec 1340 10)
                   then win_count + 1 else win_count in
  let c := ctx e in
  let e := set_ctx e {| last_week_win := 2 <=? win_count;
                        cumulative_plan_hours := cumulative_plan_hours c;
                        exercise_phase := exercise_phase c;
                        last_openers := last_openers c |} in
  (adherence_map, e, st, g).

(** *** The state threaded through the builders

    The engine, the biomarker state shared by reference with the driver, and
    the process-wide random generator. *)
Record World := {
  rng : Rng.t;
  eng : ContentEngine;
  bio : State.BiomarkerState
}.

Definition M (A : Type) : Type := World -> result A * World.

Definition ret {A} (a : A) : M A := fun w => (Ok a, w).

Definition bind {A B} (m : M A) (k : A -> M B) : M B :=
  fun w => match m w with
           | (Ok a, w') => k a w'
           | (Raise e, w') => (Raise e, w')
           end.

Notation "'let*' x ':=' m 'in' k" := (bind m (fun x => k))
  (at level 10, x name, m at level 100, k at level 200).

Definition raise {A} (e : string) : M A := fun w => (Raise e, w).

(** A call on the module-level [random]. *)
Definition draw {A} (f : Rng.t -> A * Rng.t) : M A :=
  fun w => let '(a, g) := f (rng w) in
           (Ok a, {| rng := g; eng := eng w; bio := bio w |}).

Definition get_eng : M ContentEngine := fun w => (Ok (eng w), w).
Definition put_eng (e : ContentEngine) : M unit :=
  fun w => (Ok tt, {| rng := rng w; eng := e; bio := bio w |}).
Definition get_bio : M State.BiomarkerState := fun w => (Ok (bio w), w).
Definition put_bio (st : State.BiomarkerState) : M unit :=
  fun w => (Ok tt, {| rng := rng w; eng := eng w; bio := st |}).

(** [try: m  except <exc>: handler] *)
Definition try_except {A} (m : M A) (exc : string) (handler : M A) : M A :=
  fun w => match m w with
           | (Raise e, w') => if String.eqb e exc then handler w'
                              else (Raise e, w')
           | r => r
           end.

(** A draft body together with the facts handed to the delegate. *)
Record Draft := { base_body : string; facts : list (string * string) }.

(** The wording of the messages is outside the properties studied.  Each
    field stands for what a builder does to assemble its draft: picking
    phrases from the variation pools, formatting numbers, and filling the
    sentence templates of [templates.py].  All of it reads its arguments
    and the random generator only. *)
Record Wording := {
  (* wins, flags, focus and actions of the weekly report *)
  weekly_report_picks : State.BiomarkerState -> Rng.t ->
                        (list string * list string * list string * list string)
                        * Rng.t;
  weekly_report_draft : (list string * list string * list string * list string)
                        -> State.BiomarkerState -> Q -> Q -> Rng.t
                        -> Draft * Rng.t;
  exercise_update_draft : Z -> bool -> Rng.t -> Draft * Rng.t;
  medical_checkin_draft : State.BiomarkerState -> Rng.t -> Draft * Rng.t;
  nutrition_update_draft : bool -> Rng.t -> Draft * Rng.t;
  travel_adaptation_draft : string -> Rng.t -> Draft * Rng.t;
  diagnostics_schedule_draft : Rng.t -> Draft * Rng.t;
  diagnostics_results_draft : State.BiomarkerState -> Rng.t -> Draft * Rng.t;
  wearable_anomaly_draft : State.BiomarkerState -> bool -> Rng.t
                           -> Draft * Rng.t;
  member_curiosity_text : Rng.t -> string * Rng.t;
  _extract_opener : string -> string
}.

Section Builders.
Variable D : NLG.Delegate.
Variable T : Wording.

(** [VOICES[key].tag]; a missing key raises [KeyError]. *)
Definition _voice (key : string) : M string :=
  match VOICES !! key with
  | Some v => ret (tag v)
  | None => raise "KeyError"
  end.

Definition _member : M string := _voice "member".

(** [tag.split(" (")[0]]: the text before the first occurrence of " (". *)
Fixpoint before_paren (s : string) : string :=
  match s with
  | String " " (String "(" _) => EmptyString
  | String c r => String c (before_paren r)
  | EmptyString => EmptyString
  end.

Definition _remember_opener (role_key text : string) : M unit :=
  let op := _extract_opener T text in
  if String.eqb op "" then ret tt
  else
    let* e := get_eng in
    let c := ctx e in
    put_eng (set_ctx e {| last_week_win := last_week_win c;
                          cumulative_plan_hours := cumulative_plan_hours c;
                          exercise_phase := exercise_phase c;
                          last_openers := <[role_key := op]> (last_openers c) |}).

(** [facts["avoid_opening_like"] = avoid] on a dict kept as an association
    list: an existing entry is replaced in place, a new one goes last. *)
Fixpoint dict_set (k v : string) (d : list (string * string))
  : list (string * string) :=
  match d with
  | [] => [(k, v)]
  | (k', v') :: r => if String.eqb k k' then (k, v) :: r
                     else (k', v') :: dict_set k v r
  end.

Definition _enhance (role_key event header base_body : string)
    (facts : list (string * string)) : M string :=
  let* e := get_eng in
  match nlg e with
  | None => ret (Text._tidy base_body)
  | Some n =>
      let* tag := _voice role_key in
      let role := before_paren tag in
      let avoid := default "" (last_openers (ctx e) !! role_key) in
      let facts := if String.eqb avoid "" then facts
                   else dict_set "avoid_opening_like" avoid facts in
      fun w =>
        let '(r, n', g) :=
          NLG.enhance D n role event header base_body facts (rng w) in
        let w' := {| rng := g; eng := set_nlg (eng w) (Some n'); bio := bio w |} in
        match r with
        | Ok text => (Ok (Text._tidy text), w')
        | Raise x => (Raise x, w')
        end
  end.

Definition emit (msg : Message) (kind : string) (window_hours : Q)
  : M (list Message) :=
  fun w => let '(out, e) := _emit (eng w) msg kind window_hours in
           (Ok out, {| rng := rng w; eng := e; bio := bio w |}).

Definition non_empty {A} (l : list A) : bool :=
  match l with [] => false | _ => true end.

(** The steps every expert builder ends with: enhance the draft, wrap it in
    a [Message] tagged with its kind, pass the suppression gate, and remember
    the opener when the message went out. *)
Definition publish (role_key kind header : string) (when : Clock.datetime)
    (d : Draft) (window_hours : Q) : M (list Message) :=
  let* body := _enhance role_key kind header (base_body d) (facts d) in
  let* who := _voice role_key in
  let msg := {| timestamp := when; sender := who; text := body;
                attachments := None; initiated_by_member := false;
                meta := {[ "kind" := kind ]} |} in
  let* emitted := emit msg kind window_hours in
  let* _ := (if non_empty emitted then _remember_opener role_key body else ret tt) in
  ret emitted.

Definition weekly_report (when : Clock.datetime) : M (list Message) :=
  let* st := get_bio in
  let* picks := draw (weekly_report_picks T st) in
  let* r := draw (State.sample_weekly_hours st) in
  let '(hours_done, st') := r in
  let* _ := put_bio st' in
  let hours_target := State.weekly_hours_committed st' in
  let* d := draw (weekly_report_draft T picks st' hours_done hours_target) in
  publish "ruby" "weekly_report" "Weekly report:" when d (dec 40 10).

Definition set_plan_change (m : Message) : Message :=
  {| timestamp := timestamp m; sender := sender m; text := text m;
     attachments := attachments m;
     initiated_by_member := initiated_by_member m;
     meta := <[ "plan_change" := "True" ]> (meta m) |}.

Definition exercise_update (when : Clock.datetime) : M (list Message) :=
  let* e := get_eng in
  let c := ctx e in
  let phase := exercise_phase c + 1 in
  let* _ := put_eng (set_ctx e {| last_week_win := last_week_win c;
                             cumulative_plan_hours := cumulative_plan_hours c;
                             exercise_phase := phase;
                             last_openers := last_openers c |}) in
  let* u := draw Rng.random in
  let change := Qltb u (1 # 2) in
  let* d := draw (exercise_update_draft T phase change) in
  let* emitted := publish "rachel" "exercise_update" "Exercise update:" when d
               (dec 100 10) in
  ret (match emitted with
       | m :: rest => if change then set_plan_change m :: rest else emitted
       | [] => emitted
       end).

Definition medical_checkin (when : Clock.datetime) : M (list Message) :=
  let* st := get_bio in
  let* d := draw (medical_checkin_draft T st) in
  publish "dr_warren" "medical_checkin" "Medical check-in:" when d (dec 80 10).

Definition nutrition_update (when : Clock.datetime) (traveling : bool)
  : M (list Message) :=
  let* d := draw (nutrition_update_draft T traveling) in
  publish "carla" "nutrition_update" "Nutrition update:" when d (dec 120 10).

Definition travel_adaptation (when : Clock.datetime) (dest : string)
  : M (list Message) :=
  let* d := draw (travel_adaptation_draft T dest) in
  publish "ruby" "travel_adaptation" "Travel adaptation" when d (dec 100 10).

Definition diagnostics_schedule (when : Clock.datetime) : M (list Message) :=
  let* d := draw (diagnostics_schedule_draft T) in
  publish "ruby" "diagnostics_schedule" "Ordering your diagnostic panel" when d
          (dec 240 10).

Definition diagnostics_results (when : Clock.datetime) : M (list Message) :=
  let* st := get_bio in
  let* d := draw (diagnostics_results_draft T st) in
  publish "dr_warren" "diagnostics_results" "Diagnostics results" when d
          (dec 240 10).

Definition wearable_anomaly (when : Clock.datetime) (travel : bool)
  : M (list Message) :=
  let* st := get_bio in
  let* d := draw (wearable_anomaly_draft T st travel) in
  publish "advik" "wearable_anomaly" "Wearable note" when d (dec 100 10).

Definition member_curiosity (when : Clock.datetime) : M (list Message) :=
  let* text := draw (member_curiosity_text T) in
  let text := Text._tidy text in
  let* who := _member in
  let msg := {| timestamp := when; sender := who; text := text;
                attachments := None; initiated_by_member := true;
                meta := {[ "kind" := "member_curiosity" ]} |} in
  emit msg "member_curiosity" (dec 40 10).

Definition pa_scheduling_ack (when : Clock.datetime) : M (list Message) :=
  let* who := try_except (_voice "pa") "KeyError" (_voice "ruby") in
  let options := [
    "Calendar invites sent; lab location shared.";
    "Diagnostics confirmed; QR code is in your email.";
    "Travel holds added; workout times adjusted in your calendar.";
    "Reminder set and shared with Sarah.";
    "All set on my side. Shout if you need anything changed."
  ] in
  let* text := draw (Rng.choice "" options) in
  let msg := {| timestamp := when; sender := who; text := text;
                attachments := None; initiated_by_member := false;
                meta := {[ "kind" := "pa_ack" ]} |} in
  emit msg "pa_ack" (dec 80 10).

(** The method [begin_week] on the shared state. *)
Definition begin_week_m (travel busy : bool) : M (list (string * bool)) :=
  fun w =>
    let '(amap, e, st, g) := begin_week (eng w) (bio w) travel busy (rng w) in
    (Ok amap, {| rng := g; eng := e; bio := st |}).

End Builders.

Definition minutes_apart (ts : Clock.datetime) (minutes : Z) : Clock.datetime :=
  Clock.plus_minutes ts minutes.

End Generator.

(* ===================================================================== *)
(** ** run.py *)
(* ===================================================================== *)

Module Run.
Import Generator.

Section Driver.
Variable D : NLG.Delegate.
Variable T : Wording.

(** The test guarding [engine.begin_week] in the loop of [main]. *)
Definition in_update_window (ev : Scheduler.Event) : bool :=
  (Clock.weekday (Scheduler.when ev) =? 0)
  && (8 <=? Clock.hour (Scheduler.when ev))
  && (Clock.hour (Scheduler.when ev) <=? 12).

(** [ev.meta.get("dest", "")] *)
Definition meta_dest (ev : Scheduler.Event) : M string :=
  match Scheduler.meta ev with
  | Some m => ret (default "" (m !! "dest"))
  | None => raise "AttributeError"
  end.

(** The [if]/[elif] chain routing an event to the content builders. *)
Definition route (ev : Scheduler.Event) (traveling : bool) : M (list Message) :=
  let kind := Scheduler.kind ev in
  let when := Scheduler.when ev in
  if String.eqb kind "weekly_report" then weekly_report D T when
  else if String.eqb kind "exercise_update" then exercise_update D T when
  else if String.eqb kind "medical_checkin" then medical_checkin D T when
  else if String.eqb kind "nutrition_update" then
    nutrition_update D T when traveling
  else if String.eqb kind "travel_adaptation" then
    let* dest := meta_dest ev in
    travel_adaptation D T when dest
  else if String.eqb kind "diagnostics_schedule" then
    let* m1 := diagnostics_schedule D T when in
    let* m2 := pa_scheduling_ack (minutes_apart when 20) in
    ret (m1 ++ m2)
  else if String.eqb kind "diagnostics_results" then
    diagnostics_results D T when
  else if String.eqb kind "wearable_anomaly" then
    wearable_anomaly D T when traveling
  else if String.eqb kind "member_curiosity" then
    let* m0 := member_curiosity T when in
    let reply_time := minutes_apart when 15 in
    (* the three elements of the list literal are evaluated in order
       before [random.choice] is called *)
    let* r1 := nutrition_update D T reply_time traveling in
    let* r2 := medical_checkin D T reply_time in
    let* r3 := wearable_anomaly D T reply_time traveling in
    let* reply := draw (Rng.choice [] [r1; r2; r3]) in
    ret (m0 ++ reply)
  else ret [].

(** One turn of the loop over events.  Besides the messages it appends, the
    turn reports the week for which it called [begin_week], if it did. *)
Definition process_event (travel_plan : Travel.TravelPlan)
    (ev : Scheduler.Event) : M (list Message * list Z) :=
  let traveling :=
    match Travel.destination_for_week travel_plan (Scheduler.week ev) with
    | Some _ => true
    | None => false
    end in
  let busy := Scheduler.week ev mod 6 =? 0 in
  let* updated :=
    (if in_update_window ev then
       let* _ := begin_week_m traveling busy in ret [Scheduler.week ev]
     else ret []) in
  let* out := route ev traveling in
  ret (out, updated).

(** The loop over events: the messages in generation order and the weeks
    of the successive calls of [begin_week].  The variable [current_week] of
    the source is written but never read and is left out. *)
Fixpoint run_events (travel_plan : Travel.TravelPlan)
    (events : list Scheduler.Event) : M (list Message * list Z) :=
  match events with
  | [] => ret ([], [])
  | ev :: rest =>
      let* r := process_event travel_plan ev in
      let* rs := run_events travel_plan rest in
      ret (fst r ++ fst rs, snd r ++ snd rs)
  end.

(** [main] up to the validation and export of the messages.  [g0] is the
    generator as [random.seed(args.seed)] leaves it. *)
Definition main (g0 : Rng.t) (start : Clock.datetime) (weeks : Z)
    (nlg_provider nlg_mode llm_model : string)
  : result (list Message * list Z) * World :=
  let clock := {| Clock.start_date := start |} in
  let travel_plan := Travel.build_travel_plan weeks in
  let nlg_engine := NLG.from_args nlg_provider nlg_mode llm_model in
  let engine := new_engine nlg_engine in
  let state := State.baseline in
  let '(events, g) := Scheduler.build_events clock travel_plan weeks g0 in
  run_events travel_plan events {| rng := g; eng := engine; bio := state |}.

End Driver.

End Run.

(* ===================================================================== *)
(** ** textstyle.py and content/templates.py: lists and duplicate lines *)
(* ===================================================================== *)

Module Textstyle.

(** An item with no visible text: [not (i and i.strip())]. *)
Definition blank (i : string) : bool := String.eqb (Text.strip i) "".

(** [natural_list(items, conj)] *)
Definition natural_list (items : list string) (conj : string) : string :=
  let items := map Text.strip (List.filter (fun i => negb (blank i)) items) in
  match items with
  | [] => ""
  | [a] => a
  | [a; b] => String.append a (String.append " " (String.append conj
                (String.append " " b)))
  | _ => String.append (String.concat ", " (List.removelast items))
           (String.append ", " (String.append conj
              (String.append " " (List.last items ""))))
  end.

(** [str.strip(chars)]: characters satisfying [p] are dropped at both
    ends. *)
Fixpoint lstrip_by (p : ascii -> bool) (s : string) : string :=
  match s with
  | EmptyString => EmptyString
  | String c r => if p c then lstrip_by p r else s
  end.

Fixpoint rstrip_by (p : ascii -> bool) (s : string) : string :=
  match s with
  | EmptyString => EmptyString
  | String c r =>
      match rstrip_by p r with
      | EmptyString => if p c then EmptyString else String c EmptyString
      | r' => String c r'
      end
  end.

Definition strip_by (p : ascii -> bool) (s : string) : string :=
  rstrip_by p (lstrip_by p s).

(** The characters [to_sentence] strips: both ASCII quotes and the space
    (the four curly quotes of the source lie above code point 255). *)
Definition is_quote_or_space (c : ascii) : bool :=
  Ascii.eqb c "034" || Ascii.eqb c "039" || Ascii.eqb c " ".

(** [re.sub] for a pattern that starts with a look at the character before
    the match ([\b]): [prev] is the character before the suffix in the text
    scanned. *)
Fixpoint re_sub_ctx_from (m : option ascii -> string -> option (string * nat))
    (prev : option ascii) (skip : nat) (s : string) : string :=
  match s with
  | EmptyString => EmptyString
  | String c r =>
      match skip with
      | S k => re_sub_ctx_from m (Some c) k r
      | O =>
          match m prev s with
          | Some (repl, n) =>
              String.append repl (re_sub_ctx_from m (Some c) (Nat.pred n) r)
          | None => String c (re_sub_ctx_from m (Some c) O r)
          end
      end
  end.

Definition re_sub_ctx (m : option ascii -> string -> option (string * nat))
    (s : string) : string :=
  re_sub_ctx_from m None O s.

(** [\b] between [prev] and the first character of [s]. *)
Definition word_boundary (prev : option ascii) (s : string) : bool :=
  xorb (match prev with Some c => Text.is_word c | None => false end)
       (match s with String c _ => Text.is_word c | EmptyString => false end).

(** The lengths an alternative of the label pattern can match at the start
    of the text, in the order the regex engine tries them. *)
Definition lit (pat : string) (s : string) : list nat :=
  match Text.istarts_with pat s with
  | Some _ => [String.length pat]
  | None => []
  end.

(** [watch[-\s]?outs] *)
Definition watch_outs (s : string) : list nat :=
  match Text.istarts_with "watch" s with
  | Some rest =>
      (match rest with
       | String c r' =>
           if Ascii.eqb c "-" || Text.isspace c
           then match Text.istarts_with "outs" r' with
                | Some _ => [10%nat]
                | None => []
                end
           else []
       | EmptyString => []
       end)
      ++ (match Text.istarts_with "outs" rest with
          | Some _ => [9%nat]
          | None => []
          end)
  | None => []
  end.

(** [risks?] *)
Definition risks (s : string) : list nat :=
  match Text.istarts_with "risk" s with
  | Some rest =>
      (match Text.istarts_with "s" rest with
       | Some _ => [5%nat]
       | None => []
       end) ++ [4%nat]
  | None => []
  end.

Definition label_alternatives : list (string -> list nat) :=
  [lit "keeping an eye on"; watch_outs; lit "flags"; risks; lit "plan";
   lit "next"; lit "summary"; lit "interpretation"; lit "options";
   lit "on labs/vitals"; lit "on symptoms"].

(** The rest of the pattern after the group, [\s*:\s*]: the length it
    matches at the start of the text. *)
Definition colon_tail (s : string) : option nat :=
  let n1 := Text.count_while Text.isspace s in
  match Text.drop n1 s with
  | String c r =>
      if Ascii.eqb c ":"
      then Some (n1 + 1 + Text.count_while Text.isspace r)%nat
      else None
  | EmptyString => None
  end.

Fixpoint first_label (lengths : list nat) (s : string)
  : option (string * nat) :=
  match lengths with
  | [] => None
  | k :: rest =>
      match colon_tail (Text.drop k s) with
      | Some n => Some (String.append (substring 0 k s) " ", (k + n)%nat)
      | None => first_label rest s
      end
  end.

(** The pattern of [_trim_labely_bits]; the match is replaced by the label
    as it stands in the text and one space. *)
Definition m_label (prev : option ascii) (s : string)
  : option (string * nat) :=
  if word_boundary prev s
  then first_label (flat_map (fun alt => alt s) label_alternatives) s
  else None.

Definition _trim_labely_bits (s : string) : string := re_sub_ctx m_label s.

Definition is_terminal (c : ascii) : bool :=
  Ascii.eqb c "?" || Ascii.eqb c "!" || Ascii.eqb c ".".

Fixpoint last_char (s : string) : option ascii :=
  match s with
  | EmptyString => None
  | String c EmptyString => Some c
  | String _ r => last_char r
  end.

(** [t[:-1]] *)
Fixpoint but_last (s : string) : string :=
  match s with
  | EmptyString => EmptyString
  | String _ EmptyString => EmptyString
  | String c r => String c (but_last r)
  end.

(** [_END_BANG_Q_DOT]: a question or exclamation mark, whitespace and a dot
    at the end of the text (or before a final newline), replaced by the
    mark. *)
Definition m_bang_dot_end (s : string) : option (string * nat) :=
  match s with
  | String c r =>
      if Ascii.eqb c "?" || Ascii.eqb c "!" then
        let n := Text.count_while Text.isspace r in
        match Text.drop n r with
        | String d EmptyString =>
            if Ascii.eqb d "." then Some (String c EmptyString, (n + 2)%nat)
            else None
        | String d (String e EmptyString) =>
            if Ascii.eqb d "." && Ascii.eqb e "010"
            then Some (String c EmptyString, (n + 2)%nat) else None
        | _ => None
        end
      else None
  | EmptyString => None
  end.

(** [to_sentence(s)] *)
Definition to_sentence (s : string) : string :=
  if String.eqb s "" then ""
  else
    let t := strip_by is_quote_or_space (Text.strip s) in
    let t := _trim_labely_bits t in
    let t := Text.re_sub Text.m_spaces t in
    let '(t, mark) :=
      match last_char t with
      | Some c => if is_terminal c then (Text.rstrip (but_last t), c)
                  else (t, "."%char)
      | None => (t, "."%char)
      end in
    let out := String.append t (String mark EmptyString) in
    let out := Text.re_sub (Text.m_mark_dot "?") out in
    let out := Text.re_sub (Text.m_mark_dot "!") out in
    Text.re_sub m_bang_dot_end out.

(** The loop of [_merge_short_lines]: [out] holds the lines made so far,
    [buf] the short fragments waiting to be joined. *)
Definition flush (out buf : list string) : list string :=
  match buf with
  | [] => out
  | _ => out ++ [String.concat " " buf]
  end.

Fixpoint merge_loop (out buf parts : list string) : list string :=
  match parts with
  | [] => flush out buf
  | p :: rest =>
      if (String.length p <? 28)%nat then merge_loop out (buf ++ [p]) rest
      else merge_loop (flush out buf ++ [p]) [] rest
  end.

Definition _merge_short_lines (parts : list string) : list string :=
  merge_loop [] [] parts.

End Textstyle.

Module Templates.

(** [str.lower()] on code points below 256: the letters A-Z and the accented
    capitals U+00C0-U+00DE (the multiplication sign excepted) move by 32. *)
Definition lower_char (c : ascii) : ascii :=
  let n := Text.code c in
  if Text.between 65 90 n || Text.between 192 214 n || Text.between 216 222 n
  then ascii_of_nat (n + 32) else c.

Fixpoint str_lower (s : string) : string :=
  match s with
  | EmptyString => EmptyString
  | String c r => String (lower_char c) (str_lower r)
  end.

Definition is_end_mark (c : ascii) : bool :=
  Ascii.eqb c "." || Ascii.eqb c "?" || Ascii.eqb c "!".

(** The pattern of terminal marks at the end of the text (the ellipsis
    character of the source pattern lies above code point 255); [$] holds
    at the end of the text and before a final newline. *)
Definition m_end_marks (s : string) : option (string * nat) :=
  let n := Text.count_while is_end_mark s in
  if (1 <=? n)%nat then
    match Text.drop n s with
    | EmptyString => Some ("", n)
    | String c EmptyString => if Ascii.eqb c "010" then Some ("", n) else None
    | _ => None
    end
  else None.

(** The pattern [\s+], replaced by one space. *)
Definition m_space_run (s : string) : option (string * nat) :=
  let n := Text.count_while Text.isspace s in
  if (1 <=? n)%nat then Some (" ", n) else None.

(** [templates._normalize_for_dupe] *)
Definition _normalize_for_dupe (line : string) : string :=
  let s := str_lower (Text.strip line) in
  let s := Text.strip (Text.re_sub m_end_marks s) in
  Text.re_sub m_space_run s.

(** The loop of [_dedupe_lines]; [seen] is the set of keys met so far. *)
Fixpoint dedupe_loop (seen : gset string) (lines : list string) : list string :=
  match lines with
  | [] => []
  | ln :: rest =>
      let key := _normalize_for_dupe ln in
      if negb (String.eqb key "") && negb (bool_decide (key ∈ seen))
      then ln :: dedupe_loop ({[ key ]} ∪ seen) rest
      else dedupe_loop seen rest
  end.

Definition _dedupe_lines (lines : list string) : list string :=
  dedupe_loop ∅ lines.

(** [templates._finalize] *)
Definition _finalize (lines : list string) : string :=
  let lines := List.filter (fun ln => negb (String.eqb ln "")
                                      && negb (Textstyle.blank ln)) lines in
  let lines := _dedupe_lines lines in
  Text._tidy_text (String.concat Text.newline lines).

End Templates.

(* ===================================================================== *)
(** ** validators.py: the audit of a conversation *)
(* ===================================================================== *)

Module Audit.

(** [kinds[k] += 1] on a [Counter]. *)
Definition bump (k : string) (kinds : gmap string Z) : gmap string Z :=
  <[k := default 0 (kinds !! k) + 1]> kinds.

(** [kinds[k]]: a missing key counts 0. *)
Definition count_of (kinds : gmap string Z) (k : string) : Z :=
  default 0 (kinds !! k).

Definition startswith (s p : string) : bool := String.prefix p s.

Definition _count_kind_from_text (text_lower : string) (kinds : gmap string Z)
  : gmap string Z :=
  let kinds :=
    if startswith text_lower "weekly report" || startswith text_lower "wins"
       || startswith text_lower "good signs" || startswith text_lower "progress"
    then bump "weekly_report" kinds else kinds in
  let kinds := if startswith text_lower "exercise update"
               then bump "exercise_update" kinds else kinds in
  let kinds := if startswith text_lower "medical check-in"
               then bump "medical_checkin" kinds else kinds in
  let kinds := if startswith text_lower "nutrition update"
               then bump "nutrition_update" kinds else kinds in
  let kinds := if startswith text_lower "travel adaptation"
               then bump "travel_adaptation" kinds else kinds in
  let kinds := if startswith text_lower "ordering your diagnostic panel"
               then bump "diagnostics_schedule" kinds else kinds in
  let kinds := if startswith text_lower "diagnostics results"
               then bump "diagnostics_results" kinds else kinds in
  if startswith text_lower "wearable note"
  then bump "wearable_anomaly" kinds else kinds.

(** One turn of the loop over messages: the counter of kinds and the number
    of member-initiated messages. *)
Definition tally_one (acc : gmap string Z * Z) (m : Generator.Message)
  : gmap string Z * Z :=
  let '(kinds, member_initiated) := acc in
  let k := default "" (Generator.meta m !! "kind") in
  let kinds :=
    if negb (String.eqb k "") then bump k kinds
    else _count_kind_from_text
           (Templates.str_lower (Text.strip (Generator.text m))) kinds in
  (kinds, if Generator.initiated_by_member m then member_initiated + 1
          else member_initiated).

Definition tally (messages : list Generator.Message) : gmap string Z * Z :=
  fold_left tally_one messages (∅, 0).

(** [validate_conversation]: [Ok tt] when every assertion holds, else the
    [AssertionError] of the first one that fails. *)
Definition validate_conversation (messages : list Generator.Message)
    (total_weeks : Z) : result unit :=
  let '(kinds, member_initiated) := tally messages in
  if negb (total_weeks <=? count_of kinds "weekly_report")
  then Raise "AssertionError: Weekly reports missing."
  else if negb (total_weeks / 2 - 1 <=? count_of kinds "exercise_update")
  then Raise "AssertionError: Exercise updates too few."
  else if negb (count_of kinds "diagnostics_results"
                =? Validators._expected_diagnostics_count total_weeks)
  then Raise "AssertionError: Expected diagnostics result summaries"
  else if negb (total_weeks / 4 <=? count_of kinds "travel_adaptation")
  then Raise "AssertionError: Travel adaptations too few."
  else
    let avg_member : Q :=
      if 0 <? total_weeks
      then (inject_Z member_initiated / inject_Z total_weeks)%Q else 0%Q in
    if negb (Qltb avg_member 3) && negb (Qltb 7 avg_member) then Ok tt
    else Raise "AssertionError: Member-initiated average out of band".

End Audit.

(* ===================================================================== *)
(** * Theorems *)
(* ===================================================================== *)

Section RangeFacts.

Lemma py_range_nil a b s : 0 < s -> b <= a -> py_range a b s = [].
Proof.
  intros Hs Hab. unfold py_range.
  replace (Z.to_nat ((b - a + s - 1) / s)) with 0%nat; [reflexivity|].
  assert ((b - a + s - 1) / s <= 0); [|lia].
  assert ((b - a + s - 1) / s < 1); [|lia].
  apply Z.div_lt_upper_bound; lia.
Qed.

Lemma py_range_cons a b s :
  0 < s -> a < b -> py_range a b s = a :: py_range (a + s) b s.
Proof.
  intros Hs Hab. unfold py_range.
  replace (b - a + s - 1) with ((b - (a + s) + s - 1) + 1 * s) by lia.
  rewrite Z.div_add by lia.
  assert (0 <= (b - (a + s) + s - 1) / s) by (apply Z.div_pos; lia).
  rewrite Z2Nat.inj_add by lia. change (Z.to_nat 1) with 1%nat.
  rewrite Nat.add_comm. cbn [Nat.add seq map].
  f_equal; [lia|]. rewrite <- seq_shift, map_map.
  apply map_ext. intros k. lia.
Qed.

Lemma py_range_NoDup a b s : 0 < s -> List.NoDup (py_range a b s).
Proof.
  intros Hs. unfold py_range. apply Stdlib.Lists.Finite.Injective_map_NoDup.
  - intros i j Hij. nia.
  - apply seq_NoDup.
Qed.

(** The elements of a range: the start plus a multiple of the step, below
    the stop. *)
Lemma py_range_spec a b s x :
  0 < s -> In x (py_range a b s) <-> a <= x < b /\ (x - a) mod s = 0.
Proof.
  intros Hs. unfold py_range. rewrite in_map_iff. split.
  - intros (k & <- & Hk). apply in_seq in Hk.
    assert (Hk' : Z.of_nat k < (b - a + s - 1) / s) by lia.
    assert (s * ((b - a + s - 1) / s) <= b - a + s - 1)
      by (apply Z.mul_div_le; lia).
    replace (a + s * Z.of_nat k - a) with (Z.of_nat k * s) by lia.
    rewrite Z.mod_mul by lia. split; [nia | reflexivity].
  - intros [Hx Hmod]. exists (Z.to_nat ((x - a) / s)).
    assert (Hdiv : x - a = s * ((x - a) / s))
      by (apply Z.div_exact; [lia | assumption]).
    assert (0 <= (x - a) / s) by (apply Z.div_pos; lia).
    split; [lia|]. apply in_seq. split; [lia|]. cbn [Nat.add].
    apply Z2Nat.inj_lt; [lia | apply Z.div_pos; lia |].
    assert ((x - a) / s + 1 <= (b - a + s - 1) / s)
      by (apply Z.div_le_lower_bound; lia).
    lia.
Qed.

End RangeFacts.

Section SchedulerFacts.
Import Scheduler.

(** Number of events of kind [k] whose week satisfies [p]. *)
Definition count_kind (k : string) (p : Z -> bool) (l : list Event) : nat :=
  length (List.filter (fun e => String.eqb (kind e) k && p (week e)) l).

Lemma count_kind_app k p l1 l2 :
  count_kind k p (l1 ++ l2) = (count_kind k p l1 + count_kind k p l2)%nat.
Proof. unfold count_kind. now rewrite List.filter_app, List.length_app. Qed.

Lemma count_kind_insert k p e l :
  count_kind k p (insert_by_when e l) = count_kind k p (e :: l).
Proof.
  induction l as [|x r IH]; [reflexivity|].
  cbn [insert_by_when]. destruct (when e <=? when x); [reflexivity|].
  revert IH. unfold count_kind. cbn [List.filter].
  destruct (String.eqb (kind x) k && p (week x))%bool,
           (String.eqb (kind e) k && p (week e))%bool;
    cbn [length]; lia.
Qed.

(** Sorting by time moves events around and keeps them all. *)
Lemma count_kind_sort k p l :
  count_kind k p (sort_by_when l) = count_kind k p l.
Proof.
  induction l as [|e r IH]; [reflexivity|].
  cbn [sort_by_when fold_right]. rewrite count_kind_insert.
  fold (sort_by_when r). unfold count_kind in *. cbn [List.filter].
  destruct (String.eqb (kind e) k && p (week e))%bool; cbn [length]; lia.
Qed.

Definition is_diagnostics (k : string) : Prop :=
  k = "diagnostics_schedule" \/ k = "diagnostics_results".

Lemma curiosity_no_diagnostics k p n w base g :
  is_diagnostics k ->
  count_kind k p (fst (curiosity_events n w base g)) = 0%nat.
Proof.
  intros Hk. revert g. induction n as [|n IH]; intros g; [reflexivity|].
  cbn [curiosity_events]. unfold _random_time, Rng.randint, Rng.choice, Rng.next.
  cbn [Rng.tape Rng.pos].
  match goal with |- context [curiosity_events n w base ?g'] =>
    specialize (IH g'); destruct (curiosity_events n w base g') as [rest g''] end.
  cbn [fst] in *. unfold count_kind in *. cbn [List.filter kind].
  destruct Hk as [-> | ->]; cbn; exact IH.
Qed.

(** What one iteration of the weekly loop schedules for diagnostics. *)
Lemma week_events_diagnostics k p clock travel w g :
  is_diagnostics k ->
  count_kind k p (fst (week_events clock travel w g))
  = if p w && Travel.mem w diagnostic_weeks then 1%nat else 0%nat.
Proof.
  intros Hk. unfold week_events.
  destruct (Travel.mem w diagnostic_weeks); destruct (p w) eqn:Ew;
    cbn [andb];
    unfold _random_time, Rng.randint, Rng.choice, Rng.random, Rng.next;
    cbn [Rng.tape Rng.pos];
    repeat match goal with
    | |- context [if ?c then _ else _] => destruct c
    | |- context [match ?c with Some _ => _ | None => _ end] => destruct c
    | |- context [curiosity_events ?n ?w ?b ?g'] =>
        pose proof (curiosity_no_diagnostics k p n w b g' Hk);
        destruct (curiosity_events n w b g')
    end;
    cbn [fst] in *; rewrite ?count_kind_app;
    repeat match goal with
           | H : count_kind _ _ _ = _ |- _ => rewrite H; clear H
           end;
    destruct Hk as [-> | ->]; unfold count_kind; cbn;
    rewrite ?Ew; reflexivity.
Qed.

Lemma all_weeks_diagnostics k p clock travel ws g :
  is_diagnostics k ->
  count_kind k p (fst (all_weeks clock travel ws g))
  = length (List.filter (fun w => p w && Travel.mem w diagnostic_weeks) ws).
Proof.
  intros Hk. revert g. induction ws as [|w ws IH]; intros g; [reflexivity|].
  cbn [all_weeks].
  pose proof (week_events_diagnostics k p clock travel w g Hk) as Hw.
  destruct (week_events clock travel w g) as [evs g1]. cbn [fst] in Hw.
  specialize (IH g1).
  destruct (all_weeks clock travel ws g1) as [rest g2]. cbn [fst] in *.
  rewrite count_kind_app, Hw, IH. cbn [List.filter].
  destruct (p w && Travel.mem w diagnostic_weeks); reflexivity.
Qed.

(** The diagnostics cadence the scheduler implements: among the weeks 1 to
    [total_weeks], one event of each diagnostics kind in each of the weeks 4,
    16 and 28, and none in any other week. *)
Lemma build_events_diagnostics k p clock travel total_weeks g :
  is_diagnostics k ->
  count_kind k p (fst (build_events clock travel total_weeks g))
  = length (List.filter (fun w => p w && Travel.mem w diagnostic_weeks)
                        (py_range 1 (total_weeks + 1) 1)).
Proof.
  intros Hk. unfold build_events.
  pose proof (all_weeks_diagnostics k p clock travel
                (py_range 1 (total_weeks + 1) 1) g Hk) as H.
  destruct (all_weeks clock travel (py_range 1 (total_weeks + 1) 1) g)
    as [events g']. cbn [fst] in *.
  now rewrite count_kind_sort, H.
Qed.

Lemma mem_In x l : Travel.mem x l = true <-> In x l.
Proof.
  unfold Travel.mem. rewrite existsb_exists. split.
  - intros (y & Hy & E). apply Z.eqb_eq in E. now subst.
  - intros H. exists x. split; [assumption | apply Z.eqb_refl].
Qed.

Lemma count_one_week (w : Z) (q : Z -> bool) ws :
  List.NoDup ws ->
  length (List.filter (fun x => (w =? x) && q x) ws)
  = if Travel.mem w ws && q w then 1%nat else 0%nat.
Proof.
  induction 1 as [|x ws Hnotin Hnd IH]; [reflexivity|].
  cbn [List.filter]. unfold Travel.mem. cbn [existsb].
  fold (Travel.mem w ws). destruct (Z.eqb_spec w x) as [-> | Hne];
    cbn [andb orb].
  - destruct (Travel.mem x ws) eqn:Hmem;
      [apply mem_In in Hmem; contradiction|].
    cbn [andb] in IH. destruct (q x); cbn [length]; now rewrite IH.
  - exact IH.
Qed.

(** *** When the results of a diagnostics panel are shared *)

Lemma replace_fields base h m :
  0 <= h < 24 -> 0 <= m < 60 ->
  Clock.hour (Clock.replace base h m) = h
  /\ Clock.toordinal (Clock.replace base h m) = Clock.toordinal base.
Proof.
  intros Hh Hm. unfold Clock.hour, Clock.replace, Clock.of_fields.
  unfold Clock.toordinal. set (d := base / 1440). split.
  - replace ((d * 24 + h) * 60 + m) with (m + (d * 24 + h) * 60) by lia.
    rewrite Z.div_add by lia. rewrite (Z.div_small m 60) by lia.
    replace (0 + (d * 24 + h)) with (h + d * 24) by lia.
    rewrite Z.mod_add by lia. apply Z.mod_small. lia.
  - replace ((d * 24 + h) * 60 + m) with ((h * 60 + m) + d * 1440) by lia.
    rewrite Z.div_add by lia. rewrite (Z.div_small (h * 60 + m)) by lia. lia.
Qed.

Lemma choice_In {A} (d : A) (l : list A) g :
  l <> [] -> In (fst (Rng.choice d l g)) l.
Proof.
  intros Hl. unfold Rng.choice, Rng.next. cbn [fst]. apply nth_In.
  assert (0 < Z.of_nat (length l)) by (destruct l; [contradiction | cbn; lia]).
  pose proof (Z.mod_pos_bound (Qfloor (Rng.tape g (Rng.pos g)))
                (Z.of_nat (length l)) ltac:(lia)). lia.
Qed.

Lemma _random_time_fields base lo hi g :
  0 <= lo <= hi -> hi < 24 ->
  lo <= Clock.hour (fst (_random_time base lo hi g)) <= hi
  /\ Clock.toordinal (fst (_random_time base lo hi g)) = Clock.toordinal base.
Proof.
  intros Hlo Hhi. unfold _random_time.
  destruct (Rng.randint lo hi g) as [h g1] eqn:Eh.
  pose proof (choice_In 0 [0; 5; 10; 15; 20; 25; 30; 35; 40; 45; 50; 55] g1
                ltac:(discriminate)) as Hm.
  destruct (Rng.choice 0 _ g1) as [m g2]. cbn [fst] in *.
  assert (Hmr : 0 <= m < 60) by (cbn [In] in Hm; lia).
  unfold Rng.randint, Rng.next in Eh. injection Eh as <- _.
  pose proof (Z.mod_pos_bound (Qfloor (Rng.tape g (Rng.pos g))) (hi - lo + 1)
                ltac:(lia)).
  destruct (replace_fields base
              (lo + Qfloor (Rng.tape g (Rng.pos g)) mod (hi - lo + 1)) m
              ltac:(lia) Hmr) as [-> ->].
  split; [lia | reflexivity].
Qed.

(** Every diagnostics-results event falls four days after the weekday on
    which the simulation starts, between 13 and 18 h. *)
Definition results_timing (clock : Clock.SimClock) (e : Event) : Prop :=
  kind e = "diagnostics_results" ->
  Clock.weekday (when e) = (Clock.weekday (Clock.start_date clock) + 4) mod 7
  /\ 13 <= Clock.hour (when e) <= 18.

Lemma results_timing_other clock k w t m :
  k <> "diagnostics_results" ->
  results_timing clock {| kind := k; week := w; when := t; meta := m |}.
Proof. intros Hk H. cbn [kind] in H. contradiction. Qed.

Lemma friday_weekday clock w t :
  Clock.toordinal t
  = Clock.toordinal (Clock.plus_days (Clock.datetime_for clock w 0 9 0) 4) ->
  Clock.weekday t = (Clock.weekday (Clock.start_date clock) + 4) mod 7.
Proof.
  intros Ht. unfold Clock.weekday. rewrite Ht.
  unfold Clock.datetime_for, Clock.plus_days, Clock.toordinal.
  replace (Clock.of_fields ((Clock.start_date clock + 7 * (w - 1) * 1440) / 1440)
             9 0 + 0 * 1440 + 4 * 1440)
    with ((9 * 60) + ((Clock.start_date clock + 7 * (w - 1) * 1440) / 1440 + 4)
                     * 1440)
    by (unfold Clock.of_fields; lia).
  rewrite Z.div_add by lia. rewrite (Z.div_small (9 * 60)) by lia.
  replace (Clock.start_date clock + 7 * (w - 1) * 1440)
    with (Clock.start_date clock + (7 * (w - 1)) * 1440) by lia.
  rewrite Z.div_add by lia.
  set (d := Clock.start_date clock / 1440).
  replace (0 + (d + 7 * (w - 1) + 4) + 6) with ((d + 6 + 4) + (w - 1) * 7)
    by lia.
  rewrite Z.mod_add by lia. rewrite Zplus_mod_idemp_l. reflexivity.
Qed.

Lemma curiosity_results_timing clock n w base g :
  Forall (results_timing clock) (fst (curiosity_events n w base g)).
Proof.
  revert g. induction n as [|n IH]; intros g; [constructor|].
  cbn [curiosity_events].
  destruct (Rng.randint 0 6 g) as [day g1].
  destruct (_random_time _ 8 20 g1) as [t g2].
  specialize (IH g2). destruct (curiosity_events n w base g2) as [rest g3].
  cbn [fst] in *. constructor; [|exact IH].
  apply results_timing_other. discriminate.
Qed.

Lemma week_events_results_timing clock travel w g :
  Forall (results_timing clock) (fst (week_events clock travel w g)).
Proof.
  unfold week_events.
  repeat match goal with
  | |- context [let '(_, _) := (if ?c then _ else _) in _] => destruct c
  | |- context [let '(_, _) :=
                  match ?c with Some _ => _ | None => _ end in _] => destruct c
  | |- context [let '(_, _) := _random_time ?b 13 18 ?g0 in _] =>
      pose proof (_random_time_fields b 13 18 g0 ltac:(lia) ltac:(lia));
      destruct (_random_time b 13 18 g0)
  | |- context [let '(_, _) := _random_time ?b ?lo ?hi ?g0 in _] =>
      destruct (_random_time b lo hi g0)
  | |- context [let '(_, _) := Rng.randint ?lo ?hi ?g0 in _] =>
      destruct (Rng.randint lo hi g0)
  | |- context [let '(_, _) := Rng.random ?g0 in _] =>
      destruct (Rng.random g0)
  | |- context [let '(_, _) := curiosity_events ?n ?w0 ?b ?g0 in _] =>
      pose proof (curiosity_results_timing clock n w0 b g0);
      destruct (curiosity_events n w0 b g0)
  end;
  cbn [fst] in *;
  repeat (apply Forall_app; split); try assumption;
  repeat constructor;
  try (apply results_timing_other; discriminate).
  all: cbn [when];
    match goal with
    | H : _ /\ Clock.toordinal ?t = _ |- _ => destruct H as [Hh Ho]
    end;
    first [apply (friday_weekday clock w); exact Ho | lia].
Qed.

Lemma all_weeks_results_timing clock travel ws g :
  Forall (results_timing clock) (fst (all_weeks clock travel ws g)).
Proof.
  revert g. induction ws as [|w ws IH]; intros g; [constructor|].
  cbn [all_weeks].
  pose proof (week_events_results_timing clock travel w g) as Hw.
  destruct (week_events clock travel w g) as [evs g1]. specialize (IH g1).
  destruct (all_weeks clock travel ws g1) as [rest g2]. cbn [fst] in *.
  apply Forall_app. split; assumption.
Qed.

Lemma insert_by_when_Forall (P : Event -> Prop) e l :
  P e -> Forall P l -> Forall P (insert_by_when e l).
Proof.
  intros He Hl. induction Hl as [|x r Hx Hr IH]; cbn [insert_by_when].
  - constructor; [assumption | constructor].
  - destruct (when e <=? when x); repeat constructor; assumption.
Qed.

(** With a simulation starting on a Monday, the results of every panel are
    shared on a Friday between 13 and 18 h. *)
Lemma build_events_results_timing clock travel total_weeks g :
  Forall (results_timing clock)
         (fst (build_events clock travel total_weeks g)).
Proof.
  unfold build_events.
  pose proof (all_weeks_results_timing clock travel
                (py_range 1 (total_weeks + 1) 1) g) as H.
  destruct (all_weeks clock travel _ g) as [events g1]. cbn [fst] in *.
  induction H as [|e r He Hr IH]; [constructor|].
  cbn [sort_by_when fold_right]. apply insert_by_when_Forall; assumption.
Qed.

End SchedulerFacts.


Section ValidatorFacts.
Import Validators.

Lemma diagnostic_loop_enough total_weeks fuel w :
  0 < w -> (total_weeks - w < 12 * Z.of_nat fuel) ->
  diagnostic_loop fuel w total_weeks = Some (py_range w (total_weeks + 1) 12).
Proof.
  revert w. induction fuel as [|fuel IH]; intros w Hw Hfuel.
  - cbn [diagnostic_loop]. destruct (Z.leb_spec w total_weeks); [lia|].
    now rewrite py_range_nil by lia.
  - cbn [diagnostic_loop]. destruct (Z.leb_spec w total_weeks).
    + rewrite IH by lia. now rewrite (py_range_cons w) by lia.
    + now rewrite py_range_nil by lia.
Qed.

(** The loop of [_diagnostic_weeks] terminates within the fuel it is given
    and returns week 4 and every 12th week after it up to [total_weeks]. *)
Lemma diagnostic_loop_closed_form total_weeks :
  _diagnostic_weeks total_weeks = py_range 4 (total_weeks + 1) 12.
Proof.
  unfold _diagnostic_weeks.
  destruct (Z.leb_spec 4 total_weeks).
  - now rewrite diagnostic_loop_enough by lia.
  - rewrite py_range_nil by lia.
    destruct (Z.to_nat total_weeks); cbn [diagnostic_loop];
      destruct (Z.leb_spec 4 total_weeks); try lia; reflexivity.
Qed.

(** Up to 39 simulated weeks the scheduler follows the cadence of the
    validator: one event of each diagnostics kind in every week of
    [_diagnostic_weeks], none in any other week. *)
Lemma build_events_follows_cadence_below_40 k w clock travel total_weeks g :
  is_diagnostics k -> total_weeks < 40 ->
  count_kind k (Z.eqb w)
    (fst (Scheduler.build_events clock travel total_weeks g))
  = if Travel.mem w (_diagnostic_weeks total_weeks) then 1%nat else 0%nat.
Proof.
  intros Hk Hlt. rewrite build_events_diagnostics by assumption.
  rewrite count_one_week by (apply py_range_NoDup; lia).
  rewrite diagnostic_loop_closed_form.
  replace (Travel.mem w (py_range 4 (total_weeks + 1) 12))
    with (Travel.mem w (py_range 1 (total_weeks + 1) 1)
          && Travel.mem w Scheduler.diagnostic_weeks)%bool; [reflexivity|].
  apply eq_true_iff_eq.
  rewrite andb_true_iff, !mem_In, !py_range_spec by lia.
  unfold Scheduler.diagnostic_weeks. cbn [In].
  rewrite Z.mod_1_r. split.
  - intros [[Hw _] [<- | [<- | [<- | []]]]]; split; try lia; reflexivity.
  - intros [Hw Hmod]. split; [split; [lia | reflexivity]|].
    assert (Hdiv : w - 4 = 12 * ((w - 4) / 12))
      by (apply Z.div_exact; [lia | assumption]).
    assert (0 <= (w - 4) / 12 < 3) by lia. lia.
Qed.

End ValidatorFacts.

(** C1 (evaluation at the failing horizon).  With 40 simulated weeks the
    cadence of the validator, [_diagnostic_weeks], is weeks 4, 16, 28 and 40
    and four result summaries are expected.  Whatever the random draws,
    [build_events] schedules three diagnostics-results events in all and
    neither a diagnostics-schedule nor a diagnostics-results event in
    week 40: its list of diagnostic weeks is the constant 4, 16, 28. *)
Theorem build_events_misses_week_40 :
  forall clock travel g,
    Validators._diagnostic_weeks 40 = [4; 16; 28; 40]
    /\ Validators._expected_diagnostics_count 40 = 4
    /\ count_kind "diagnostics_results" (fun _ => true)
         (fst (Scheduler.build_events clock travel 40 g)) = 3%nat
    /\ count_kind "diagnostics_schedule" (Z.eqb 40)
         (fst (Scheduler.build_events clock travel 40 g)) = 0%nat
    /\ count_kind "diagnostics_results" (Z.eqb 40)
         (fst (Scheduler.build_events clock travel 40 g)) = 0%nat.
Proof.
  intros clock travel g. repeat split; try reflexivity.
  - rewrite build_events_diagnostics by (right; reflexivity). reflexivity.
  - rewrite build_events_diagnostics by (left; reflexivity). reflexivity.
  - rewrite build_events_diagnostics by (right; reflexivity). reflexivity.
Qed.

(** C4 (counterexample).  Run on binary64 floats, as the interpreter does,
    the worked example does not return the double written 0.45: the
    comparison [==] of the two is false. *)
Lemma adherence_example_is_not_0_45 :
  PrimFloat.eqb
    (Interventions.weekly_adherence_probability (F := float)
       (dec 5 10) true true false false (dec 40 10))
    (dec 45 100) = false
  /\ Interventions.weekly_adherence_probability (F := float)
       (dec 5 10) true true false false (dec 40 10)
     <> dec 45 100.
Proof.
  split; [vm_compute; reflexivity|].
  intros H.
  assert (E : PrimFloat.eqb
                (Interventions.weekly_adherence_probability (F := float)
                   (dec 5 10) true true false false (dec 40 10))
                (dec 45 100) = false) by (vm_compute; reflexivity).
  rewrite H in E. vm_compute in E. discriminate.
Qed.

(** The adherence model in the words of its description: the modifiers are
    applied to [base] in the order travel, busy week, assistant support,
    last-week win, over-hours; the outcome is kept when it lies strictly
    between 0.05 and 0.95, raised to 0.05 when it is not above 0.05, and
    replaced by 0.95 otherwise. *)
Definition modified_base {F} `{Arith F} (base : F)
    (travel pa_support busy_week last_week_win : bool) (weekly_hours : F) : F :=
  let p := if travel then sub base (dec 15 100) else base in
  let p := if busy_week then sub p (dec 10 100) else p in
  let p := if pa_support then add p (dec 10 100) else p in
  let p := if last_week_win then add p (dec 5 100) else p in
  if ltb (dec 50 10) weekly_hours then sub p (dec 10 100) else p.

Definition clamp_probability {F} `{Arith F} (p : F) : F :=
  if ltb p (dec 95 100) then
    if ltb (dec 5 100) p then p else dec 5 100
  else dec 95 100.

Lemma adherence_probability_clamps (F : Type) (A : Arith F) :
  ltb (dec 5 100) (dec 95 100) = true ->
  forall base travel pa_support busy_week last_week_win weekly_hours,
    Interventions.weekly_adherence_probability
      base travel pa_support busy_week last_week_win weekly_hours
    = clamp_probability
        (modified_base base travel pa_support busy_week last_week_win
           weekly_hours).
Proof.
  intros Hb base travel pa_support busy_week last_week_win weekly_hours.
  unfold Interventions.weekly_adherence_probability, modified_base,
    clamp_probability, py_max, py_min. cbv zeta.
  match goal with
  | |- context [ltb ?p (dec 95 100)] => destruct (ltb p (dec 95 100))
  end; [reflexivity | now rewrite Hb].
Qed.

(** C4 (amended).  In exact arithmetic and on binary64 floats alike,
    [weekly_adherence_probability] is the clamped modified base.  On binary64
    floats, which is what the program computes with, the worked example
    evaluates to the double just below the one written 0.45; its value is
    0.45 in exact arithmetic. *)
Theorem adherence_probability_is_clamped_modified_base :
  (forall (base weekly_hours : Q) travel pa_support busy_week last_week_win,
      Interventions.weekly_adherence_probability
        base travel pa_support busy_week last_week_win weekly_hours
      = clamp_probability
          (modified_base base travel pa_support busy_week last_week_win
             weekly_hours))
  /\ (forall (base weekly_hours : float) travel pa_support busy_week
             last_week_win,
        Interventions.weekly_adherence_probability
          base travel pa_support busy_week last_week_win weekly_hours
        = clamp_probability
            (modified_base base travel pa_support busy_week last_week_win
               weekly_hours))
  /\ Interventions.weekly_adherence_probability (F := float)
       (dec 5 10) true true false false (dec 40 10)
     = PrimFloat.next_down (dec 45 100)
  /\ (Interventions.weekly_adherence_probability (F := Q)
        (dec 5 10) true true false false (dec 40 10) == dec 45 100)%Q.
Proof.
  split; [|split; [|split]].
  - intros. apply adherence_probability_clamps. reflexivity.
  - intros. apply adherence_probability_clamps. vm_compute. reflexivity.
  - vm_compute. reflexivity.
  - reflexivity.
Qed.

Section StateFacts.
Import State.

(** The physiological band of every metric. *)
Definition within_bands (st : BiomarkerState) : Prop :=
  (95 <= systolic_bp st <= 170
   /\ 55 <= diastolic_bp st <= 110
   /\ 50 <= apob st <= 200
   /\ 40 <= ldl_c st <= 250
   /\ 2 # 10 <= hs_crp st <= 10
   /\ 48 # 10 <= hba1c st <= 7
   /\ 18 <= bmi st <= 35
   /\ 20 <= hrv_ms st <= 120
   /\ 45 <= rhr_bpm st <= 90
   /\ 4 <= sleep_hours st <= 9)%Q.

Lemma clamp_within (x lo hi : Q) :
  (lo <= hi -> lo <= py_min (py_max x lo) hi <= hi)%Q.
Proof.
  intros Hle. unfold py_min, py_max. cbn [ltb exact]. unfold Qltb.
  destruct (Qlt_le_dec x lo) as [Hx | Hx].
  - destruct (Qlt_le_dec hi lo) as [H | H].
    + exfalso. apply (Qlt_irrefl hi). eapply Qlt_le_trans; eassumption.
    + split; [apply Qle_refl | assumption].
  - destruct (Qlt_le_dec hi x) as [H | H].
    + split; [assumption | apply Qle_refl].
    + split; assumption.
Qed.

Lemma weekly_bounds_within_bands st : within_bands (weekly_bounds st).
Proof.
  unfold within_bands, weekly_bounds. cbn [systolic_bp diastolic_bp apob ldl_c
    hs_crp hba1c bmi hrv_ms rhr_bpm sleep_hours].
  repeat split;
    match goal with
    | |- (_ <= py_min (py_max ?x ?lo) ?hi)%Q =>
        refine (Qle_trans _ lo _ _ (proj1 (clamp_within x lo hi _)));
        vm_compute; discriminate
    | |- (py_min (py_max ?x ?lo) ?hi <= _)%Q =>
        refine (Qle_trans _ hi _ (proj2 (clamp_within x lo hi _)) _);
        vm_compute; discriminate
    end.
Qed.

End StateFacts.

Section WeeklyUpdateFacts.
Import Generator.

(** The biomarker state a call of [begin_week] leaves behind. *)
Definition state_after_begin_week (e : ContentEngine)
    (st : State.BiomarkerState) (travel busy : bool) (g : Rng.t)
  : State.BiomarkerState :=
  let '(_, _, st', _) := begin_week e st travel busy g in st'.

(** Successive weekly updates, one per pair of flags (travel, busy), on the
    shared engine, state and random generator. *)
Fixpoint weekly_updates (flags : list (bool * bool)) (e : ContentEngine)
    (st : State.BiomarkerState) (g : Rng.t)
  : ContentEngine * State.BiomarkerState * Rng.t :=
  match flags with
  | [] => (e, st, g)
  | (travel, busy) :: rest =>
      let '(_, e, st, g) := begin_week e st travel busy g in
      weekly_updates rest e st g
  end.

Lemma begin_week_ends_with_clamp e st travel busy g :
  exists st0, state_after_begin_week e st travel busy g
              = State.weekly_bounds st0.
Proof.
  unfold state_after_begin_week, begin_week.
  destruct (adherence_loop _ _ _ _ _ _ _) as [[amap st1] g1].
  destruct (State.add_noise _ g1) as [st2 g2]. eexists. reflexivity.
Qed.

End WeeklyUpdateFacts.

(** C3.  Whatever the state before, the flags, the adherence outcomes and the
    noise (all read from the random tape), the state left by [begin_week] has
    every metric inside its band; hence so has the state after the last of
    any non-empty sequence of weekly updates. *)
Theorem begin_week_keeps_metrics_within_bands :
  (forall e st travel busy g,
      within_bands (state_after_begin_week e st travel busy g))
  /\ (forall flags last e st g,
        within_bands (snd (fst (weekly_updates (flags ++ [last]) e st g)))).
Proof.
  assert (Hstep : forall e st travel busy g,
             within_bands (state_after_begin_week e st travel busy g)).
  { intros e st travel busy g.
    destruct (begin_week_ends_with_clamp e st travel busy g) as [st0 ->].
    apply weekly_bounds_within_bands. }
  split; [exact Hstep|].
  induction flags as [|[tr bu] flags IH]; intros [travel busy] e st g.
  - cbn [app weekly_updates]. specialize (Hstep e st travel busy g).
    unfold state_after_begin_week in Hstep.
    destruct (Generator.begin_week e st travel busy g) as [[[amap e'] st'] g'].
    exact Hstep.
  - cbn [app weekly_updates].
    destruct (Generator.begin_week e st tr bu g) as [[[amap e'] st'] g'].
    apply IH.
Qed.

(** C7 (evaluation at the failing input).  The cleanup pass of the content
    engine turns the text a?.. into A?. and a second pass turns that into A?,
    so cleaning twice differs from cleaning once; the cleanup of the template
    module behaves the same way on this input. *)
Theorem tidy_twice_differs_from_tidy_once :
  Text._tidy "a?.." = "A?."
  /\ Text._tidy (Text._tidy "a?..") = "A?"
  /\ Text._tidy (Text._tidy "a?..") <> Text._tidy "a?.."
  /\ Text._tidy_text "a?.." = "A?."
  /\ Text._tidy_text (Text._tidy_text "a?..") = "A?".
Proof. vm_compute. repeat split; try reflexivity. discriminate. Qed.

Section DelegateFacts.
Import NLG.
Variable D : Delegate.




Lemma enhance_never_raises n role event header base_body facts g :
  exists text n' g',
    enhance D n role event header base_body facts g = (Ok text, n', g').
Proof.
  unfold enhance.
  destruct (_ || _); [eauto|].
  destruct (if enable_cache (cfg n) then _ else _); [eauto|].
  destruct (enhance_try D n _ role event header base_body facts g)
    as [[[text | e] n'] g']; eauto.
Qed.




Lemma from_args_disabled provider mode model :
  provider = "none" \/ mode = "off" ->
  from_args provider mode model = None.
Proof.
  intros [-> | ->]; unfold from_args; cbn [String.eqb];
    rewrite ?String.eqb_refl, ?orb_true_r; reflexivity.
Qed.

End DelegateFacts.

Section MonadFacts.
Import Generator.

Lemma bind_ret {A B} (a : A) (k : A -> M B) w : bind (ret a) k w = k a w.
Proof. reflexivity. Qed.

Lemma bind_get_eng {B} (k : ContentEngine -> M B) w :
  bind get_eng k w = k (eng w) w.
Proof. reflexivity. Qed.

Lemma bind_get_bio {B} (k : State.BiomarkerState -> M B) w :
  bind get_bio k w = k (bio w) w.
Proof. reflexivity. Qed.

Lemma bind_put_eng {B} e (k : unit -> M B) w :
  bind (put_eng e) k w = k tt {| rng := rng w; eng := e; bio := bio w |}.
Proof. reflexivity. Qed.

Lemma bind_put_bio {B} st (k : unit -> M B) w :
  bind (put_bio st) k w = k tt {| rng := rng w; eng := eng w; bio := st |}.
Proof. reflexivity. Qed.

Lemma bind_draw {A B} (f : Rng.t -> A * Rng.t) (k : A -> M B) w :
  bind (draw f) k w
  = k (fst (f (rng w))) {| rng := snd (f (rng w)); eng := eng w; bio := bio w |}.
Proof. unfold bind, draw. now destruct (f (rng w)). Qed.

Lemma bind_ok {A B} (m : M A) (k : A -> M B) w a w' :
  m w = (Ok a, w') -> bind m k w = k a w'.
Proof. intros H. unfold bind. now rewrite H. Qed.

Lemma bind_assoc {A B C} (m : M A) (k : A -> M B) (k' : B -> M C) w :
  bind (bind m k) k' w = bind m (fun a => bind (k a) k') w.
Proof. unfold bind. destruct (m w) as [[a | e] w1]; reflexivity. Qed.

Lemma begin_week_m_total travel busy w :
  exists amap w', begin_week_m travel busy w = (Ok amap, w').
Proof.
  unfold begin_week_m.
  destruct (begin_week _ _ _ _ _) as [[[amap e1] st1] g1]. eauto.
Qed.

End MonadFacts.

Section GateFacts.
Import Generator.

(** The test of [_emit]: a message of the same sender and kind went out
    less than [window_hours] hours before [when]. *)
Definition suppressed (recent : gmap (string * string) Clock.datetime)
    (key : string * string) (when : Clock.datetime) (window_hours : Q) : bool :=
  match recent !! key with
  | Some last => Qltb (inject_Z (when - last) / 60) window_hours
  | None => false
  end.

Lemma _emit_unfold e msg kind window_hours :
  _emit e msg kind window_hours
  = if suppressed (_recent e) (sender msg, kind) (timestamp msg) window_hours
    then ([], e)
    else ([msg],
          set_recent e (<[(sender msg, kind) := timestamp msg]> (_recent e))).
Proof. reflexivity. Qed.

Lemma Qltb_hours (delta : Z) (window_hours : Q) :
  Qltb (inject_Z delta / 60) window_hours = true
  <-> (inject_Z delta < window_hours * 60)%Q.
Proof.
  unfold Qltb. destruct (Qlt_le_dec (inject_Z delta / 60) window_hours) as [H|H].
  - split; [intros _ | reflexivity].
    destruct (Qlt_le_dec (inject_Z delta) (window_hours * 60)) as [Hlt|Hge];
      [assumption|].
    exfalso. apply (Qlt_not_le _ _ H).
    apply Qle_shift_div_l; [reflexivity | assumption].
  - split; [discriminate|]. intros Hlt. exfalso.
    apply (Qlt_not_le (inject_Z delta / 60) window_hours); [|assumption].
    apply Qlt_shift_div_r; [reflexivity | assumption].
Qed.

End GateFacts.

Section BuilderFacts.
Import Generator.
Variable D : NLG.Delegate.
Variable T : Wording.

(** The ten message builders of the engine. *)
Inductive Builder :=
| WeeklyReport | ExerciseUpdate | MedicalCheckin | NutritionUpdate
| TravelAdaptation | DiagnosticsSchedule | DiagnosticsResults
| WearableAnomaly | MemberCuriosity | PaSchedulingAck.

Definition all_builders : list Builder :=
  [WeeklyReport; ExerciseUpdate; MedicalCheckin; NutritionUpdate;
   TravelAdaptation; DiagnosticsSchedule; DiagnosticsResults;
   WearableAnomaly; MemberCuriosity; PaSchedulingAck].

(** A call of a builder; [travel] and [dest] are read by the builders that
    take them. *)
Definition call (b : Builder) (when : Clock.datetime) (travel : bool)
    (dest : string) : M (list Message) :=
  match b with
  | WeeklyReport => weekly_report D T when
  | ExerciseUpdate => exercise_update D T when
  | MedicalCheckin => medical_checkin D T when
  | NutritionUpdate => nutrition_update D T when travel
  | TravelAdaptation => travel_adaptation D T when dest
  | DiagnosticsSchedule => diagnostics_schedule D T when
  | DiagnosticsResults => diagnostics_results D T when
  | WearableAnomaly => wearable_anomaly D T when travel
  | MemberCuriosity => member_curiosity T when
  | PaSchedulingAck => pa_scheduling_ack when
  end.

(** The sender, kind and window each builder hands to [_emit]. *)
Definition gate_key (b : Builder) : string * string :=
  match b with
  | WeeklyReport => ("Ruby (Elyx Concierge)", "weekly_report")
  | ExerciseUpdate => ("Rachel (Elyx PT)", "exercise_update")
  | MedicalCheckin => ("Dr. Warren (Elyx Medical)", "medical_checkin")
  | NutritionUpdate => ("Carla (Elyx Nutrition)", "nutrition_update")
  | TravelAdaptation => ("Ruby (Elyx Concierge)", "travel_adaptation")
  | DiagnosticsSchedule => ("Ruby (Elyx Concierge)", "diagnostics_schedule")
  | DiagnosticsResults => ("Dr. Warren (Elyx Medical)", "diagnostics_results")
  | WearableAnomaly => ("Advik (Elyx Performance Scientist)", "wearable_anomaly")
  | MemberCuriosity => ("Rohan", "member_curiosity")
  | PaSchedulingAck => ("Sarah Tan (PA)", "pa_ack")
  end.

Definition gate_window (b : Builder) : Q :=
  match b with
  | WeeklyReport => dec 40 10
  | ExerciseUpdate => dec 100 10
  | MedicalCheckin => dec 80 10
  | NutritionUpdate => dec 120 10
  | TravelAdaptation => dec 100 10
  | DiagnosticsSchedule => dec 240 10
  | DiagnosticsResults => dec 240 10
  | WearableAnomaly => dec 100 10
  | MemberCuriosity => dec 40 10
  | PaSchedulingAck => dec 80 10
  end.

(** What a call at [when] returns and records, given the record [recent] it
    finds: nothing when suppressed, else one message stamped [when] from the
    builder's sender, whose instant replaces the record of its key. *)
Definition gate_outcome (key : string * string) (window_hours : Q)
    (when : Clock.datetime) (recent recent' : gmap (string * string) Clock.datetime)
    (out : list Message) : Prop :=
  if suppressed recent key when window_hours
  then out = [] /\ recent' = recent
  else (exists m, out = [m] /\ timestamp m = when /\ sender m = fst key
                  /\ meta m !! "kind" = Some (snd key))
       /\ recent' = <[key := when]> recent.

Lemma _voice_known key v w :
  VOICES !! key = Some v -> _voice key w = (Ok (tag v), w).
Proof. intros H. unfold _voice. now rewrite H. Qed.

Lemma _enhance_total role_key v event header base_body facts w :
  VOICES !! role_key = Some v ->
  exists body w',
    _enhance D role_key event header base_body facts w = (Ok body, w')
    /\ _recent (eng w') = _recent (eng w).
Proof.
  intros Hv. unfold _enhance. rewrite bind_get_eng.
  destruct (nlg (eng w)) as [n|]; [|eexists _, _; split; reflexivity].
  rewrite (bind_ok _ _ _ _ _ (_voice_known _ _ w Hv)).
  match goal with
  | |- context [NLG.enhance D n ?r ?e ?h ?b ?f ?g] =>
      destruct (enhance_never_raises D n r e h b f g) as (text & n' & g' & ->)
  end.
  eexists _, _. split; reflexivity.
Qed.

Lemma _remember_opener_recent role_key text w :
  exists w', _remember_opener T role_key text w = (Ok tt, w')
             /\ _recent (eng w') = _recent (eng w).
Proof.
  unfold _remember_opener. destruct (String.eqb _ "").
  - eexists. split; reflexivity.
  - rewrite bind_get_eng. eexists. split; reflexivity.
Qed.

Lemma publish_gate role_key v kind header when d window_hours w :
  VOICES !! role_key = Some v ->
  exists out w',
    publish D T role_key kind header when d window_hours w = (Ok out, w')
    /\ gate_outcome (tag v, kind) window_hours when
         (_recent (eng w)) (_recent (eng w')) out.
Proof.
  intros Hv. unfold publish.
  destruct (_enhance_total role_key v kind header (base_body d) (facts d) w Hv)
    as (body & w1 & He & Hr1).
  rewrite (bind_ok _ _ _ _ _ He).
  rewrite (bind_ok _ _ _ _ _ (_voice_known _ _ w1 Hv)).
  unfold bind at 1. unfold emit. rewrite _emit_unfold. cbn [sender timestamp].
  unfold gate_outcome. rewrite <- Hr1.
  destruct (suppressed (_recent (eng w1)) (tag v, kind) when window_hours).
  - cbn [non_empty]. rewrite bind_ret. eexists _, _. split; [reflexivity|].
    split; reflexivity.
  - cbn [non_empty].
    match goal with
    | |- context [bind (_remember_opener T role_key body) _ ?w2] =>
        destruct (_remember_opener_recent role_key body w2) as (w3 & Hrem & Hr3)
    end.
    rewrite (bind_ok _ _ _ _ _ Hrem). eexists _, _. split; [reflexivity|].
    cbn [fst snd]. split.
    + eexists. split; [reflexivity|]. repeat split.
    + rewrite Hr3. reflexivity.
Qed.

Lemma voice_of_builder_keys :
  VOICES !! "ruby" = Some {| tag := "Ruby (Elyx Concierge)";
                            tone := "Empathetic, organized, proactive";
                            signature := "" |}
  /\ VOICES !! "dr_warren" = Some {| tag := "Dr. Warren (Elyx Medical)";
                                    tone := "Authoritative, precise, scientific";
                                    signature := "" |}
  /\ VOICES !! "advik" = Some {| tag := "Advik (Elyx Performance Scientist)";
                                tone := "Analytical, hypothesis-driven";
                                signature := "" |}
  /\ VOICES !! "carla" = Some {| tag := "Carla (Elyx Nutrition)";
                                tone := "Practical, behavioral, educational";
                                signature := "" |}
  /\ VOICES !! "rachel" = Some {| tag := "Rachel (Elyx PT)";
                                 tone := "Direct, encouraging, form & function";
                                 signature := "" |}
  /\ VOICES !! "pa" = Some {| tag := "Sarah Tan (PA)";
                             tone := "Efficient, scheduling-focused";
                             signature := "" |}
  /\ VOICES !! "member" = Some {| tag := "Rohan"; tone := "Analytical, concise";
                                 signature := "" |}.
Proof. vm_compute. repeat split; reflexivity. Qed.

Ltac through_publish Hvoice :=
  cbv beta; cbn [rng eng bio];
  lazymatch goal with
  | |- context [bind (publish D T ?rk ?k ?h ?wh ?d ?W) _ ?w0] =>
      let H := fresh in
      pose proof (publish_gate rk _ k h wh d W w0 Hvoice) as H;
      destruct H as (msgs & w1 & Hp & Hg);
      cbn [tag eng] in Hg
  | |- context [publish D T ?rk ?k ?h ?wh ?d ?W ?w0] =>
      let H := fresh in
      pose proof (publish_gate rk _ k h wh d W w0 Hvoice) as H;
      destruct H as (msgs & w1 & Hp & Hg);
      cbn [tag eng] in Hg
  end.

(** Every builder returns normally and behaves as the suppression gate on
    the key and window it passes to [_emit]. *)
Lemma call_gate b when travel dest w :
  exists out w',
    call b when travel dest w = (Ok out, w')
    /\ gate_outcome (gate_key b) (gate_window b) when
         (_recent (eng w)) (_recent (eng w')) out.
Proof.
  destruct voice_of_builder_keys
    as (Hruby & Hwarren & Hadvik & Hcarla & Hrachel & Hpa & Hmember).
  destruct b; cbn [call gate_key gate_window].
  - (* weekly_report *)
    unfold weekly_report.
    rewrite bind_get_bio, bind_draw, bind_draw.
    destruct (fst (State.sample_weekly_hours _ _)) as [hours st'].
    rewrite bind_put_bio, bind_draw.
    through_publish Hruby. rewrite Hp. eauto.
  - (* exercise_update *)
    unfold exercise_update.
    rewrite bind_get_eng, bind_put_eng, bind_draw, bind_draw.
    through_publish Hrachel. rewrite (bind_ok _ _ _ _ _ Hp).
    eexists _, _. split; [reflexivity|].
    unfold gate_outcome in *. cbn [_recent set_ctx] in Hg.
    destruct (suppressed _ _ _ _).
    + destruct Hg as [-> ->]. split; reflexivity.
    + destruct Hg as [(m & -> & Ht & Hs & Hk) ->]. split; [|reflexivity].
      destruct (Qltb _ _); [|eauto].
      eexists. split; [reflexivity|]. cbn [set_plan_change timestamp sender meta].
      repeat split; try assumption.
      rewrite lookup_insert_ne by discriminate. assumption.
  - unfold medical_checkin. rewrite bind_get_bio, bind_draw.
    through_publish Hwarren. rewrite Hp. eauto.
  - unfold nutrition_update. rewrite bind_draw.
    through_publish Hcarla. rewrite Hp. eauto.
  - unfold travel_adaptation. rewrite bind_draw.
    through_publish Hruby. rewrite Hp. eauto.
  - unfold diagnostics_schedule. rewrite bind_draw.
    through_publish Hruby. rewrite Hp. eauto.
  - unfold diagnostics_results. rewrite bind_get_bio, bind_draw.
    through_publish Hwarren. rewrite Hp. eauto.
  - unfold wearable_anomaly. rewrite bind_get_bio, bind_draw.
    through_publish Hadvik. rewrite Hp. eauto.
  - (* member_curiosity *)
    unfold member_curiosity, _member. rewrite bind_draw.
    rewrite (bind_ok _ _ _ _ _ (_voice_known _ _ _ Hmember)).
    unfold emit. rewrite _emit_unfold. cbn [sender timestamp tag eng].
    unfold gate_outcome.
    destruct (suppressed _ _ _ _); eexists _, _; (split; [reflexivity|]).
    + split; reflexivity.
    + split; [|reflexivity]. eexists. split; [reflexivity|]. repeat split.
  - (* pa_scheduling_ack *)
    unfold pa_scheduling_ack.
    assert (Hwho : try_except (_voice "pa") "KeyError" (_voice "ruby") w
                   = (Ok "Sarah Tan (PA)", w)).
    { unfold try_except. rewrite (_voice_known _ _ w Hpa). reflexivity. }
    rewrite (bind_ok _ _ _ _ _ Hwho). rewrite bind_draw.
    unfold emit. rewrite _emit_unfold. cbn [sender timestamp eng].
    unfold gate_outcome.
    destruct (suppressed _ _ _ _); eexists _, _; (split; [reflexivity|]).
    + split; reflexivity.
    + split; [|reflexivity]. eexists. split; [reflexivity|]. repeat split.
Qed.

End BuilderFacts.

(** ** Sample instances of the abstract parts, for concrete runs *)

(** A model server that cannot be reached. *)
Definition unreachable_server : NLG.Delegate := {|
  NLG.urlopen := fun _ => NLG.Unreachable;
  NLG._key := fun role event header base_body _ mode model =>
                String.concat "|" [mode; model; role; event; header; base_body];
  NLG._prompt_paraphrase := fun _ _ _ base_body _ g => (Ok base_body, g);
  NLG._prompt_full := fun _ event _ _ g => (Ok event, g);
  NLG.polish := fun text _ _ g => (Ok text, g)
|}.

(** A second model server, which answers every prompt with the prompt. *)
Definition echo_server : NLG.Delegate := {|
  NLG.urlopen := fun payload => NLG.Replied (NLG.p_prompt payload);
  NLG._key := NLG._key unreachable_server;
  NLG._prompt_paraphrase := NLG._prompt_paraphrase unreachable_server;
  NLG._prompt_full := NLG._prompt_full unreachable_server;
  NLG.polish := NLG.polish unreachable_server
|}.

(** A wording with one fixed sentence per builder and no random choice. *)
Definition fixed_draft (body : string) : Generator.Draft :=
  {| Generator.base_body := body; Generator.facts := [] |}.

Definition plain_wording : Generator.Wording := {|
  Generator.weekly_report_picks := fun _ g => (([], [], [], []), g);
  Generator.weekly_report_draft :=
    fun _ _ _ _ g => (fixed_draft "Nothing needed from you right now.", g);
  Generator.exercise_update_draft :=
    fun _ _ g => (fixed_draft "Good to go?", g);
  Generator.medical_checkin_draft :=
    fun _ g => (fixed_draft "Plan: stay the course for now.", g);
  Generator.nutrition_update_draft :=
    fun _ g => (fixed_draft "Noticed dinners are running late.", g);
  Generator.travel_adaptation_draft :=
    fun _ g => (fixed_draft "Okay to proceed?", g);
  Generator.diagnostics_schedule_draft :=
    fun g => (fixed_draft "Fasting instructions are in your inbox.", g);
  Generator.diagnostics_results_draft :=
    fun _ g => (fixed_draft "Results are in.", g);
  Generator.wearable_anomaly_draft :=
    fun _ _ g => (fixed_draft "Night HRV dipped.", g);
  Generator.member_curiosity_text := fun g => ("Quick take?", g);
  Generator._extract_opener := fun text => text
|}.

(** A random tape whose draws are all zero, and a freshly built world. *)
Definition zero_tape : Rng.t := {| Rng.tape := fun _ => 0%Q; Rng.pos := 0 |}.

Definition fresh_world (nlg : option NLG.NLGEngine) (g : Rng.t)
  : Generator.World :=
  {| Generator.rng := g; Generator.eng := Generator.new_engine nlg;
     Generator.bio := State.baseline |}.

Section SuppressionFacts.
Import Generator.

Lemma suppressed_fresh (recent : gmap (string * string) Clock.datetime)
    key when window_hours :
  recent !! key = None -> suppressed recent key when window_hours = false.
Proof. intros H. unfold suppressed. now rewrite H. Qed.

Lemma suppressed_within (recent : gmap (string * string) Clock.datetime)
    key last when window_hours :
  recent !! key = Some last ->
  (inject_Z (when - last) < window_hours * 60)%Q ->
  suppressed recent key when window_hours = true.
Proof.
  intros H Hlt. unfold suppressed. rewrite H. now apply Qltb_hours.
Qed.

Lemma suppressed_elapsed (recent : gmap (string * string) Clock.datetime)
    key last when window_hours :
  recent !! key = Some last ->
  (window_hours * 60 <= inject_Z (when - last))%Q ->
  suppressed recent key when window_hours = false.
Proof.
  intros H Hle. unfold suppressed. rewrite H.
  destruct (Qltb _ _) eqn:E; [|reflexivity].
  apply Qltb_hours in E. exfalso. exact (Qlt_not_le _ _ E Hle).
Qed.

End SuppressionFacts.

(** C5.  Every window a builder passes to the gate lies between 4 and 24
    hours.  [_emit] returns the message and records its instant when its
    (sender, kind) has no record or the record is at least the window old;
    it returns nothing and leaves the engine as it is when the record is
    less than the window old.  Hence, for each builder, a first call with
    no record for its key yields one message, a second call inside the
    window yields none, and a call once the window has elapsed since the
    first yields one again. *)
Theorem emit_suppresses_inside_window :
  Forall (fun b => (4 <= gate_window b <= 24)%Q) all_builders
  /\ (forall e msg kind window_hours,
        (Generator._recent e !! (Generator.sender msg, kind) = None
         \/ exists last,
              Generator._recent e !! (Generator.sender msg, kind) = Some last
              /\ (window_hours * 60
                  <= inject_Z (Generator.timestamp msg - last))%Q) ->
        Generator._emit e msg kind window_hours
        = ([msg],
           Generator.set_recent e
             (<[(Generator.sender msg, kind) := Generator.timestamp msg]>
                (Generator._recent e))))
  /\ (forall e msg kind window_hours last,
        Generator._recent e !! (Generator.sender msg, kind) = Some last ->
        (inject_Z (Generator.timestamp msg - last) < window_hours * 60)%Q ->
        Generator._emit e msg kind window_hours = ([], e))
  /\ (forall D T b travel dest t1 t2 t3 w,
        Generator._recent (Generator.eng w) !! gate_key b = None ->
        (inject_Z (t2 - t1) < gate_window b * 60)%Q ->
        (gate_window b * 60 <= inject_Z (t3 - t1))%Q ->
        exists m1 w1 w2 m3 w3,
          call D T b t1 travel dest w = (Ok [m1], w1)
          /\ call D T b t2 travel dest w1 = (Ok [], w2)
          /\ call D T b t3 travel dest w2 = (Ok [m3], w3)
          /\ Generator._recent (Generator.eng w1) !! gate_key b = Some t1
          /\ Generator._recent (Generator.eng w2) !! gate_key b = Some t1
          /\ Generator._recent (Generator.eng w3) !! gate_key b = Some t3).
Proof.
  split; [|split; [|split]].
  - repeat constructor; vm_compute; discriminate.
  - intros e msg kind window_hours H. rewrite _emit_unfold.
    destruct H as [H | (last & H & Hle)].
    + now rewrite (suppressed_fresh _ _ _ _ H).
    + now rewrite (suppressed_elapsed _ _ _ _ _ H Hle).
  - intros e msg kind window_hours last H Hlt. rewrite _emit_unfold.
    now rewrite (suppressed_within _ _ _ _ _ H Hlt).
  - intros D T b travel dest t1 t2 t3 w Hnone Hin Hout.
    destruct (call_gate D T b t1 travel dest w) as (o1 & w1 & Hc1 & Hg1).
    unfold gate_outcome in Hg1. rewrite (suppressed_fresh _ _ _ _ Hnone) in Hg1.
    destruct Hg1 as [(m1 & -> & _) Hr1].
    assert (Hk1 : Generator._recent (Generator.eng w1) !! gate_key b = Some t1)
      by (rewrite Hr1; apply lookup_insert_eq).
    destruct (call_gate D T b t2 travel dest w1) as (o2 & w2 & Hc2 & Hg2).
    unfold gate_outcome in Hg2.
    rewrite (suppressed_within _ _ _ _ _ Hk1 Hin) in Hg2.
    destruct Hg2 as [-> Hr2].
    assert (Hk2 : Generator._recent (Generator.eng w2) !! gate_key b = Some t1)
      by (rewrite Hr2; exact Hk1).
    destruct (call_gate D T b t3 travel dest w2) as (o3 & w3 & Hc3 & Hg3).
    unfold gate_outcome in Hg3.
    rewrite (suppressed_elapsed _ _ _ _ _ Hk2 Hout) in Hg3.
    destruct Hg3 as [(m3 & -> & _) Hr3].
    exists m1, w1, w2, m3, w3. repeat split; try assumption.
    rewrite Hr3. apply lookup_insert_eq.
Qed.

(** A message to push through the gate by hand. *)
Definition sample_message (when : Clock.datetime) : Generator.Message :=
  {| Generator.timestamp := when; Generator.sender := "Rohan";
     Generator.text := "Quick take?"; Generator.attachments := None;
     Generator.initiated_by_member := true;
     Generator.meta := {[ "kind" := "member_curiosity" ]} |}.

Lemma emit_suppresses_inside_window_witness :
  (exists m1 w1 w2 m3 w3,
      call unreachable_server plain_wording NutritionUpdate 0 false ""
        (fresh_world None zero_tape) = (Ok [m1], w1)
      /\ call unreachable_server plain_wording NutritionUpdate 60 false "" w1
         = (Ok [], w2)
      /\ call unreachable_server plain_wording NutritionUpdate 720 false "" w2
         = (Ok [m3], w3)
      /\ Generator._recent (Generator.eng w1) !! gate_key NutritionUpdate
         = Some 0
      /\ Generator._recent (Generator.eng w2) !! gate_key NutritionUpdate
         = Some 0
      /\ Generator._recent (Generator.eng w3) !! gate_key NutritionUpdate
         = Some 720)
  /\ Generator._emit (Generator.new_engine None) (sample_message 480)
       "member_curiosity" 4
     = ([sample_message 480],
        Generator.set_recent (Generator.new_engine None)
          (<[("Rohan", "member_curiosity") := 480]> ∅))
  /\ Generator._emit
       (Generator.set_recent (Generator.new_engine None)
          {[ ("Rohan", "member_curiosity") := 480 ]})
       (sample_message 600) "member_curiosity" 4
     = ([], Generator.set_recent (Generator.new_engine None)
              {[ ("Rohan", "member_curiosity") := 480 ]}).
Proof.
  split; [|split].
  - apply (proj2 (proj2 (proj2 emit_suppresses_inside_window))).
    + vm_compute. reflexivity.
    + vm_compute. reflexivity.
    + vm_compute. discriminate.
  - apply (proj1 (proj2 emit_suppresses_inside_window)
             (Generator.new_engine None) (sample_message 480)).
    left. vm_compute. reflexivity.
  - apply (proj1 (proj2 (proj2 emit_suppresses_inside_window))
             _ (sample_message 600) "member_curiosity" 4%Q 480).
    + vm_compute. reflexivity.
    + vm_compute. reflexivity.
Defined.





Section DriverFacts.
Import Generator.
Variable D : NLG.Delegate.
Variable T : Wording.

Ltac eval_kind_tests :=
  repeat match goal with
         | |- context [String.eqb ?a ?b] =>
             let v := eval vm_compute in (String.eqb a b) in
             change (String.eqb a b) with v
         end;
  cbv iota.

(** What the driver does with a member question: the question builder, then
    the three expert builders in turn fifteen minutes later, then the random
    pick of one of the three results. *)
Lemma route_curiosity ev traveling w :
  Scheduler.kind ev = "member_curiosity" ->
  let t := Scheduler.when ev in
  exists m0 w0 r1 w1 r2 w2 r3 w3,
    call D T MemberCuriosity t traveling "" w = (Ok m0, w0)
    /\ gate_outcome (gate_key MemberCuriosity) (gate_window MemberCuriosity) t
         (_recent (eng w)) (_recent (eng w0)) m0
    /\ call D T NutritionUpdate (t + 15) traveling "" w0 = (Ok r1, w1)
    /\ gate_outcome (gate_key NutritionUpdate) (gate_window NutritionUpdate)
         (t + 15) (_recent (eng w0)) (_recent (eng w1)) r1
    /\ call D T MedicalCheckin (t + 15) traveling "" w1 = (Ok r2, w2)
    /\ gate_outcome (gate_key MedicalCheckin) (gate_window MedicalCheckin)
         (t + 15) (_recent (eng w1)) (_recent (eng w2)) r2
    /\ call D T WearableAnomaly (t + 15) traveling "" w2 = (Ok r3, w3)
    /\ gate_outcome (gate_key WearableAnomaly) (gate_window WearableAnomaly)
         (t + 15) (_recent (eng w2)) (_recent (eng w3)) r3
    /\ Run.route D T ev traveling w
       = (Ok (m0 ++ fst (Rng.choice [] [r1; r2; r3] (rng w3))),
          {| rng := snd (Rng.choice [] [r1; r2; r3] (rng w3));
             eng := eng w3; bio := bio w3 |}).
Proof.
  intros Hkind t.
  destruct (call_gate D T MemberCuriosity t traveling "" w)
    as (m0 & w0 & Hc0 & Hg0).
  destruct (call_gate D T NutritionUpdate (t + 15) traveling "" w0)
    as (r1 & w1 & Hc1 & Hg1).
  destruct (call_gate D T MedicalCheckin (t + 15) traveling "" w1)
    as (r2 & w2 & Hc2 & Hg2).
  destruct (call_gate D T WearableAnomaly (t + 15) traveling "" w2)
    as (r3 & w3 & Hc3 & Hg3).
  exists m0, w0, r1, w1, r2, w2, r3, w3.
  repeat (split; [assumption|]).
  unfold Run.route. rewrite Hkind. eval_kind_tests.
  cbn [call] in Hc0, Hc1, Hc2, Hc3.
  unfold minutes_apart, Clock.plus_minutes. fold t.
  rewrite (bind_ok _ _ _ _ _ Hc0), (bind_ok _ _ _ _ _ Hc1),
    (bind_ok _ _ _ _ _ Hc2), (bind_ok _ _ _ _ _ Hc3).
  rewrite bind_draw. reflexivity.
Qed.

(** An event the scheduler can produce: a travel adaptation carries its
    destination. *)
Definition well_formed (ev : Scheduler.Event) : bool :=
  negb (String.eqb (Scheduler.kind ev) "travel_adaptation")
  || match Scheduler.meta ev with Some _ => true | None => false end.

Lemma route_total ev traveling w :
  well_formed ev = true ->
  exists out w', Run.route D T ev traveling w = (Ok out, w').
Proof.
  intros Hwf.
  destruct (String.eqb_spec (Scheduler.kind ev) "member_curiosity") as [Hk|Hk].
  { destruct (route_curiosity ev traveling w Hk)
      as (m0 & w0 & r1 & w1 & r2 & w2 & r3 & w3 & H). decompose [and] H. eauto. }
  unfold Run.route, well_formed in *.
  destruct (String.eqb _ "weekly_report").
  { destruct (call_gate D T WeeklyReport (Scheduler.when ev) traveling "" w)
      as (o & w' & H & _). eauto. }
  destruct (String.eqb _ "exercise_update").
  { destruct (call_gate D T ExerciseUpdate (Scheduler.when ev) traveling "" w)
      as (o & w' & H & _). eauto. }
  destruct (String.eqb _ "medical_checkin").
  { destruct (call_gate D T MedicalCheckin (Scheduler.when ev) traveling "" w)
      as (o & w' & H & _). eauto. }
  destruct (String.eqb _ "nutrition_update").
  { destruct (call_gate D T NutritionUpdate (Scheduler.when ev) traveling "" w)
      as (o & w' & H & _). eauto. }
  destruct (String.eqb _ "travel_adaptation").
  { cbn [negb orb] in Hwf. unfold Run.meta_dest.
    destruct (Scheduler.meta ev) as [m|]; [|discriminate].
    rewrite bind_ret.
    destruct (call_gate D T TravelAdaptation (Scheduler.when ev) traveling
                (default "" (m !! "dest")) w) as (o & w' & H & _). eauto. }
  destruct (String.eqb _ "diagnostics_schedule").
  { destruct (call_gate D T DiagnosticsSchedule (Scheduler.when ev) traveling
                "" w) as (o1 & w1 & H1 & _).
    destruct (call_gate D T PaSchedulingAck
                (minutes_apart (Scheduler.when ev) 20) traveling "" w1)
      as (o2 & w2 & H2 & _).
    cbn [call] in H1, H2.
    rewrite (bind_ok _ _ _ _ _ H1), (bind_ok _ _ _ _ _ H2). eauto. }
  destruct (String.eqb _ "diagnostics_results").
  { destruct (call_gate D T DiagnosticsResults (Scheduler.when ev) traveling
                "" w) as (o & w' & H & _). eauto. }
  destruct (String.eqb _ "wearable_anomaly").
  { destruct (call_gate D T WearableAnomaly (Scheduler.when ev) traveling "" w)
      as (o & w' & H & _). eauto. }
  destruct (String.eqb_spec (Scheduler.kind ev) "member_curiosity");
    [contradiction | eauto].
Qed.

(** The weeks for which one turn of the loop calls [begin_week]. *)
Definition update_of (ev : Scheduler.Event) : list Z :=
  if Run.in_update_window ev then [Scheduler.week ev] else [].

Lemma process_event_total travel_plan ev w :
  well_formed ev = true ->
  exists out w',
    Run.process_event D T travel_plan ev w = (Ok (out, update_of ev), w').
Proof.
  intros Hwf. unfold Run.process_event, update_of.
  destruct (Run.in_update_window ev).
  - rewrite bind_assoc.
    match goal with
    | |- context [bind (begin_week_m ?tr ?bu) _ ?w0] =>
        destruct (begin_week_m_total tr bu w0) as (amap & w1 & Hb)
    end.
    rewrite (bind_ok _ _ _ _ _ Hb), bind_ret.
    match goal with
    | |- context [bind (Run.route D T ev ?tr) _ ?w1] =>
        destruct (route_total ev tr w1 Hwf) as (out & w' & H)
    end.
    rewrite (bind_ok _ _ _ _ _ H). eauto.
  - rewrite bind_ret.
    match goal with
    | |- context [bind (Run.route D T ev ?tr) _ ?w1] =>
        destruct (route_total ev tr w1 Hwf) as (out & w' & H)
    end.
    rewrite (bind_ok _ _ _ _ _ H). eauto.
Qed.

(** The loop calls [begin_week] once for every event inside the Monday
    morning window, in the order of the events. *)
Lemma run_events_updates travel_plan events w :
  forallb well_formed events = true ->
  exists msgs w',
    Run.run_events D T travel_plan events w
    = (Ok (msgs, flat_map update_of events), w').
Proof.
  revert w. induction events as [|ev rest IH]; intros w Hwf.
  - eexists _, _. reflexivity.
  - cbn [forallb] in Hwf. apply andb_true_iff in Hwf as [Hev Hrest].
    cbn [Run.run_events flat_map].
    destruct (process_event_total travel_plan ev w Hev) as (out & w1 & H1).
    rewrite (bind_ok _ _ _ _ _ H1).
    destruct (IH w1 Hrest) as (msgs & w2 & H2).
    rewrite (bind_ok _ _ _ _ _ H2). eexists _, _. reflexivity.
Qed.

End DriverFacts.

(** ** A concrete schedule *)

(** The default start of a run, Monday 2025-01-06 (ordinal 739257), and a
    random tape whose n-th draw is 3n + 1. *)
Definition start_2025_01_06 : Clock.SimClock :=
  {| Clock.start_date := Clock.of_fields 739257 0 0 |}.

Definition linear_tape : Rng.t :=
  {| Rng.tape := fun n => inject_Z (Z.of_nat (3 * n + 1)); Rng.pos := 0 |}.

Definition four_weeks : list Scheduler.Event :=
  fst (Scheduler.build_events start_2025_01_06 (Travel.build_travel_plan 4) 4
         linear_tape).

(** In this schedule week 3 has two events on Monday morning (the nutrition
    update at 12:20 and a member question at 12:50) and week 4 has three (the
    diagnostics order at 9:20, the travel adaptation at 9:50 and the exercise
    update at 10:50). *)
Lemma four_weeks_monday_mornings :
  map (fun ev => (Scheduler.kind ev, Scheduler.week ev,
                  Clock.hour (Scheduler.when ev),
                  Clock.minute (Scheduler.when ev)))
      (List.filter Run.in_update_window four_weeks)
  = [("weekly_report", 1, 9, 20); ("weekly_report", 2, 10, 50);
     ("nutrition_update", 3, 12, 20); ("member_curiosity", 3, 12, 50);
     ("diagnostics_schedule", 4, 9, 20); ("travel_adaptation", 4, 9, 50);
     ("exercise_update", 4, 10, 50)].
Proof. vm_compute. reflexivity. Qed.

(** C2 (evaluation at a failing schedule).  On the four-week schedule above,
    whatever the wording, the delegate and the state the loop starts from,
    the driver calls [begin_week] twice for week 3 and three times for
    week 4: once for every event of the Monday morning window. *)
Theorem begin_week_fires_for_each_window_event :
  forall D T w,
  exists msgs w',
    Run.run_events D T (Travel.build_travel_plan 4) four_weeks w
    = (Ok (msgs, [1; 2; 3; 3; 4; 4; 4]), w').
Proof.
  intros D T w.
  assert (Hwf : forallb well_formed four_weeks = true)
    by (vm_compute; reflexivity).
  destruct (run_events_updates D T (Travel.build_travel_plan 4) four_weeks w Hwf)
    as (msgs & w' & H).
  assert (Hupd : flat_map update_of four_weeks = [1; 2; 3; 3; 4; 4; 4])
    by (vm_compute; reflexivity).
  rewrite Hupd in H. eauto.
Qed.

Section CuriosityFacts.
Import Generator.

Lemma choice_of_three {A} (d a b c : A) g :
  fst (Rng.choice d [a; b; c] g) = a
  \/ fst (Rng.choice d [a; b; c] g) = b
  \/ fst (Rng.choice d [a; b; c] g) = c.
Proof.
  unfold Rng.choice, Rng.next. cbn [fst length].
  set (i := Qfloor _ mod Z.of_nat 3).
  assert (0 <= i < 3) by (apply Z.mod_pos_bound; lia).
  assert (Hi : i = 0 \/ i = 1 \/ i = 2) by lia.
  destruct Hi as [-> | [-> | ->]]; cbn; tauto.
Qed.

End CuriosityFacts.

(** C6 (evaluation at the failing input).  Take any member question processed
    by an engine that has emitted nothing yet.  The driver returns the
    question and one expert reply, yet all three expert builders have run:
    the engine now holds a recent-emission record, stamped fifteen minutes
    after the event, for the nutrition update, the medical check-in and the
    wearable note alike. *)
Theorem curiosity_event_runs_all_three_expert_builders :
  forall D T nlg g st wk t traveling,
    let ev := {| Scheduler.kind := "member_curiosity"; Scheduler.week := wk;
                 Scheduler.when := t; Scheduler.meta := None |} in
    let w := {| Generator.rng := g; Generator.eng := Generator.new_engine nlg;
                Generator.bio := st |} in
    exists question reply w',
      Run.route D T ev traveling w = (Ok [question; reply], w')
      /\ Generator.sender question = "Rohan"
      /\ Generator.timestamp reply = t + 15
      /\ Generator._recent (Generator.eng w') !! gate_key NutritionUpdate
         = Some (t + 15)
      /\ Generator._recent (Generator.eng w') !! gate_key MedicalCheckin
         = Some (t + 15)
      /\ Generator._recent (Generator.eng w') !! gate_key WearableAnomaly
         = Some (t + 15).
Proof.
  intros D T nlg g st wk t traveling ev w.
  destruct (route_curiosity D T ev traveling w eq_refl)
    as (m0 & w0 & r1 & w1 & r2 & w2 & r3 & w3
        & _ & Hg0 & _ & Hg1 & _ & Hg2 & _ & Hg3 & Hroute).
  cbn [Scheduler.when ev] in *.
  unfold gate_outcome, suppressed in Hg0, Hg1, Hg2, Hg3.
  cbn [w Generator.eng Generator.new_engine Generator._recent] in Hg0.
  rewrite lookup_empty in Hg0. destruct Hg0 as [(q & -> & _ & Hq & _) Hr0].
  rewrite Hr0 in Hg1.
  rewrite lookup_insert_ne, lookup_empty in Hg1 by discriminate.
  destruct Hg1 as [(m1 & -> & Ht1 & _) Hr1].
  rewrite Hr1 in Hg2.
  rewrite !lookup_insert_ne, lookup_empty in Hg2 by discriminate.
  destruct Hg2 as [(m2 & -> & Ht2 & _) Hr2].
  rewrite Hr2 in Hg3.
  rewrite !lookup_insert_ne, lookup_empty in Hg3 by discriminate.
  destruct Hg3 as [(m3 & -> & Ht3 & _) Hr3].
  assert (Hrecent :
    Generator._recent (Generator.eng w3) !! gate_key NutritionUpdate = Some (t + 15)
    /\ Generator._recent (Generator.eng w3) !! gate_key MedicalCheckin = Some (t + 15)
    /\ Generator._recent (Generator.eng w3) !! gate_key WearableAnomaly = Some (t + 15)).
  { rewrite Hr3. split; [|split].
    - rewrite !lookup_insert_ne by discriminate. apply lookup_insert_eq.
    - rewrite lookup_insert_ne by discriminate. apply lookup_insert_eq.
    - apply lookup_insert_eq. }
  rewrite Hroute.
  destruct (choice_of_three [] [m1] [m2] [m3] (Generator.rng w3))
    as [-> | [-> | ->]];
    eexists _, _, _; (split; [reflexivity|]); cbn [Generator.eng];
    repeat split; try tauto; assumption.
Qed.

(** ** A run with a dropped question *)

(** Three member questions on Tuesday 2025-01-07, at 8:00, 19:55 and 20:00. *)
Definition question_at (hour minute : Z) : Scheduler.Event :=
  {| Scheduler.kind := "member_curiosity"; Scheduler.week := 1;
     Scheduler.when := Clock.of_fields 739258 hour minute;
     Scheduler.meta := None |}.

Definition three_questions : list Scheduler.Event :=
  [question_at 8 0; question_at 19 55; question_at 20 0].

(** Time of day and sender of the messages of a run. *)
Definition timeline (r : result (list Generator.Message * list Z))
  : list (Z * Z * string) :=
  match r with
  | Ok (msgs, _) =>
      map (fun m => (Clock.hour (Generator.timestamp m),
                     Clock.minute (Generator.timestamp m),
                     Generator.sender m)) msgs
  | Raise _ => []
  end.

(** C10.  When the suppression gate drops the member question of a
    member-curiosity event, the driver goes on as for any such event: it
    runs the three expert builders fifteen minutes after the event and
    appends the result picked by [random.choice], so that everything it
    appends for the event comes from an expert and is stamped fifteen
    minutes after it.  The second part is a run from a fresh engine in which
    this happens: the question of 20:00 is dropped (the previous one is five
    minutes old) and the nutrition reply of 20:15 is appended. *)
Theorem dropped_question_still_gets_expert_reply :
  (forall D T ev traveling w,
      Scheduler.kind ev = "member_curiosity" ->
      suppressed (Generator._recent (Generator.eng w))
        (gate_key MemberCuriosity) (Scheduler.when ev)
        (gate_window MemberCuriosity) = true ->
      let t := Scheduler.when ev in
      exists w0 r1 w1 r2 w2 r3 w3 w',
        Generator.member_curiosity T t w = (Ok [], w0)
        /\ Generator.nutrition_update D T (t + 15) traveling w0 = (Ok r1, w1)
        /\ Generator.medical_checkin D T (t + 15) w1 = (Ok r2, w2)
        /\ Generator.wearable_anomaly D T (t + 15) traveling w2 = (Ok r3, w3)
        /\ Run.route D T ev traveling w
           = (Ok (fst (Rng.choice [] [r1; r2; r3] (Generator.rng w3))), w')
        /\ Forall (fun m => Generator.timestamp m = t + 15
                            /\ Generator.sender m <> "Rohan")
                  (r1 ++ r2 ++ r3))
  /\ timeline
       (fst (Run.run_events unreachable_server plain_wording
               (Travel.build_travel_plan 1) three_questions
               (fresh_world None zero_tape)))
     = [(8, 0, "Rohan"); (8, 15, "Carla (Elyx Nutrition)");
        (19, 55, "Rohan"); (20, 15, "Carla (Elyx Nutrition)")].
Proof.
  split; [|vm_compute; reflexivity].
  intros D T ev traveling w Hkind Hsup t.
  destruct (route_curiosity D T ev traveling w Hkind)
    as (m0 & w0 & r1 & w1 & r2 & w2 & r3 & w3
        & Hc0 & Hg0 & Hc1 & Hg1 & Hc2 & Hg2 & Hc3 & Hg3 & Hroute).
  fold t in Hc0, Hg0, Hc1, Hg1, Hc2, Hg2, Hc3, Hg3, Hsup.
  cbn [call] in Hc0, Hc1, Hc2, Hc3.
  unfold gate_outcome in Hg0. rewrite Hsup in Hg0. destruct Hg0 as [-> _].
  exists w0, r1, w1, r2, w2, r3, w3. eexists.
  split; [exact Hc0|]. split; [exact Hc1|]. split; [exact Hc2|].
  split; [exact Hc3|]. split; [exact Hroute|].
  assert (Hexpert : forall key window recent recent' out,
             fst key <> "Rohan" ->
             gate_outcome key window (t + 15) recent recent' out ->
             Forall (fun m => Generator.timestamp m = t + 15
                              /\ Generator.sender m <> "Rohan") out).
  { intros key window recent recent' out Hkey Hg. unfold gate_outcome in Hg.
    destruct (suppressed recent key (t + 15) window).
    - destruct Hg as [-> _]. constructor.
    - destruct Hg as [(m & -> & Ht & Hs & _) _].
      constructor; [|constructor]. split; [exact Ht | now rewrite Hs]. }
  rewrite !Forall_app. repeat split;
    eapply Hexpert; try eassumption; discriminate.
Qed.

Lemma dropped_question_still_gets_expert_reply_witness :
  let w := {| Generator.rng := zero_tape;
              Generator.eng :=
                Generator.set_recent (Generator.new_engine None)
                  {[ gate_key MemberCuriosity := 0 ]};
              Generator.bio := State.baseline |} in
  exists w0 r1 w1 r2 w2 r3 w3 w',
    Generator.member_curiosity plain_wording 60 w = (Ok [], w0)
    /\ Generator.nutrition_update unreachable_server plain_wording (60 + 15)
         false w0 = (Ok r1, w1)
    /\ Generator.medical_checkin unreachable_server plain_wording (60 + 15) w1
       = (Ok r2, w2)
    /\ Generator.wearable_anomaly unreachable_server plain_wording (60 + 15)
         false w2 = (Ok r3, w3)
    /\ Run.route unreachable_server plain_wording
         {| Scheduler.kind := "member_curiosity"; Scheduler.week := 1;
            Scheduler.when := 60; Scheduler.meta := None |} false w
       = (Ok (fst (Rng.choice [] [r1; r2; r3] (Generator.rng w3))), w')
    /\ Forall (fun m => Generator.timestamp m = 60 + 15
                        /\ Generator.sender m <> "Rohan")
              (r1 ++ r2 ++ r3).
Proof.
  intros w.
  apply (proj1 dropped_question_still_gets_expert_reply
           unreachable_server plain_wording
           {| Scheduler.kind := "member_curiosity"; Scheduler.week := 1;
              Scheduler.when := 60; Scheduler.meta := None |} false w).
  - reflexivity.
  - vm_compute. reflexivity.
Defined.

Section OfflineFacts.
Import Generator.
Variables D1 D2 : NLG.Delegate.
Variable T : Wording.

(** No enhancement engine is configured. *)
Definition offline (w : World) : Prop := nlg (eng w) = None.

(** Two computations that cannot be told apart from an offline world, and
    that leave the world offline. *)
Definition agree {A} (m1 m2 : M A) : Prop :=
  forall w, offline w -> m1 w = m2 w /\ offline (snd (m1 w)).

Lemma agree_ret {A} (a : A) : agree (ret a) (ret a).
Proof. intros w Hw. split; [reflexivity | exact Hw]. Qed.

Lemma agree_raise {A} e : agree (@raise A e) (raise e).
Proof. intros w Hw. split; [reflexivity | exact Hw]. Qed.

Lemma agree_draw {A} (f : Rng.t -> A * Rng.t) : agree (draw f) (draw f).
Proof.
  intros w Hw. split; [reflexivity|]. unfold draw.
  destruct (f (rng w)). exact Hw.
Qed.

Lemma agree_bind {A B} (m1 m2 : M A) (k1 k2 : A -> M B) :
  agree m1 m2 -> (forall a, agree (k1 a) (k2 a)) ->
  agree (bind m1 k1) (bind m2 k2).
Proof.
  intros Hm Hk w Hw. destruct (Hm w Hw) as [E Hoff]. unfold bind.
  rewrite <- E. destruct (m1 w) as [[a | e] w1]; cbn [snd] in Hoff.
  - now apply Hk.
  - split; [reflexivity | exact Hoff].
Qed.

Lemma agree_same {A} (m : M A) :
  (forall w, offline w -> offline (snd (m w))) -> agree m m.
Proof. intros H w Hw. split; [reflexivity | now apply H]. Qed.

Lemma _enhance_offline role_key event header base_body facts0 :
  agree (_enhance D1 role_key event header base_body facts0)
        (_enhance D2 role_key event header base_body facts0).
Proof.
  intros w Hw. unfold _enhance. rewrite !bind_get_eng.
  unfold offline in Hw. rewrite Hw. split; [reflexivity | exact Hw].
Qed.

Lemma emit_offline msg kind window_hours :
  agree (emit msg kind window_hours) (emit msg kind window_hours).
Proof.
  apply agree_same. intros w Hw. unfold emit, _emit.
  destruct (match _recent (eng w) !! _ with Some _ => _ | None => _ end);
    exact Hw.
Qed.

Lemma _remember_opener_offline role_key text0 :
  agree (_remember_opener T role_key text0) (_remember_opener T role_key text0).
Proof.
  apply agree_same. intros w Hw. unfold _remember_opener.
  destruct (String.eqb _ ""); [exact Hw|]. rewrite bind_get_eng. exact Hw.
Qed.

Lemma _voice_offline key : agree (_voice key) (_voice key).
Proof.
  unfold _voice. destruct (VOICES !! key); [apply agree_ret | apply agree_raise].
Qed.

Lemma publish_offline role_key kind header when d window_hours :
  agree (publish D1 T role_key kind header when d window_hours)
        (publish D2 T role_key kind header when d window_hours).
Proof.
  unfold publish. apply agree_bind; [apply _enhance_offline|]. intros body.
  apply agree_bind; [apply _voice_offline|]. intros who.
  apply agree_bind; [apply emit_offline|]. intros emitted.
  apply agree_bind; [|intros; apply agree_ret].
  destruct (non_empty emitted);
    [apply _remember_opener_offline | apply agree_ret].
Qed.

Lemma get_bio_offline : agree get_bio get_bio.
Proof. apply agree_same. intros w Hw. exact Hw. Qed.

Lemma put_bio_offline st : agree (put_bio st) (put_bio st).
Proof. apply agree_same. intros w Hw. exact Hw. Qed.

Lemma call_offline b when travel dest :
  agree (call D1 T b when travel dest) (call D2 T b when travel dest).
Proof.
  destruct b; cbn [call].
  - unfold weekly_report. apply agree_bind; [apply get_bio_offline|]. intros st.
    apply agree_bind; [apply agree_draw|]. intros picks.
    apply agree_bind; [apply agree_draw|]. intros [hours st'].
    apply agree_bind; [apply put_bio_offline|]. intros _.
    apply agree_bind; [apply agree_draw|]. intros d. apply publish_offline.
  - unfold exercise_update. intros w Hw.
    rewrite !bind_get_eng, !bind_put_eng.
    match goal with
    | |- bind _ _ ?w1 = _ /\ _ =>
        assert (Hw1 : offline w1) by exact Hw; revert Hw1; generalize w1
    end.
    refine (agree_bind _ _ _ _ (agree_draw _) _). intros u.
    apply agree_bind; [apply agree_draw|]. intros d.
    apply agree_bind; [apply publish_offline | intros; apply agree_ret].
  - unfold medical_checkin. apply agree_bind; [apply get_bio_offline|].
    intros st. apply agree_bind; [apply agree_draw|]. intros d.
    apply publish_offline.
  - unfold nutrition_update. apply agree_bind; [apply agree_draw|]. intros d.
    apply publish_offline.
  - unfold travel_adaptation. apply agree_bind; [apply agree_draw|]. intros d.
    apply publish_offline.
  - unfold diagnostics_schedule. apply agree_bind; [apply agree_draw|].
    intros d. apply publish_offline.
  - unfold diagnostics_results. apply agree_bind; [apply get_bio_offline|].
    intros st. apply agree_bind; [apply agree_draw|]. intros d.
    apply publish_offline.
  - unfold wearable_anomaly. apply agree_bind; [apply get_bio_offline|].
    intros st. apply agree_bind; [apply agree_draw|]. intros d.
    apply publish_offline.
  - unfold member_curiosity, _member.
    apply agree_bind; [apply agree_draw|]. intros text0.
    apply agree_bind; [apply _voice_offline|]. intros who. apply emit_offline.
  - unfold pa_scheduling_ack. apply agree_bind.
    + apply agree_same. intros w Hw. unfold try_except, _voice.
      destruct (VOICES !! "pa"); cbn; [exact Hw|].
      destruct (VOICES !! "ruby"); exact Hw.
    + intros who. apply agree_bind; [apply agree_draw|]. intros text0.
      apply emit_offline.
Qed.

Lemma route_offline ev traveling :
  agree (Run.route D1 T ev traveling) (Run.route D2 T ev traveling).
Proof.
  unfold Run.route.
  destruct (String.eqb _ "weekly_report");
    [exact (call_offline WeeklyReport _ traveling "")|].
  destruct (String.eqb _ "exercise_update");
    [exact (call_offline ExerciseUpdate _ traveling "")|].
  destruct (String.eqb _ "medical_checkin");
    [exact (call_offline MedicalCheckin _ traveling "")|].
  destruct (String.eqb _ "nutrition_update");
    [exact (call_offline NutritionUpdate _ traveling "")|].
  destruct (String.eqb _ "travel_adaptation").
  { apply agree_bind.
    - unfold Run.meta_dest. destruct (Scheduler.meta ev);
        [apply agree_ret | apply agree_raise].
    - intros dest. exact (call_offline TravelAdaptation _ traveling dest). }
  destruct (String.eqb _ "diagnostics_schedule").
  { apply agree_bind;
      [exact (call_offline DiagnosticsSchedule _ traveling "")|]. intros m1.
    apply agree_bind;
      [exact (call_offline PaSchedulingAck _ traveling "")|]. intros m2.
    apply agree_ret. }
  destruct (String.eqb _ "diagnostics_results");
    [exact (call_offline DiagnosticsResults _ traveling "")|].
  destruct (String.eqb _ "wearable_anomaly");
    [exact (call_offline WearableAnomaly _ traveling "")|].
  destruct (String.eqb _ "member_curiosity"); [|apply agree_ret].
  apply agree_bind; [exact (call_offline MemberCuriosity _ traveling "")|].
  intros m0.
  apply agree_bind; [exact (call_offline NutritionUpdate _ traveling "")|].
  intros r1.
  apply agree_bind; [exact (call_offline MedicalCheckin _ traveling "")|].
  intros r2.
  apply agree_bind; [exact (call_offline WearableAnomaly _ traveling "")|].
  intros r3.
  apply agree_bind; [apply agree_draw | intros; apply agree_ret].
Qed.

Lemma begin_week_m_offline travel busy :
  agree (begin_week_m travel busy) (begin_week_m travel busy).
Proof.
  apply agree_same. intros w Hw. unfold begin_week_m, begin_week.
  destruct (adherence_loop _ _ _ _ _ _ _) as [[amap st1] g1].
  destruct (State.add_noise _ g1) as [st2 g2]. exact Hw.
Qed.

Lemma run_events_offline travel_plan events :
  agree (Run.run_events D1 T travel_plan events)
        (Run.run_events D2 T travel_plan events).
Proof.
  induction events as [|ev rest IH]; [apply agree_ret|].
  cbn [Run.run_events]. apply agree_bind.
  - unfold Run.process_event. apply agree_bind.
    + destruct (Run.in_update_window ev); [|apply agree_ret].
      apply agree_bind; [apply begin_week_m_offline|].
      intros; apply agree_ret.
    + intros updated. apply agree_bind; [apply route_offline|].
      intros; apply agree_ret.
  - intros r. apply agree_bind; [exact IH | intros; apply agree_ret].
Qed.

End OfflineFacts.

(** C9.  With enhancement disabled (provider none or mode off) the outcome
    of the whole pipeline, and so the sequence of messages with their
    timestamps, senders, bodies and flags, is determined by the state in
    which seeding leaves the random generator, the start date and the number
    of weeks: two executions that agree on these give the same outcome
    whatever the environment does in either of them. *)
Theorem disabled_run_is_determined_by_seed_and_configuration :
  forall D1 D2 T g0 start weeks provider mode model,
    provider = "none" \/ mode = "off" ->
    Run.main D1 T g0 start weeks provider mode model
    = Run.main D2 T g0 start weeks provider mode model.
Proof.
  intros D1 D2 T g0 start weeks provider mode model Hoff.
  unfold Run.main.
  rewrite (from_args_disabled provider mode model Hoff).
  destruct (Scheduler.build_events _ _ weeks g0) as [events g].
  apply (run_events_offline D1 D2 T). reflexivity.
Qed.

Lemma disabled_run_is_determined_by_seed_and_configuration_witness :
  Run.main unreachable_server plain_wording linear_tape
    (Clock.of_fields 739257 0 0) 34 "none" "paraphrase" "phi3:mini"
  = Run.main echo_server plain_wording linear_tape
      (Clock.of_fields 739257 0 0) 34 "none" "paraphrase" "phi3:mini".
Proof.
  apply disabled_run_is_determined_by_seed_and_configuration.
  left. reflexivity.
Defined.
(* ===================================================================== *)
(** * Further properties of the code *)
(* ===================================================================== *)

(** ** calendar2.py: the clock and the travel plan *)

Section CalendarFacts.

Lemma of_fields_parts d h m :
  0 <= h < 24 -> 0 <= m < 60 ->
  Clock.toordinal (Clock.of_fields d h m) = d
  /\ Clock.hour (Clock.of_fields d h m) = h
  /\ Clock.minute (Clock.of_fields d h m) = m.
Proof.
  intros Hh Hm.
  unfold Clock.toordinal, Clock.hour, Clock.minute, Clock.of_fields.
  split; [|split].
  - symmetry. apply (Z.div_unique_pos _ 1440 d (h * 60 + m)); lia.
  - replace (((d * 24 + h) * 60 + m) / 60) with (d * 24 + h)
      by (apply (Z.div_unique_pos _ 60 _ m); lia).
    symmetry. apply (Z.mod_unique_pos _ 24 d h); lia.
  - symmetry. apply (Z.mod_unique_pos _ 60 (d * 24 + h) m); lia.
Qed.

Lemma plus_days_parts t d :
  Clock.toordinal (Clock.plus_days t d) = Clock.toordinal t + d
  /\ Clock.hour (Clock.plus_days t d) = Clock.hour t
  /\ Clock.minute (Clock.plus_days t d) = Clock.minute t.
Proof.
  unfold Clock.toordinal, Clock.hour, Clock.minute, Clock.plus_days.
  split; [|split].
  - now rewrite Z.div_add by lia.
  - replace (t + d * 1440) with (t + (d * 24) * 60) by lia.
    rewrite Z.div_add by lia. now rewrite Z.mod_add by lia.
  - replace (t + d * 1440) with (t + (d * 24) * 60) by lia.
    now rewrite Z.mod_add by lia.
Qed.

Lemma datetime_for_parts c week day_offset hour minute :
  0 <= hour < 24 -> 0 <= minute < 60 ->
  Clock.toordinal (Clock.datetime_for c week day_offset hour minute)
  = Clock.toordinal (Clock.start_date c) + 7 * (week - 1) + day_offset
  /\ Clock.hour (Clock.datetime_for c week day_offset hour minute) = hour
  /\ Clock.minute (Clock.datetime_for c week day_offset hour minute) = minute.
Proof.
  intros Hh Hm. unfold Clock.datetime_for.
  destruct (plus_days_parts
              (Clock.of_fields
                 (Clock.toordinal
                    (Clock.plus_days (Clock.start_date c) (7 * (week - 1))))
                 hour minute) day_offset) as (-> & -> & ->).
  destruct (of_fields_parts
              (Clock.toordinal
                 (Clock.plus_days (Clock.start_date c) (7 * (week - 1))))
              hour minute Hh Hm) as (-> & -> & ->).
  destruct (plus_days_parts (Clock.start_date c) (7 * (week - 1)))
    as (-> & _ & _).
  repeat split.
Qed.

(** Index of an element in an arithmetic progression. *)
Lemma index_progression a s k i n :
  0 < s -> (i <= k < i + n)%nat ->
  Travel.index (a + s * Z.of_nat k)
    (map (fun j => a + s * Z.of_nat j) (seq i n)) = Z.of_nat (k - i).
Proof.
  intros Hs. revert i. induction n as [|n IH]; intros i Hk; [lia|].
  cbn [seq map Travel.index].
  destruct (Z.eqb_spec (a + s * Z.of_nat k) (a + s * Z.of_nat i)) as [E | E].
  - assert (k = i) by nia. subst. f_equal. lia.
  - assert (k <> i) by (intros ->; contradiction).
    rewrite IH by lia. lia.
Qed.

Lemma index_py_range a b s x :
  0 < s -> In x (py_range a b s) ->
  Travel.index x (py_range a b s) = (x - a) / s.
Proof.
  intros Hs Hin. unfold py_range in *. apply in_map_iff in Hin.
  destruct Hin as (k & <- & Hk). apply in_seq in Hk.
  rewrite index_progression by lia.
  replace (a + s * Z.of_nat k - a) with (Z.of_nat k * s) by lia.
  rewrite Z.div_mul by lia. lia.
Qed.

Definition travel_week (weeks w : Z) : bool :=
  (4 <=? w) && (w <=? weeks) && (w mod 4 =? 0).

Lemma travel_week_mem weeks w :
  Travel.mem w (Travel.travel_weeks (Travel.build_travel_plan weeks))
  = travel_week weeks w.
Proof.
  apply eq_true_iff_eq. unfold travel_week, Travel.build_travel_plan.
  cbn [Travel.travel_weeks].
  rewrite mem_In, py_range_spec by lia.
  rewrite !andb_true_iff, !Z.leb_le, Z.eqb_eq.
  replace (w - 4) with (w + (-1) * 4) by lia. rewrite Z.mod_add by lia. lia.
Qed.

(** The plan built for a run, in closed form. *)
Lemma travel_plan_lookup weeks w :
  Travel.destination_for_week (Travel.build_travel_plan weeks) w
  = if travel_week weeks w
    then Some (nth (Z.to_nat ((w / 4 - 1) mod 4))
                 (Travel.destinations (Travel.build_travel_plan weeks)) "")
    else None.
Proof.
  unfold Travel.destination_for_week. rewrite travel_week_mem.
  destruct (travel_week weeks w) eqn:E; [|reflexivity].
  rewrite <- travel_week_mem in E. apply mem_In in E.
  cbn [Travel.build_travel_plan Travel.travel_weeks] in *.
  rewrite index_py_range by (lia || assumption).
  apply py_range_spec in E; [|lia]. destruct E as [Hw Hmod].
  cbn [Travel.destinations length]. change (Z.of_nat 4) with 4.
  replace (w - 4) with (w + (-1) * 4) by lia. rewrite Z.div_add by lia.
  replace (w / 4 + -1) with (w / 4 - 1) by lia. reflexivity.
Qed.

Lemma travel_destination_named weeks w :
  travel_week weeks w = true ->
  exists dest,
    Travel.destination_for_week (Travel.build_travel_plan weeks) w = Some dest
    /\ In dest (Travel.destinations (Travel.build_travel_plan weeks))
    /\ dest <> "".
Proof.
  intros E. rewrite travel_plan_lookup, E. eexists. split; [reflexivity|].
  pose proof (Z.mod_pos_bound (w / 4 - 1) 4 ltac:(lia)) as Hb.
  assert (Hn : (Z.to_nat ((w / 4 - 1) mod 4) < 4)%nat) by lia.
  cbn [Travel.build_travel_plan Travel.destinations].
  destruct (Z.to_nat ((w / 4 - 1) mod 4)) as [|[|[|[|n]]]]; [| | | |lia];
    cbn [nth In]; (split; [tauto | discriminate]).
Qed.

End CalendarFacts.

(** X1.  [SimClock.datetime_for] keeps the requested time of day, lands
    [7 * (week - 1) + day_offset] days after the start date, and so on the
    weekday of the start date moved by [day_offset]. *)
Theorem datetime_for_fields :
  forall (c : Clock.SimClock) (week day_offset hour minute : Z),
    0 <= hour < 24 -> 0 <= minute < 60 ->
    Clock.hour (Clock.datetime_for c week day_offset hour minute) = hour
    /\ Clock.minute (Clock.datetime_for c week day_offset hour minute) = minute
    /\ Clock.toordinal (Clock.datetime_for c week day_offset hour minute)
       = Clock.toordinal (Clock.start_date c) + 7 * (week - 1) + day_offset
    /\ Clock.weekday (Clock.datetime_for c week day_offset hour minute)
       = (Clock.weekday (Clock.start_date c) + day_offset) mod 7.
Proof.
  intros c week day_offset hour minute Hh Hm.
  destruct (datetime_for_parts c week day_offset hour minute Hh Hm)
    as (Ho & Hhour & Hmin).
  repeat split; try assumption.
  unfold Clock.weekday. rewrite Ho.
  set (d := Clock.toordinal (Clock.start_date c)).
  replace (d + 7 * (week - 1) + day_offset + 6)
    with ((d + 6 + day_offset) + (week - 1) * 7) by lia.
  rewrite Z.mod_add by lia. now rewrite Zplus_mod_idemp_l.
Qed.

Lemma datetime_for_fields_witness :
  Clock.hour (Clock.datetime_for start_2025_01_06 3 4 13 30) = 13
  /\ Clock.minute (Clock.datetime_for start_2025_01_06 3 4 13 30) = 30
  /\ Clock.toordinal (Clock.datetime_for start_2025_01_06 3 4 13 30)
     = Clock.toordinal (Clock.start_date start_2025_01_06) + 7 * (3 - 1) + 4
  /\ Clock.weekday (Clock.datetime_for start_2025_01_06 3 4 13 30)
     = (Clock.weekday (Clock.start_date start_2025_01_06) + 4) mod 7.
Proof. apply (datetime_for_fields start_2025_01_06 3 4 13 30); lia. Defined.

(** X2.  In the plan of [build_travel_plan] the travel weeks are exactly the
    multiples of four from 4 up to the number of weeks; each has a named
    destination, and the destinations come round again every 16 weeks. *)
Theorem travel_plan_every_fourth_week :
  forall weeks w : Z,
    (Travel.destination_for_week (Travel.build_travel_plan weeks) w <> None
     <-> 4 <= w <= weeks /\ w mod 4 = 0)
    /\ Travel.destination_for_week (Travel.build_travel_plan weeks) w
       <> Some ""
    /\ (4 <= w -> w + 16 <= weeks ->
        Travel.destination_for_week (Travel.build_travel_plan weeks) (w + 16)
        = Travel.destination_for_week (Travel.build_travel_plan weeks) w).
Proof.
  intros weeks w. split; [|split].
  - rewrite travel_plan_lookup. unfold travel_week.
    destruct (Z.leb_spec 4 w), (Z.leb_spec w weeks), (Z.eqb_spec (w mod 4) 0);
      cbn [andb]; split; intros Hx; try lia; try discriminate; try congruence.
  - destruct (travel_week weeks w) eqn:E.
    + destruct (travel_destination_named weeks w E) as (dest & -> & _ & Hne).
      congruence.
    + rewrite travel_plan_lookup, E. discriminate.
  - intros H4 H16. rewrite !travel_plan_lookup.
    assert (Et : travel_week weeks (w + 16) = travel_week weeks w).
    { unfold travel_week. replace (w + 16) with (w + 4 * 4) by lia.
      rewrite Z.mod_add by lia.
      destruct (Z.leb_spec 4 w), (Z.leb_spec w weeks),
        (Z.leb_spec 4 (w + 4 * 4)), (Z.leb_spec (w + 4 * 4) weeks);
        try lia; reflexivity. }
    rewrite Et. destruct (travel_week weeks w); [|reflexivity].
    do 3 f_equal. replace (w + 16) with (w + 4 * 4) by lia.
    rewrite Z.div_add by lia.
    replace (w / 4 + 4 - 1) with ((w / 4 - 1) + 1 * 4) by lia.
    now rewrite Z.mod_add by lia.
Qed.

(** ** scheduler.py: the shape of the schedule *)

Section ScheduleShape.
Import Scheduler.

Definition five_minute_marks : list Z :=
  [0; 5; 10; 15; 20; 25; 30; 35; 40; 45; 50; 55].

Lemma randint_range lo hi g :
  lo <= hi -> lo <= fst (Rng.randint lo hi g) <= hi.
Proof.
  intros H. unfold Rng.randint, Rng.next. cbn [fst].
  pose proof (Z.mod_pos_bound (Qfloor (Rng.tape g (Rng.pos g))) (hi - lo + 1)
                ltac:(lia)). lia.
Qed.

Lemma _random_time_parts base lo hi g :
  0 <= lo <= hi -> hi < 24 ->
  lo <= Clock.hour (fst (_random_time base lo hi g)) <= hi
  /\ In (Clock.minute (fst (_random_time base lo hi g))) five_minute_marks
  /\ Clock.toordinal (fst (_random_time base lo hi g)) = Clock.toordinal base.
Proof.
  intros Hlo Hhi. unfold _random_time.
  pose proof (randint_range lo hi g ltac:(lia)) as Hh.
  destruct (Rng.randint lo hi g) as [h g1].
  pose proof (choice_In 0 five_minute_marks g1 ltac:(discriminate)) as Hm.
  unfold five_minute_marks in *.
  destruct (Rng.choice 0 _ g1) as [m g2]. cbn [fst] in *.
  assert (Hmr : 0 <= m < 60) by (cbn [In] in Hm; lia).
  unfold Clock.replace.
  destruct (of_fields_parts (Clock.toordinal base) h m ltac:(lia) Hmr)
    as (-> & -> & ->).
  repeat split; try lia; assumption.
Qed.

(** A time of day in the contact window, on day [d] of week [w]. *)
Definition in_slot (clock : Clock.SimClock) (w : Z) (t : Clock.datetime)
  : Prop :=
  8 <= Clock.hour t <= 20
  /\ In (Clock.minute t) five_minute_marks
  /\ 0 <= Clock.toordinal t
          - (Clock.toordinal (Clock.start_date clock) + 7 * (w - 1)) <= 6.

Definition event_in_week (clock : Clock.SimClock) (w : Z) (e : Event) : Prop :=
  week e = w /\ in_slot clock w (when e).

Lemma slot_of_monday clock w lo hi g :
  8 <= lo <= hi -> hi <= 20 ->
  in_slot clock w
    (fst (_random_time (Clock.datetime_for clock w 0 9 0) lo hi g)).
Proof.
  intros Hlo Hhi. unfold in_slot.
  destruct (_random_time_parts (Clock.datetime_for clock w 0 9 0) lo hi g
              ltac:(lia) ltac:(lia)) as (Hh & Hm & ->).
  destruct (datetime_for_parts clock w 0 9 0 ltac:(lia) ltac:(lia))
    as (-> & _ & _).
  repeat split; try lia; assumption.
Qed.

Lemma slot_of_day clock w d lo hi g :
  0 <= d <= 6 -> 8 <= lo <= hi -> hi <= 20 ->
  in_slot clock w
    (fst (_random_time
            (Clock.plus_days (Clock.datetime_for clock w 0 9 0) d) lo hi g)).
Proof.
  intros Hd Hlo Hhi. unfold in_slot.
  destruct (_random_time_parts
              (Clock.plus_days (Clock.datetime_for clock w 0 9 0) d) lo hi g
              ltac:(lia) ltac:(lia)) as (Hh & Hm & ->).
  destruct (plus_days_parts (Clock.datetime_for clock w 0 9 0) d)
    as (-> & _ & _).
  destruct (datetime_for_parts clock w 0 9 0 ltac:(lia) ltac:(lia))
    as (-> & _ & _).
  repeat split; try lia; assumption.
Qed.

Lemma curiosity_in_week clock n w g :
  Forall (event_in_week clock w)
    (fst (curiosity_events n w (Clock.datetime_for clock w 0 9 0) g)).
Proof.
  revert g. induction n as [|n IH]; intros g; [constructor|].
  cbn [curiosity_events].
  pose proof (randint_range 0 6 g ltac:(lia)) as Hd.
  destruct (Rng.randint 0 6 g) as [day g1]. cbn [fst] in Hd.
  pose proof (slot_of_day clock w day 8 20 g1 Hd ltac:(lia) ltac:(lia)) as Ht.
  destruct (_random_time _ 8 20 g1) as [t g2]. cbn [fst] in Ht.
  specialize (IH g2).
  destruct (curiosity_events n w _ g2) as [rest g3]. cbn [fst] in *.
  constructor; [split; [reflexivity | exact Ht] | exact IH].
Qed.

(** *** The turn of the loop over weeks, segment by segment *)

(** At most one event of kind [k0], appended when [c] holds. *)
Definition seg_one (c : bool) (k0 : string) (w : Z)
    (m : option (gmap string string)) (base : Clock.datetime) (lo hi : Z)
    (g : Rng.t) : list Event * Rng.t :=
  if c then
    let '(t, g) := _random_time base lo hi g in
    ([{| kind := k0; week := w; when := t; meta := m |}], g)
  else ([], g).

Definition seg_travel (travel : Travel.TravelPlan) (w : Z)
    (base : Clock.datetime) (g : Rng.t) : list Event * Rng.t :=
  match Travel.destination_for_week travel w with
  | Some dest =>
      seg_one (negb (String.eqb dest "")) "travel_adaptation" w
        (Some {[ "dest" := dest ]}) base 8 20 g
  | None => ([], g)
  end.

Definition seg_diagnostics (w : Z) (base : Clock.datetime) (g : Rng.t)
  : list Event * Rng.t :=
  if Travel.mem w diagnostic_weeks then
    let '(t1, g) := _random_time base 8 11 g in
    let '(t2, g) := _random_time (Clock.plus_days base 4) 13 18 g in
    ([{| kind := "diagnostics_schedule"; week := w; when := t1; meta := None |};
      {| kind := "diagnostics_results"; week := w; when := t2; meta := None |}],
     g)
  else ([], g).

Definition seg_curiosity (w : Z) (base : Clock.datetime) (g : Rng.t)
  : list Event * Rng.t :=
  let '(weekly_count, g) := Rng.randint 3 7 g in
  curiosity_events (Z.to_nat weekly_count) w base g.

Definition seg_wearable (w : Z) (base : Clock.datetime) (g : Rng.t)
  : list Event * Rng.t :=
  let '(u, g) := Rng.random g in
  if Qlt_le_dec u (1 # 2) then
    let '(day, g) := Rng.randint 1 6 g in
    let '(t, g) := _random_time (Clock.plus_days base day) 8 20 g in
    ([{| kind := "wearable_anomaly"; week := w; when := t; meta := None |}], g)
  else ([], g).

Definition week_events_by_segment (clock : Clock.SimClock)
    (travel : Travel.TravelPlan) (w : Z) (g : Rng.t) : list Event * Rng.t :=
  let base := Clock.datetime_for clock w 0 9 0 in
  let '(ev_report, g) := seg_one true "weekly_report" w None base 8 20 g in
  let '(ev_exercise, g) :=
    seg_one (w mod 2 =? 0) "exercise_update" w None base 8 20 g in
  let '(ev_medical, g) :=
    seg_one (w mod 2 =? 0) "medical_checkin" w None base 10 14 g in
  let '(ev_nutrition, g) :=
    seg_one (Travel.mem w nutrition_weeks) "nutrition_update" w None
      base 11 16 g in
  let '(ev_travel, g) := seg_travel travel w base g in
  let '(ev_diag, g) := seg_diagnostics w base g in
  let '(ev_curiosity, g) := seg_curiosity w base g in
  let '(ev_wearable, g) := seg_wearable w base g in
  (ev_report ++ ev_exercise ++ ev_medical ++ ev_nutrition ++ ev_travel
     ++ ev_diag ++ ev_curiosity ++ ev_wearable, g).

Lemma week_events_segments clock travel w g :
  week_events clock travel w g = week_events_by_segment clock travel w g.
Proof.
  unfold week_events, week_events_by_segment, seg_travel,
    seg_diagnostics, seg_curiosity, seg_wearable, seg_one. cbv zeta.
  repeat match goal with
  | |- context [negb (String.eqb ?d "")] =>
      destruct (String.eqb d ""); cbn [negb]
  | |- context [let '(_, _) := (if ?c then _ else _) in _] => destruct c
  | |- context [let '(_, _) :=
                  match ?c with Some _ => _ | None => _ end in _] => destruct c
  | |- context [let '(_, _) := _random_time ?b ?lo ?hi ?g0 in _] =>
      destruct (_random_time b lo hi g0)
  | |- context [let '(_, _) := Rng.randint ?lo ?hi ?g0 in _] =>
      destruct (Rng.randint lo hi g0)
  | |- context [let '(_, _) := Rng.random ?g0 in _] =>
      destruct (Rng.random g0)
  | |- context [let '(_, _) := curiosity_events ?n ?w0 ?b ?g0 in _] =>
      destruct (curiosity_events n w0 b g0)
  end; cbn [negb]; reflexivity.
Qed.

Lemma seg_one_in_week clock c k0 w m lo hi g :
  8 <= lo <= hi -> hi <= 20 ->
  Forall (event_in_week clock w)
    (fst (seg_one c k0 w m (Clock.datetime_for clock w 0 9 0) lo hi g)).
Proof.
  intros Hlo Hhi. unfold seg_one. destruct c; [|constructor].
  pose proof (slot_of_monday clock w lo hi g Hlo Hhi) as Ht.
  destruct (_random_time _ lo hi g) as [t g1]. cbn [fst] in *.
  constructor; [split; [reflexivity | exact Ht] | constructor].
Qed.

Lemma seg_travel_in_week clock travel w g :
  Forall (event_in_week clock w)
    (fst (seg_travel travel w (Clock.datetime_for clock w 0 9 0) g)).
Proof.
  unfold seg_travel. destruct (Travel.destination_for_week travel w);
    [apply seg_one_in_week; lia | constructor].
Qed.

Lemma seg_diagnostics_in_week clock w g :
  Forall (event_in_week clock w)
    (fst (seg_diagnostics w (Clock.datetime_for clock w 0 9 0) g)).
Proof.
  unfold seg_diagnostics. destruct (Travel.mem w diagnostic_weeks);
    [|constructor].
  pose proof (slot_of_monday clock w 8 11 g ltac:(lia) ltac:(lia)) as H1.
  destruct (_random_time _ 8 11 g) as [t1 g1].
  pose proof (slot_of_day clock w 4 13 18 g1 ltac:(lia) ltac:(lia) ltac:(lia))
    as H2.
  destruct (_random_time _ 13 18 g1) as [t2 g2]. cbn [fst] in *.
  constructor; [split; [reflexivity | exact H1]|].
  constructor; [split; [reflexivity | exact H2] | constructor].
Qed.

Lemma seg_curiosity_in_week clock w g :
  Forall (event_in_week clock w)
    (fst (seg_curiosity w (Clock.datetime_for clock w 0 9 0) g)).
Proof.
  unfold seg_curiosity. destruct (Rng.randint 3 7 g) as [c g1].
  apply curiosity_in_week.
Qed.

Lemma seg_wearable_in_week clock w g :
  Forall (event_in_week clock w)
    (fst (seg_wearable w (Clock.datetime_for clock w 0 9 0) g)).
Proof.
  unfold seg_wearable. destruct (Rng.random g) as [u g1].
  destruct (Qlt_le_dec u (1 # 2)); [|constructor].
  pose proof (randint_range 1 6 g1 ltac:(lia)) as Hd.
  destruct (Rng.randint 1 6 g1) as [day g2]. cbn [fst] in Hd.
  pose proof (slot_of_day clock w day 8 20 g2 ltac:(lia) ltac:(lia) ltac:(lia))
    as Ht.
  destruct (_random_time _ 8 20 g2) as [t g3]. cbn [fst] in *.
  constructor; [split; [reflexivity | exact Ht] | constructor].
Qed.

Lemma week_events_in_week clock travel w g :
  Forall (event_in_week clock w) (fst (week_events clock travel w g)).
Proof.
  rewrite week_events_segments. unfold week_events_by_segment. cbv zeta.
  repeat match goal with
  | |- context [let '(_, _) := seg_one ?c ?k0 ?w0 ?m ?b ?lo ?hi ?g0 in _] =>
      pose proof (seg_one_in_week clock c k0 w0 m lo hi g0
                    ltac:(lia) ltac:(lia));
      destruct (seg_one c k0 w0 m b lo hi g0)
  | |- context [let '(_, _) := seg_travel ?tr ?w0 ?b ?g0 in _] =>
      pose proof (seg_travel_in_week clock tr w0 g0);
      destruct (seg_travel tr w0 b g0)
  | |- context [let '(_, _) := seg_diagnostics ?w0 ?b ?g0 in _] =>
      pose proof (seg_diagnostics_in_week clock w0 g0);
      destruct (seg_diagnostics w0 b g0)
  | |- context [let '(_, _) := seg_curiosity ?w0 ?b ?g0 in _] =>
      pose proof (seg_curiosity_in_week clock w0 g0);
      destruct (seg_curiosity w0 b g0)
  | |- context [let '(_, _) := seg_wearable ?w0 ?b ?g0 in _] =>
      pose proof (seg_wearable_in_week clock w0 g0);
      destruct (seg_wearable w0 b g0)
  end.
  cbn [fst] in *. repeat (apply Forall_app; split); assumption.
Qed.

Lemma all_weeks_in_week clock travel ws g :
  Forall (fun e => In (week e) ws /\ in_slot clock (week e) (when e))
    (fst (all_weeks clock travel ws g)).
Proof.
  revert g. induction ws as [|w ws IH]; intros g; [constructor|].
  cbn [all_weeks].
  pose proof (week_events_in_week clock travel w g) as Hw.
  destruct (week_events clock travel w g) as [evs g1]. specialize (IH g1).
  destruct (all_weeks clock travel ws g1) as [rest g2]. cbn [fst] in *.
  apply Forall_app. split.
  - eapply List.Forall_impl; [|exact Hw]. intros e [<- Hs].
    split; [now left | exact Hs].
  - eapply List.Forall_impl; [|exact IH]. intros e [Hin Hs].
    split; [now right | exact Hs].
Qed.

(** *** Order *)

Definition not_after (a b : Event) : Prop := when a <= when b.

Lemma insert_by_when_sorted e l :
  StronglySorted not_after l -> StronglySorted not_after (insert_by_when e l).
Proof.
  induction 1 as [|x r Hr IH Hx]; cbn [insert_by_when].
  - repeat constructor.
  - destruct (Z.leb_spec (when e) (when x)) as [Hle | Hgt].
    + constructor; [constructor; assumption|].
      constructor; [exact Hle|].
      eapply List.Forall_impl; [|exact Hx]. unfold not_after. intros; lia.
    + constructor; [exact IH|].
      apply insert_by_when_Forall; [unfold not_after; lia | exact Hx].
Qed.

Lemma sort_by_when_sorted l : StronglySorted not_after (sort_by_when l).
Proof.
  induction l as [|e r IH]; [constructor|].
  cbn [sort_by_when fold_right]. now apply insert_by_when_sorted.
Qed.

Lemma insert_by_when_perm e l : Permutation (insert_by_when e l) (e :: l).
Proof.
  induction l as [|x r IH]; cbn [insert_by_when]; [reflexivity|].
  destruct (when e <=? when x); [reflexivity|].
  rewrite IH. apply perm_swap.
Qed.

Lemma sort_by_when_perm l : Permutation (sort_by_when l) l.
Proof.
  induction l as [|e r IH]; [reflexivity|].
  cbn [sort_by_when fold_right]. rewrite insert_by_when_perm.
  now constructor.
Qed.

(** *** Counts *)

Definition one (b : bool) : nat := if b then 1%nat else 0%nat.

Definition has_destination (travel : Travel.TravelPlan) (w : Z) : bool :=
  match Travel.destination_for_week travel w with
  | Some dest => negb (String.eqb dest "")
  | None => false
  end.

(** Number of events of kind [k] that one turn of the loop over weeks
    appends, with [c] member questions and [u] wearable notes drawn. *)
Definition week_profile (travel : Travel.TravelPlan) (w : Z) (c u : nat)
    (k : string) : nat :=
  (one (String.eqb "weekly_report" k)
   + one (String.eqb "exercise_update" k && (w mod 2 =? 0)%Z)
   + one (String.eqb "medical_checkin" k && (w mod 2 =? 0)%Z)
   + one (String.eqb "nutrition_update" k && Travel.mem w nutrition_weeks)
   + one (String.eqb "travel_adaptation" k && has_destination travel w)
   + one (String.eqb "diagnostics_schedule" k && Travel.mem w diagnostic_weeks)
   + one (String.eqb "diagnostics_results" k && Travel.mem w diagnostic_weeks)
   + c * one (String.eqb "member_curiosity" k)
   + u * one (String.eqb "wearable_anomaly" k))%nat.

Lemma count_kind_single k p k0 w t m :
  count_kind k p [{| kind := k0; week := w; when := t; meta := m |}]
  = one (String.eqb k0 k && p w).
Proof.
  unfold count_kind. cbn [List.filter kind week].
  now destruct (String.eqb k0 k && p w).
Qed.

Lemma count_kind_pair k p k0 k1 w t0 t1 m0 m1 :
  count_kind k p [{| kind := k0; week := w; when := t0; meta := m0 |};
                  {| kind := k1; week := w; when := t1; meta := m1 |}]
  = (one (String.eqb k0 k && p w) + one (String.eqb k1 k && p w))%nat.
Proof.
  unfold count_kind. cbn [List.filter kind week].
  now destruct (String.eqb k0 k && p w), (String.eqb k1 k && p w).
Qed.

Lemma curiosity_count k p n w base g :
  count_kind k p (fst (curiosity_events n w base g))
  = (n * one (String.eqb "member_curiosity" k && p w))%nat.
Proof.
  revert g. induction n as [|n IH]; intros g; [reflexivity|].
  cbn [curiosity_events].
  destruct (Rng.randint 0 6 g) as [day g1].
  destruct (_random_time _ 8 20 g1) as [t g2].
  specialize (IH g2). destruct (curiosity_events n w base g2) as [rest g3].
  cbn [fst] in *.
  change ({| kind := "member_curiosity"; week := w; when := t; meta := None |}
            :: rest)
    with ([{| kind := "member_curiosity"; week := w; when := t; meta := None |}]
            ++ rest).
  rewrite count_kind_app, count_kind_single, IH. lia.
Qed.

Lemma seg_one_count c k0 w m base lo hi g k p :
  count_kind k p (fst (seg_one c k0 w m base lo hi g))
  = (one (p w) * one (String.eqb k0 k && c))%nat.
Proof.
  unfold seg_one. destruct c.
  - destruct (_random_time base lo hi g) as [t g1]. cbn [fst].
    rewrite count_kind_single.
    now destruct (String.eqb k0 k), (p w).
  - rewrite andb_false_r. cbn. lia.
Qed.

Lemma seg_travel_count travel w base g k p :
  count_kind k p (fst (seg_travel travel w base g))
  = (one (p w)
     * one (String.eqb "travel_adaptation" k && has_destination travel w))%nat.
Proof.
  unfold seg_travel, has_destination.
  destruct (Travel.destination_for_week travel w);
    [apply seg_one_count|].
  rewrite andb_false_r. cbn. lia.
Qed.

Lemma seg_diagnostics_count w base g k p :
  count_kind k p (fst (seg_diagnostics w base g))
  = (one (p w)
     * (one (String.eqb "diagnostics_schedule" k
             && Travel.mem w diagnostic_weeks)
        + one (String.eqb "diagnostics_results" k
               && Travel.mem w diagnostic_weeks)))%nat.
Proof.
  unfold seg_diagnostics. destruct (Travel.mem w diagnostic_weeks).
  - destruct (_random_time base 8 11 g) as [t1 g1].
    destruct (_random_time _ 13 18 g1) as [t2 g2]. cbn [fst].
    rewrite count_kind_pair.
    now destruct (String.eqb "diagnostics_schedule" k),
      (String.eqb "diagnostics_results" k), (p w).
  - rewrite !andb_false_r. cbn. lia.
Qed.

Lemma seg_curiosity_count w base g k p :
  exists c : nat,
    (3 <= c <= 7)%nat
    /\ count_kind k p (fst (seg_curiosity w base g))
       = (one (p w) * (c * one (String.eqb "member_curiosity" k)))%nat.
Proof.
  unfold seg_curiosity.
  pose proof (randint_range 3 7 g ltac:(lia)) as Hc.
  destruct (Rng.randint 3 7 g) as [c g1]. cbn [fst] in Hc.
  exists (Z.to_nat c). split; [lia|]. rewrite curiosity_count.
  destruct (String.eqb "member_curiosity" k), (p w); cbn [andb one]; lia.
Qed.

Lemma seg_wearable_count w base g k p :
  exists u : nat,
    (u <= 1)%nat
    /\ count_kind k p (fst (seg_wearable w base g))
       = (one (p w) * (u * one (String.eqb "wearable_anomaly" k)))%nat.
Proof.
  unfold seg_wearable. destruct (Rng.random g) as [x g1].
  destruct (Qlt_le_dec x (1 # 2)).
  - destruct (Rng.randint 1 6 g1) as [day g2].
    destruct (_random_time _ 8 20 g2) as [t g3]. cbn [fst].
    exists 1%nat. split; [lia|]. rewrite count_kind_single.
    destruct (String.eqb "wearable_anomaly" k), (p w); cbn [andb one]; lia.
  - exists 0%nat. split; [lia|]. cbn. lia.
Qed.

Lemma week_events_profile clock travel w g k p :
  exists c u : nat,
    (3 <= c <= 7)%nat /\ (u <= 1)%nat
    /\ count_kind k p (fst (week_events clock travel w g))
       = (one (p w) * week_profile travel w c u k)%nat.
Proof.
  rewrite week_events_segments. unfold week_events_by_segment. cbv zeta.
  repeat match goal with
  | |- context [let '(_, _) := seg_one ?c ?k0 ?w0 ?m ?b ?lo ?hi ?g0 in _] =>
      pose proof (seg_one_count c k0 w0 m b lo hi g0 k p);
      destruct (seg_one c k0 w0 m b lo hi g0)
  | |- context [let '(_, _) := seg_travel ?tr ?w0 ?b ?g0 in _] =>
      pose proof (seg_travel_count tr w0 b g0 k p);
      destruct (seg_travel tr w0 b g0)
  | |- context [let '(_, _) := seg_diagnostics ?w0 ?b ?g0 in _] =>
      pose proof (seg_diagnostics_count w0 b g0 k p);
      destruct (seg_diagnostics w0 b g0)
  | |- context [let '(_, _) := seg_curiosity ?w0 ?b ?g0 in _] =>
      destruct (seg_curiosity_count w0 b g0 k p) as (c & Hc & ?);
      destruct (seg_curiosity w0 b g0)
  | |- context [let '(_, _) := seg_wearable ?w0 ?b ?g0 in _] =>
      destruct (seg_wearable_count w0 b g0 k p) as (u & Hu & ?);
      destruct (seg_wearable w0 b g0)
  end.
  cbn [fst] in *. exists c, u. split; [exact Hc | split; [exact Hu|]].
  rewrite !count_kind_app.
  repeat match goal with
         | H : count_kind _ _ _ = _ |- _ => rewrite H; clear H
         end.
  unfold week_profile. rewrite andb_true_r. lia.
Qed.

Lemma week_profile_mono travel w c c' u u' k :
  (c <= c')%nat -> (u <= u')%nat ->
  (week_profile travel w c u k <= week_profile travel w c' u' k)%nat.
Proof.
  intros Hc Hu. unfold week_profile.
  pose proof (Nat.mul_le_mono_r c c' (one (String.eqb "member_curiosity" k)) Hc).
  pose proof (Nat.mul_le_mono_r u u' (one (String.eqb "wearable_anomaly" k)) Hu).
  lia.
Qed.

Lemma list_sum_cons x l : list_sum (x :: l) = (x + list_sum l)%nat.
Proof. reflexivity. Qed.

(** Lower and upper count of a kind over the weeks [ws]. *)
Definition profile_sum (travel : Travel.TravelPlan) (p : Z -> bool)
    (c u : nat) (k : string) (ws : list Z) : nat :=
  list_sum (map (fun w => one (p w) * week_profile travel w c u k)%nat ws).

Lemma all_weeks_profile clock travel ws g k p :
  (profile_sum travel p 3 0 k ws
   <= count_kind k p (fst (all_weeks clock travel ws g))
   <= profile_sum travel p 7 1 k ws)%nat.
Proof.
  revert g. induction ws as [|w ws IH]; intros g; [cbn; lia|].
  cbn [all_weeks].
  destruct (week_events_profile clock travel w g k p)
    as (c & u & Hc & Hu & Hw).
  destruct (week_events clock travel w g) as [evs g1]. cbn [fst] in Hw.
  specialize (IH g1).
  destruct (all_weeks clock travel ws g1) as [rest g2]. cbn [fst] in *.
  rewrite count_kind_app, Hw. unfold profile_sum in *. cbn [map].
  rewrite !list_sum_cons.
  pose proof (week_profile_mono travel w 3 c 0 u k ltac:(lia) ltac:(lia)).
  pose proof (week_profile_mono travel w c 7 u 1 k ltac:(lia) ltac:(lia)).
  destruct (p w); cbn [one]; lia.
Qed.

Lemma build_events_profile clock travel total_weeks g k p :
  (profile_sum travel p 3 0 k (py_range 1 (total_weeks + 1) 1)
   <= count_kind k p (fst (build_events clock travel total_weeks g))
   <= profile_sum travel p 7 1 k (py_range 1 (total_weeks + 1) 1))%nat.
Proof.
  unfold build_events.
  pose proof (all_weeks_profile clock travel
                (py_range 1 (total_weeks + 1) 1) g k p) as H.
  destruct (all_weeks clock travel _ g) as [events g1]. cbn [fst] in *.
  now rewrite count_kind_sort.
Qed.

Lemma profile_sum_one_week travel w c u k ws :
  List.NoDup ws ->
  profile_sum travel (Z.eqb w) c u k ws
  = (one (Travel.mem w ws) * week_profile travel w c u k)%nat.
Proof.
  unfold profile_sum.
  induction 1 as [|x ws Hnotin Hnd IH]; [reflexivity|].
  cbn [map]. rewrite list_sum_cons, IH. unfold Travel.mem. cbn [existsb].
  fold (Travel.mem w ws). destruct (Z.eqb_spec w x) as [-> | Hne];
    cbn [orb one].
  - destruct (Travel.mem x ws) eqn:Hmem;
      [apply mem_In in Hmem; contradiction|]. cbn [one]. lia.
  - lia.
Qed.

Lemma weeks_range_mem total_weeks w :
  Travel.mem w (py_range 1 (total_weeks + 1) 1)
  = (1 <=? w) && (w <=? total_weeks).
Proof.
  apply eq_true_iff_eq.
  rewrite mem_In, py_range_spec, andb_true_iff, !Z.leb_le, Z.mod_1_r by lia.
  lia.
Qed.

Lemma weeks_range_succ n :
  py_range 1 (Z.of_nat (S n) + 1) 1
  = py_range 1 (Z.of_nat n + 1) 1 ++ [Z.of_nat (S n)].
Proof.
  unfold py_range.
  replace ((Z.of_nat (S n) + 1 - 1 + 1 - 1) / 1) with (Z.of_nat (S n))
    by (rewrite Z.div_1_r; lia).
  replace ((Z.of_nat n + 1 - 1 + 1 - 1) / 1) with (Z.of_nat n)
    by (rewrite Z.div_1_r; lia).
  rewrite !Nat2Z.id, seq_S, map_app. cbn [map Nat.add]. do 2 f_equal. lia.
Qed.

Lemma weeks_range_negative total_weeks :
  total_weeks <= 0 -> py_range 1 (total_weeks + 1) 1 = [].
Proof. intros H. apply py_range_nil; lia. Qed.

Lemma list_sum_snoc l x : list_sum (l ++ [x]) = (list_sum l + x)%nat.
Proof. rewrite list_sum_app. cbn. lia. Qed.

(** Summing a per-week count that only depends on the week. *)
Lemma sum_over_weeks (f : Z -> nat) (F : Z -> Z) total_weeks :
  F 0 = 0 ->
  (forall n, 0 <= n -> 0 <= F n /\ F (n + 1) = F n + Z.of_nat (f (n + 1))) ->
  list_sum (map f (py_range 1 (total_weeks + 1) 1))
  = Z.to_nat (F (Z.max 0 total_weeks)).
Proof.
  intros H0 Hstep.
  destruct (Z.leb_spec total_weeks 0) as [Hneg | Hpos].
  - rewrite weeks_range_negative by assumption.
    replace (Z.max 0 total_weeks) with 0 by lia. now rewrite H0.
  - replace (Z.max 0 total_weeks) with total_weeks by lia.
    rewrite <- (Z2Nat.id total_weeks) by lia.
    induction (Z.to_nat total_weeks) as [|n IH].
    + change (Z.of_nat 0) with 0. rewrite H0. reflexivity.
    + rewrite weeks_range_succ, map_app. cbn [map].
      rewrite list_sum_snoc, IH.
      destruct (Hstep (Z.of_nat n) ltac:(lia)) as [Hn Hs].
      replace (Z.of_nat (S n)) with (Z.of_nat n + 1) by lia.
      rewrite Hs. lia.
Qed.

Lemma div_step s n :
  0 < s -> 0 <= n ->
  0 <= n / s
  /\ (n + 1) / s = n / s + Z.of_nat (one ((n + 1) mod s =? 0)).
Proof.
  intros Hs Hn. split; [apply Z.div_pos; lia|].
  destruct (Z.eqb_spec ((n + 1) mod s) 0) as [E | E]; cbn [one].
  - pose proof (Z.div_mod (n + 1) s ltac:(lia)) as H1.
    pose proof (Z.div_mod n s ltac:(lia)) as H2.
    pose proof (Z.mod_pos_bound n s Hs) as H3.
    rewrite E in H1.
    assert (n / s < (n + 1) / s) by nia.
    assert ((n + 1) / s <= n / s + 1) by nia. lia.
  - pose proof (Z.div_mod (n + 1) s ltac:(lia)) as H1.
    pose proof (Z.div_mod n s ltac:(lia)) as H2.
    pose proof (Z.mod_pos_bound n s Hs) as H3.
    pose proof (Z.mod_pos_bound (n + 1) s Hs) as H4.
    assert ((n + 1) / s <= n / s) by nia.
    assert (n / s <= (n + 1) / s) by nia. lia.
Qed.

Lemma sum_multiples s total_weeks :
  0 < s ->
  list_sum (map (fun w => one (w mod s =? 0)) (py_range 1 (total_weeks + 1) 1))
  = Z.to_nat (total_weeks / s).
Proof.
  intros Hs.
  rewrite (sum_over_weeks (fun w => one (w mod s =? 0)) (fun n => n / s)).
  - destruct (Z.leb_spec 0 total_weeks); [now rewrite Z.max_r by lia|].
    rewrite Z.max_l by lia. rewrite Z.div_0_l by lia.
    assert (total_weeks / s < 0) by (apply Z.div_lt_upper_bound; lia). lia.
  - apply Z.div_0_l. lia.
  - intros n Hn. apply div_step; assumption.
Qed.

Lemma sum_constant (c : nat) total_weeks :
  list_sum (map (fun _ => c) (py_range 1 (total_weeks + 1) 1))
  = (c * Z.to_nat total_weeks)%nat.
Proof.
  rewrite (sum_over_weeks (fun _ => c) (fun n => Z.of_nat c * n)).
  - lia.
  - lia.
  - intros n Hn. lia.
Qed.

Lemma has_destination_in_range total_weeks w :
  In w (py_range 1 (total_weeks + 1) 1) ->
  has_destination (Travel.build_travel_plan total_weeks) w = (w mod 4 =? 0).
Proof.
  intros Hin. apply py_range_spec in Hin; [|lia]. destruct Hin as [Hw _].
  unfold has_destination. destruct (travel_week total_weeks w) eqn:E.
  - destruct (travel_destination_named total_weeks w E) as (d & -> & _ & Hd).
    apply String.eqb_neq in Hd. rewrite Hd. cbn [negb].
    unfold travel_week in E. rewrite !andb_true_iff in E.
    symmetry. apply E.
  - rewrite travel_plan_lookup, E. unfold travel_week in E.
    destruct (Z.eqb_spec (w mod 4) 0) as [Hm | Hm]; [|reflexivity].
    assert (4 <= w) by (pose proof (Z.div_mod w 4 ltac:(lia)); lia).
    destruct (Z.leb_spec 4 w), (Z.leb_spec w total_weeks);
      try lia; discriminate.
Qed.

End ScheduleShape.

Section ScheduleTotals.
Import Scheduler.

Ltac eval_kind_eqb :=
  repeat match goal with
         | |- context [String.eqb ?a ?b] =>
             let v := eval vm_compute in (String.eqb a b) in
             change (String.eqb a b) with v
         end;
  cbn [andb one].

Lemma week_profile_weekly_report travel w c u :
  week_profile travel w c u "weekly_report" = 1%nat.
Proof. unfold week_profile. eval_kind_eqb. lia. Qed.

Lemma week_profile_exercise_update travel w c u :
  week_profile travel w c u "exercise_update" = one (w mod 2 =? 0).
Proof. unfold week_profile. eval_kind_eqb. lia. Qed.

Lemma week_profile_medical_checkin travel w c u :
  week_profile travel w c u "medical_checkin" = one (w mod 2 =? 0).
Proof. unfold week_profile. eval_kind_eqb. lia. Qed.

Lemma week_profile_nutrition_update travel w c u :
  week_profile travel w c u "nutrition_update"
  = one (Travel.mem w nutrition_weeks).
Proof. unfold week_profile. eval_kind_eqb. lia. Qed.

Lemma week_profile_travel_adaptation travel w c u :
  week_profile travel w c u "travel_adaptation"
  = one (has_destination travel w).
Proof. unfold week_profile. eval_kind_eqb. lia. Qed.

Lemma week_profile_member_curiosity travel w c u :
  week_profile travel w c u "member_curiosity" = c.
Proof. unfold week_profile. eval_kind_eqb. lia. Qed.

Lemma week_profile_wearable_anomaly travel w c u :
  week_profile travel w c u "wearable_anomaly" = u.
Proof. unfold week_profile. eval_kind_eqb. lia. Qed.

(** Events of kind [k] in week [w] of the schedule. *)
Lemma build_events_week_profile clock travel total_weeks g w k :
  1 <= w <= total_weeks ->
  (week_profile travel w 3 0 k
   <= count_kind k (Z.eqb w) (fst (build_events clock travel total_weeks g))
   <= week_profile travel w 7 1 k)%nat.
Proof.
  intros Hw.
  pose proof (build_events_profile clock travel total_weeks g k (Z.eqb w))
    as H.
  rewrite !profile_sum_one_week in H by (apply py_range_NoDup; lia).
  rewrite weeks_range_mem in H.
  destruct (Z.leb_spec 1 w), (Z.leb_spec w total_weeks); try lia.
  cbn [andb one] in H. lia.
Qed.

Lemma profile_sum_all travel c u k ws :
  profile_sum travel (fun _ => true) c u k ws
  = list_sum (map (fun w => week_profile travel w c u k) ws).
Proof.
  unfold profile_sum. f_equal. apply map_ext. intros w. cbn [one]. lia.
Qed.

End ScheduleTotals.

(** X3.  [build_events] returns the events it generated, all of them and no
    other, in the order of their time. *)
Theorem build_events_sorted_by_time :
  forall clock travel total_weeks g,
    StronglySorted (fun a b => Scheduler.when a <= Scheduler.when b)
      (fst (Scheduler.build_events clock travel total_weeks g))
    /\ Permutation
         (fst (Scheduler.build_events clock travel total_weeks g))
         (fst (Scheduler.all_weeks clock travel
                 (py_range 1 (total_weeks + 1) 1) g)).
Proof.
  intros clock travel total_weeks g. unfold Scheduler.build_events.
  destruct (Scheduler.all_weeks clock travel _ g) as [events g1]. cbn [fst].
  split; [apply sort_by_when_sorted | apply sort_by_when_perm].
Qed.

(** X4.  Every scheduled event belongs to one of the weeks 1 to
    [total_weeks], falls on one of the seven days of that week counted from
    the weekday of the start date, and has a time between 8:00 and 20:55 on
    a five-minute mark. *)
Theorem build_events_inside_their_week :
  forall clock travel total_weeks g,
    Forall (fun e =>
              1 <= Scheduler.week e <= total_weeks
              /\ in_slot clock (Scheduler.week e) (Scheduler.when e))
      (fst (Scheduler.build_events clock travel total_weeks g)).
Proof.
  intros clock travel total_weeks g. unfold Scheduler.build_events.
  pose proof (all_weeks_in_week clock travel
                (py_range 1 (total_weeks + 1) 1) g) as H.
  destruct (Scheduler.all_weeks clock travel _ g) as [events g1].
  cbn [fst] in *.
  eapply Permutation_Forall; [symmetry; apply sort_by_when_perm|].
  eapply List.Forall_impl; [|exact H]. intros e [Hin Hs].
  apply py_range_spec in Hin; [|lia]. split; [lia | exact Hs].
Qed.

(** X5.  In each week [w] of the run the schedule holds exactly one weekly
    report; one exercise update and one medical check-in when [w] is even
    and none otherwise; one nutrition update in the listed weeks; one travel
    adaptation when the plan names a destination for [w]; three to seven
    member questions; and at most one wearable note. *)
Theorem build_events_weekly_cadence :
  forall clock travel total_weeks g w,
    1 <= w <= total_weeks ->
    count_kind "weekly_report" (Z.eqb w)
      (fst (Scheduler.build_events clock travel total_weeks g)) = 1%nat
    /\ count_kind "exercise_update" (Z.eqb w)
         (fst (Scheduler.build_events clock travel total_weeks g))
       = one (w mod 2 =? 0)
    /\ count_kind "medical_checkin" (Z.eqb w)
         (fst (Scheduler.build_events clock travel total_weeks g))
       = one (w mod 2 =? 0)
    /\ count_kind "nutrition_update" (Z.eqb w)
         (fst (Scheduler.build_events clock travel total_weeks g))
       = one (Travel.mem w Scheduler.nutrition_weeks)
    /\ count_kind "travel_adaptation" (Z.eqb w)
         (fst (Scheduler.build_events clock travel total_weeks g))
       = one (has_destination travel w)
    /\ (3 <= count_kind "member_curiosity" (Z.eqb w)
               (fst (Scheduler.build_events clock travel total_weeks g))
        <= 7)%nat
    /\ (count_kind "wearable_anomaly" (Z.eqb w)
          (fst (Scheduler.build_events clock travel total_weeks g)) <= 1)%nat.
Proof.
  intros clock travel total_weeks g w Hw.
  pose proof (fun k =>
                build_events_week_profile clock travel total_weeks g w k Hw)
    as H.
  pose proof (H "weekly_report") as H1.
  pose proof (H "exercise_update") as H2.
  pose proof (H "medical_checkin") as H3.
  pose proof (H "nutrition_update") as H4.
  pose proof (H "travel_adaptation") as H5.
  pose proof (H "member_curiosity") as H6.
  pose proof (H "wearable_anomaly") as H7.
  rewrite !week_profile_weekly_report in H1.
  rewrite !week_profile_exercise_update in H2.
  rewrite !week_profile_medical_checkin in H3.
  rewrite !week_profile_nutrition_update in H4.
  rewrite !week_profile_travel_adaptation in H5.
  rewrite !week_profile_member_curiosity in H6.
  rewrite !week_profile_wearable_anomaly in H7.
  repeat split; lia.
Qed.

Lemma build_events_weekly_cadence_witness :
  count_kind "weekly_report" (Z.eqb 2)
    (fst (Scheduler.build_events start_2025_01_06
            (Travel.build_travel_plan 4) 4 linear_tape)) = 1%nat
  /\ count_kind "exercise_update" (Z.eqb 2)
       (fst (Scheduler.build_events start_2025_01_06
               (Travel.build_travel_plan 4) 4 linear_tape))
     = one (2 mod 2 =? 0)
  /\ count_kind "medical_checkin" (Z.eqb 2)
       (fst (Scheduler.build_events start_2025_01_06
               (Travel.build_travel_plan 4) 4 linear_tape))
     = one (2 mod 2 =? 0)
  /\ count_kind "nutrition_update" (Z.eqb 2)
       (fst (Scheduler.build_events start_2025_01_06
               (Travel.build_travel_plan 4) 4 linear_tape))
     = one (Travel.mem 2 Scheduler.nutrition_weeks)
  /\ count_kind "travel_adaptation" (Z.eqb 2)
       (fst (Scheduler.build_events start_2025_01_06
               (Travel.build_travel_plan 4) 4 linear_tape))
     = one (has_destination (Travel.build_travel_plan 4) 2)
  /\ (3 <= count_kind "member_curiosity" (Z.eqb 2)
             (fst (Scheduler.build_events start_2025_01_06
                     (Travel.build_travel_plan 4) 4 linear_tape))
      <= 7)%nat
  /\ (count_kind "wearable_anomaly" (Z.eqb 2)
        (fst (Scheduler.build_events start_2025_01_06
                (Travel.build_travel_plan 4) 4 linear_tape)) <= 1)%nat.
Proof.
  apply (build_events_weekly_cadence start_2025_01_06
           (Travel.build_travel_plan 4) 4 linear_tape 2).
  lia.
Defined.

(** The totals of the schedule built with the plan of [build_travel_plan]. *)
Lemma schedule_totals :
  forall clock total_weeks g,
    count_kind "weekly_report" (fun _ => true)
      (fst (Scheduler.build_events clock
              (Travel.build_travel_plan total_weeks) total_weeks g))
    = Z.to_nat total_weeks
    /\ count_kind "exercise_update" (fun _ => true)
         (fst (Scheduler.build_events clock
                 (Travel.build_travel_plan total_weeks) total_weeks g))
       = Z.to_nat (total_weeks / 2)
    /\ count_kind "medical_checkin" (fun _ => true)
         (fst (Scheduler.build_events clock
                 (Travel.build_travel_plan total_weeks) total_weeks g))
       = Z.to_nat (total_weeks / 2)
    /\ count_kind "travel_adaptation" (fun _ => true)
         (fst (Scheduler.build_events clock
                 (Travel.build_travel_plan total_weeks) total_weeks g))
       = Z.to_nat (total_weeks / 4)
    /\ (3 * Z.to_nat total_weeks
        <= count_kind "member_curiosity" (fun _ => true)
             (fst (Scheduler.build_events clock
                     (Travel.build_travel_plan total_weeks) total_weeks g))
        <= 7 * Z.to_nat total_weeks)%nat
    /\ (count_kind "wearable_anomaly" (fun _ => true)
          (fst (Scheduler.build_events clock
                  (Travel.build_travel_plan total_weeks) total_weeks g))
        <= Z.to_nat total_weeks)%nat.
Proof.
  intros clock total_weeks g.
  pose proof (fun k =>
                build_events_profile clock
                  (Travel.build_travel_plan total_weeks) total_weeks g k
                  (fun _ => true)) as H.
  pose proof (H "weekly_report") as H1.
  pose proof (H "exercise_update") as H2.
  pose proof (H "medical_checkin") as H3.
  pose proof (H "travel_adaptation") as H5.
  pose proof (H "member_curiosity") as H6.
  pose proof (H "wearable_anomaly") as H7.
  clear H. rewrite !profile_sum_all in *.
  rewrite !(map_ext _ _ (fun w => week_profile_weekly_report _ w _ _)),
    !sum_constant in H1.
  rewrite !(map_ext _ _ (fun w => week_profile_exercise_update _ w _ _)),
    !sum_multiples in H2 by lia.
  rewrite !(map_ext _ _ (fun w => week_profile_medical_checkin _ w _ _)),
    !sum_multiples in H3 by lia.
  rewrite !(map_ext _ _ (fun w => week_profile_travel_adaptation _ w _ _)),
    !(map_ext_in _ (fun w => one (w mod 4 =? 0))) in H5
    by (intros w Hin; f_equal; now apply has_destination_in_range).
  rewrite !sum_multiples in H5 by lia.
  rewrite !(map_ext _ _ (fun w => week_profile_member_curiosity _ w _ _)),
    !sum_constant in H6.
  rewrite !(map_ext _ _ (fun w => week_profile_wearable_anomaly _ w _ _)),
    !sum_constant in H7.
  repeat split; lia.
Qed.

(** X6.  Over a run of [total_weeks] weeks with the plan of
    [build_travel_plan] the schedule holds [total_weeks] weekly reports,
    [total_weeks // 2] exercise updates and as many medical check-ins,
    [total_weeks // 4] travel adaptations, between three and seven member
    questions per week, and at most one wearable note per week. *)
Theorem build_events_totals :
  forall clock total_weeks g,
    count_kind "weekly_report" (fun _ => true)
      (fst (Scheduler.build_events clock
              (Travel.build_travel_plan total_weeks) total_weeks g))
    = Z.to_nat total_weeks
    /\ count_kind "exercise_update" (fun _ => true)
         (fst (Scheduler.build_events clock
                 (Travel.build_travel_plan total_weeks) total_weeks g))
       = Z.to_nat (total_weeks / 2)
    /\ count_kind "medical_checkin" (fun _ => true)
         (fst (Scheduler.build_events clock
                 (Travel.build_travel_plan total_weeks) total_weeks g))
       = Z.to_nat (total_weeks / 2)
    /\ count_kind "travel_adaptation" (fun _ => true)
         (fst (Scheduler.build_events clock
                 (Travel.build_travel_plan total_weeks) total_weeks g))
       = Z.to_nat (total_weeks / 4)
    /\ (3 * Z.to_nat total_weeks
        <= count_kind "member_curiosity" (fun _ => true)
             (fst (Scheduler.build_events clock
                     (Travel.build_travel_plan total_weeks) total_weeks g))
        <= 7 * Z.to_nat total_weeks)%nat
    /\ (count_kind "wearable_anomaly" (fun _ => true)
          (fst (Scheduler.build_events clock
                  (Travel.build_travel_plan total_weeks) total_weeks g))
        <= Z.to_nat total_weeks)%nat.
Proof. exact schedule_totals. Qed.

(** X7.  The loop of [_diagnostic_weeks] ends for every number of weeks and
    lists, once each, week 4 and every twelfth week after it up to
    [total_weeks]; [_expected_diagnostics_count] is their number. *)
Theorem diagnostic_weeks_cadence :
  forall total_weeks,
    (forall w, In w (Validators._diagnostic_weeks total_weeks)
               <-> 4 <= w <= total_weeks /\ (w - 4) mod 12 = 0)
    /\ List.NoDup (Validators._diagnostic_weeks total_weeks)
    /\ Validators._expected_diagnostics_count total_weeks
       = Z.max 0 ((total_weeks + 8) / 12).
Proof.
  intros total_weeks. unfold Validators._expected_diagnostics_count.
  rewrite diagnostic_loop_closed_form. split; [|split].
  - intros w. rewrite py_range_spec by lia. lia.
  - apply py_range_NoDup. lia.
  - unfold py_range. rewrite length_map, length_seq.
    replace (total_weeks + 1 - 4 + 12 - 1) with (total_weeks + 8) by lia.
    lia.
Qed.

(** ** interventions.py and state.py *)

Section AdherenceFacts.

Lemma clamp_probability_bounds (p : Q) :
  (5 # 100 <= clamp_probability p <= 95 # 100)%Q.
Proof.
  unfold clamp_probability. cbn [ltb dec exact]. unfold Qltb.
  repeat destruct (Qlt_le_dec _ _); cbn [Z.to_pos] in *; lra.
Qed.

Lemma clamp_probability_mono (p q : Q) :
  (p <= q)%Q -> (clamp_probability p <= clamp_probability q)%Q.
Proof.
  intros Hpq. unfold clamp_probability. cbn [ltb dec exact]. unfold Qltb.
  repeat destruct (Qlt_le_dec _ _); cbn [Z.to_pos] in *; lra.
Qed.

Lemma modified_base_mono (base base' hours : Q) travel pa busy win :
  (base <= base')%Q ->
  (modified_base base travel pa busy win hours
   <= modified_base base' travel pa busy win hours)%Q.
Proof.
  intros Hb. unfold modified_base. cbn [ltb dec add sub exact]. unfold Qltb.
  destruct travel, pa, busy, win, (Qlt_le_dec _ hours);
    cbn [Z.to_pos]; lra.
Qed.

Lemma modified_base_flags (base hours : Q) travel pa busy win :
  (modified_base base true pa busy win hours
   <= modified_base base travel pa busy win hours)%Q
  /\ (modified_base base travel pa true win hours
      <= modified_base base travel pa busy win hours)%Q
  /\ (modified_base base travel pa busy win hours
      <= modified_base base travel true busy win hours)%Q
  /\ (modified_base base travel pa busy win hours
      <= modified_base base travel pa busy true hours)%Q.
Proof.
  unfold modified_base. cbn [ltb dec add sub exact]. unfold Qltb.
  destruct travel, pa, busy, win, (Qlt_le_dec _ hours);
    cbn [Z.to_pos]; repeat split; lra.
Qed.

End AdherenceFacts.

(** X8.  In exact arithmetic the weekly adherence probability always lies
    between 0.05 and 0.95, grows with the base adherence, and moves the way
    each modifier says: travel and a busy week never raise it, the
    assistant's support and a win in the week before never lower it. *)
Theorem adherence_probability_bounded_and_monotone :
  forall (base base' weekly_hours : Q) travel pa_support busy_week
         last_week_win,
    (5 # 100
     <= Interventions.weekly_adherence_probability
          base travel pa_support busy_week last_week_win weekly_hours
     <= 95 # 100)%Q
    /\ ((base <= base')%Q ->
        (Interventions.weekly_adherence_probability
           base travel pa_support busy_week last_week_win weekly_hours
         <= Interventions.weekly_adherence_probability
              base' travel pa_support busy_week last_week_win weekly_hours)%Q)
    /\ (Interventions.weekly_adherence_probability
          base true pa_support busy_week last_week_win weekly_hours
        <= Interventions.weekly_adherence_probability
             base travel pa_support busy_week last_week_win weekly_hours)%Q
    /\ (Interventions.weekly_adherence_probability
          base travel pa_support true last_week_win weekly_hours
        <= Interventions.weekly_adherence_probability
             base travel pa_support busy_week last_week_win weekly_hours)%Q
    /\ (Interventions.weekly_adherence_probability
          base travel pa_support busy_week last_week_win weekly_hours
        <= Interventions.weekly_adherence_probability
             base travel true busy_week last_week_win weekly_hours)%Q
    /\ (Interventions.weekly_adherence_probability
          base travel pa_support busy_week last_week_win weekly_hours
        <= Interventions.weekly_adherence_probability
             base travel pa_support busy_week true weekly_hours)%Q.
Proof.
  intros base base' hours travel pa busy win.
  rewrite !(adherence_probability_clamps Q exact eq_refl).
  destruct (modified_base_flags base hours travel pa busy win)
    as (Ht & Hb & Hp & Hw).
  split; [apply clamp_probability_bounds|].
  split; [intros Hle; apply clamp_probability_mono;
          now apply modified_base_mono|].
  repeat split; apply clamp_probability_mono; assumption.
Qed.

Section BandFacts.
Import State.

Lemma clamp_fixed (x lo hi : Q) :
  (lo <= x <= hi)%Q -> py_min (py_max x lo) hi = x.
Proof.
  intros [Hlo Hhi]. unfold py_min, py_max. cbn [ltb exact]. unfold Qltb.
  destruct (Qlt_le_dec x lo) as [H | H]; [lra|].
  destruct (Qlt_le_dec hi x) as [H' | H']; [lra | reflexivity].
Qed.

Lemma clamp_idempotent (x lo hi : Q) :
  (lo <= hi)%Q ->
  py_min (py_max (py_min (py_max x lo) hi) lo) hi = py_min (py_max x lo) hi.
Proof. intros H. apply clamp_fixed. now apply clamp_within. Qed.

End BandFacts.

(** X9.  [weekly_bounds] changes nothing in a state whose metrics are all
    inside their bands, and applying it twice is the same as applying it
    once. *)
Theorem weekly_bounds_is_a_projection :
  (forall st, within_bands st -> State.weekly_bounds st = st)
  /\ (forall st,
        State.weekly_bounds (State.weekly_bounds st) = State.weekly_bounds st).
Proof.
  assert (Hfix : forall st, within_bands st -> State.weekly_bounds st = st).
  { intros [] H. unfold within_bands in H. cbn in H.
    unfold State.weekly_bounds.
    cbn [State.systolic_bp State.diastolic_bp State.apob State.ldl_c
         State.hs_crp State.hba1c State.bmi State.hrv_ms State.rhr_bpm
         State.sleep_hours State.week_index State.adherence_log
         State.weekly_hours_committed State.weekly_hours_completed].
    destruct H as (H1 & H2 & H3 & H4 & H5 & H6 & H7 & H8 & H9 & H10).
    rewrite !clamp_fixed; [reflexivity | ..];
      cbn [dec exact Z.to_pos]; lra. }
  split; [exact Hfix|].
  intros st. apply Hfix. apply weekly_bounds_within_bands.
Qed.

Lemma weekly_bounds_is_a_projection_witness :
  State.weekly_bounds State.baseline = State.baseline.
Proof.
  apply (proj1 weekly_bounds_is_a_projection).
  unfold within_bands. vm_compute. intuition discriminate.
Defined.

Section WeeklyBookkeeping.
Import State Generator.

(** The ten metrics of the state. *)
Definition metric_names : list string :=
  ["systolic_bp"; "diastolic_bp"; "apob"; "ldl_c"; "hs_crp"; "hba1c"; "bmi";
   "hrv_ms"; "rhr_bpm"; "sleep_hours"].

Definition names_metric (key : string) : bool :=
  existsb (String.eqb key) metric_names.

(** An intervention whose effect vector only names metrics. *)
Definition touches_metrics_only (iv : Interventions.Intervention) : bool :=
  forallb (fun kd => names_metric (fst kd)) (Interventions.effect_vector iv).

(** The fields of the state that are no metric. *)
Definition same_bookkeeping (s s' : BiomarkerState) : Prop :=
  week_index s' = week_index s
  /\ adherence_log s' = adherence_log s
  /\ weekly_hours_committed s' = weekly_hours_committed s
  /\ weekly_hours_completed s' = weekly_hours_completed s.

Lemma same_bookkeeping_refl s : same_bookkeeping s s.
Proof. repeat split. Qed.

Lemma same_bookkeeping_trans s1 s2 s3 :
  same_bookkeeping s1 s2 -> same_bookkeeping s2 s3 -> same_bookkeeping s1 s3.
Proof.
  unfold same_bookkeeping. intros (-> & -> & -> & ->) (-> & -> & -> & ->).
  repeat split.
Qed.

Lemma _apply_delta_bookkeeping s key delta :
  names_metric key = true -> same_bookkeeping s (_apply_delta s key delta).
Proof.
  intros Hk. unfold names_metric, metric_names in Hk. cbn [existsb] in Hk.
  rewrite !orb_true_iff in Hk.
  unfold same_bookkeeping, _apply_delta.
  cbn [week_index adherence_log weekly_hours_committed weekly_hours_completed].
  repeat match goal with
         | H : _ \/ _ |- _ => destruct H as [H | H]
         end; try discriminate;
    apply String.eqb_eq in Hk; subst key; repeat split.
Qed.

Lemma apply_deltas_bookkeeping deltas s :
  forallb (fun kd => names_metric (fst kd)) deltas = true ->
  same_bookkeeping s (apply_deltas s deltas).
Proof.
  unfold apply_deltas. revert s.
  induction deltas as [|[k d] r IH]; intros s H; [apply same_bookkeeping_refl|].
  cbn [forallb fst] in H. apply andb_true_iff in H. destruct H as [Hk Hr].
  cbn [fold_left fst snd].
  eapply same_bookkeeping_trans;
    [apply _apply_delta_bookkeeping; exact Hk | apply IH; exact Hr].
Qed.

Lemma add_noise_loop_bookkeeping spec s g :
  forallb (fun kd => names_metric (fst kd)) spec = true ->
  same_bookkeeping s (fst (add_noise_loop spec s g))
  /\ Rng.tape (snd (add_noise_loop spec s g)) = Rng.tape g
  /\ Rng.pos (snd (add_noise_loop spec s g)) = (Rng.pos g + length spec)%nat.
Proof.
  revert s g. induction spec as [|[k sigma] r IH]; intros s g H.
  - cbn. repeat split. lia.
  - cbn [forallb fst] in H. apply andb_true_iff in H. destruct H as [Hk Hr].
    cbn [add_noise_loop]. unfold Rng.gauss, Rng.next.
    match goal with
    | |- context [add_noise_loop r ?s1 ?g1] =>
        destruct (IH s1 g1 Hr) as (Hb & Ht & Hp)
    end.
    cbn [Rng.tape Rng.pos] in *. rewrite Ht, Hp. cbn [length].
    split; [|split; [reflexivity | lia]].
    eapply same_bookkeeping_trans;
      [apply _apply_delta_bookkeeping; exact Hk | exact Hb].
Qed.

Lemma weekly_bounds_bookkeeping s : same_bookkeeping s (weekly_bounds s).
Proof. repeat split. Qed.

Lemma adherence_loop_bookkeeping ivs travel busy win hours st g :
  forallb touches_metrics_only ivs = true ->
  let '(amap, st', g') := adherence_loop ivs travel busy win hours st g in
  map fst amap = map Interventions.name ivs
  /\ same_bookkeeping st st'
  /\ Rng.tape g' = Rng.tape g
  /\ Rng.pos g' = (Rng.pos g + length ivs)%nat.
Proof.
  revert st g. induction ivs as [|iv r IH]; intros st g H.
  - cbn. repeat split. lia.
  - cbn [forallb] in H. apply andb_true_iff in H. destruct H as [Hiv Hr].
    cbn [adherence_loop]. unfold Interventions.bernoulli, Rng.random, Rng.next.
    match goal with
    | |- context [adherence_loop r _ _ _ _ ?s1 ?g1] =>
        specialize (IH s1 g1 Hr);
        destruct (adherence_loop r travel busy win hours s1 g1)
          as [[amap st'] g']
    end.
    destruct IH as (Hn & Hb & Ht & Hp). cbn [Rng.tape Rng.pos] in *.
    cbn [map fst length]. rewrite Hn, Ht, Hp.
    split; [reflexivity | split; [|split; [reflexivity | lia]]].
    eapply same_bookkeeping_trans; [|exact Hb].
    unfold apply_intervention_effects.
    destruct (Qltb _ _); [|apply same_bookkeeping_refl].
    apply apply_deltas_bookkeeping. exact Hiv.
Qed.

(** *** Rounding to a tenth *)

Lemma round1_tenths (x : Q) :
  exists n : Z,
    round1 x = Qmake n 10
    /\ (inject_Z n - (1 # 2) <= x * 10 <= inject_Z n + (1 # 2))%Q.
Proof.
  unfold round1. cbv zeta.
  pose proof (Qfloor_le (x * 10)) as Hlo.
  pose proof (Qlt_floor (x * 10)) as Hhi.
  set (f := Qfloor (x * 10)) in *.
  rewrite inject_Z_plus in Hhi. change (inject_Z 1) with 1%Q in Hhi.
  unfold Qltb.
  destruct (Qlt_le_dec (x * 10 - inject_Z f) (1 # 2)) as [H1 | H1].
  - exists f. split; [reflexivity | lra].
  - destruct (Qlt_le_dec (1 # 2) (x * 10 - inject_Z f)) as [H2 | H2].
    + exists (f + 1). split; [reflexivity|].
      rewrite inject_Z_plus. change (inject_Z 1) with 1%Q. lra.
    + destruct (Z.even f).
      * exists f. split; [reflexivity | lra].
      * exists (f + 1). split; [reflexivity|].
        rewrite inject_Z_plus. change (inject_Z 1) with 1%Q. lra.
Qed.

Lemma tenths_between (n lo hi : Z) (y : Q) :
  (inject_Z lo <= y <= inject_Z hi)%Q ->
  (inject_Z n - (1 # 2) <= y <= inject_Z n + (1 # 2))%Q ->
  lo <= n <= hi.
Proof.
  intros [Hlo Hhi] [Hn1 Hn2].
  assert (H1 : (inject_Z (lo - 1) < inject_Z n)%Q).
  { unfold Z.sub. rewrite inject_Z_plus, inject_Z_opp.
    change (inject_Z 1) with 1%Q. lra. }
  assert (H2 : (inject_Z n < inject_Z (hi + 1))%Q).
  { rewrite inject_Z_plus. change (inject_Z 1) with 1%Q. lra. }
  rewrite <- Zlt_Qlt in H1, H2. lia.
Qed.

End WeeklyBookkeeping.

(** X10.  A weekly update with interventions whose effects only name metrics
    returns one adherence outcome per intervention, in the order of the
    catalogue; it changes no field of the engine but the flag of last
    week's win, leaves the week index, the adherence log and the weekly
    hours of the state alone, and reads one random number per intervention
    and ten more for the noise. *)
Theorem begin_week_bookkeeping :
  forall e st travel busy g,
    forallb touches_metrics_only (Generator.interventions e) = true ->
    let '(adherence_map, e', st', g') :=
      Generator.begin_week e st travel busy g in
    map fst adherence_map
    = map Interventions.name (Generator.interventions e)
    /\ Generator.interventions e' = Generator.interventions e
    /\ Generator.week_counter e' = Generator.week_counter e
    /\ Generator.nlg e' = Generator.nlg e
    /\ Generator._recent e' = Generator._recent e
    /\ Generator.cumulative_plan_hours (Generator.ctx e')
       = Generator.cumulative_plan_hours (Generator.ctx e)
    /\ Generator.exercise_phase (Generator.ctx e')
       = Generator.exercise_phase (Generator.ctx e)
    /\ Generator.last_openers (Generator.ctx e')
       = Generator.last_openers (Generator.ctx e)
    /\ same_bookkeeping st st'
    /\ Rng.tape g' = Rng.tape g
    /\ Rng.pos g'
       = (Rng.pos g + length (Generator.interventions e) + 10)%nat.
Proof.
  intros e st travel busy g Hivs. unfold Generator.begin_week.
  match goal with
  | |- context [Generator.adherence_loop ?ivs ?t ?b ?w ?h ?s ?g0] =>
      pose proof (adherence_loop_bookkeeping ivs t b w h s g0 Hivs) as Hloop;
      destruct (Generator.adherence_loop ivs t b w h s g0) as [[amap st1] g1]
  end.
  destruct Hloop as (Hn & Hb & Ht & Hp).
  match goal with
  | |- context [State.add_noise ?s ?g0] =>
      pose proof (add_noise_loop_bookkeeping State.noise_spec s g0 eq_refl)
        as Hnoise;
      change (State.add_noise_loop State.noise_spec s g0)
        with (State.add_noise s g0) in Hnoise;
      destruct (State.add_noise s g0) as [st2 g2]
  end.
  destruct Hnoise as (Hb2 & Ht2 & Hp2). cbn [fst snd] in *.
  cbn [Generator.set_ctx Generator.interventions Generator.week_counter
       Generator.nlg Generator._recent Generator.ctx
       Generator.cumulative_plan_hours Generator.exercise_phase
       Generator.last_openers].
  assert (Hbook : same_bookkeeping st (State.weekly_bounds st2)).
  { eapply same_bookkeeping_trans; [exact Hb|].
    eapply same_bookkeeping_trans; [|apply weekly_bounds_bookkeeping].
    eapply same_bookkeeping_trans; [|exact Hb2].
    destruct travel; [|apply same_bookkeeping_refl].
    apply apply_deltas_bookkeeping. reflexivity. }
  cbn [length State.noise_spec] in Hp2.
  split; [exact Hn|]. do 7 (split; [reflexivity|]).
  split; [exact Hbook|]. split; [congruence | lia].
Qed.

Lemma begin_week_bookkeeping_witness :
  let '(adherence_map, e', st', g') :=
    Generator.begin_week (Generator.new_engine None) State.baseline
      true false linear_tape in
  map fst adherence_map
  = map Interventions.name
      (Generator.interventions (Generator.new_engine None))
  /\ Generator.interventions e'
     = Generator.interventions (Generator.new_engine None)
  /\ Generator.week_counter e'
     = Generator.week_counter (Generator.new_engine None)
  /\ Generator.nlg e' = Generator.nlg (Generator.new_engine None)
  /\ Generator._recent e' = Generator._recent (Generator.new_engine None)
  /\ Generator.cumulative_plan_hours (Generator.ctx e')
     = Generator.cumulative_plan_hours
         (Generator.ctx (Generator.new_engine None))
  /\ Generator.exercise_phase (Generator.ctx e')
     = Generator.exercise_phase (Generator.ctx (Generator.new_engine None))
  /\ Generator.last_openers (Generator.ctx e')
     = Generator.last_openers (Generator.ctx (Generator.new_engine None))
  /\ same_bookkeeping State.baseline st'
  /\ Rng.tape g' = Rng.tape linear_tape
  /\ Rng.pos g'
     = (Rng.pos linear_tape
        + length (Generator.interventions (Generator.new_engine None))
        + 10)%nat.
Proof.
  apply (begin_week_bookkeeping (Generator.new_engine None) State.baseline
           true false linear_tape).
  reflexivity.
Defined.

(** X11.  [sample_weekly_hours] reads one random number and returns a whole
    number of tenths between 2.0 and 7.0, within 0.05 of the draw once the
    draw is clamped to that range; it stores the value as the hours
    completed and changes no other field. *)
Theorem sample_weekly_hours_range :
  forall st g,
    let '(done, st', g') := State.sample_weekly_hours st g in
    (2 <= done <= 7)%Q
    /\ (exists n : Z, done = Qmake n 10)
    /\ (Qabs (done
              - py_max (dec 20 10)
                  (py_min (dec 70 10)
                     (fst (Rng.gauss (dec 50 10) (dec 10 10) g))))
        <= 1 # 20)%Q
    /\ st' = {| State.systolic_bp := State.systolic_bp st;
                State.diastolic_bp := State.diastolic_bp st;
                State.apob := State.apob st;
                State.ldl_c := State.ldl_c st;
                State.hs_crp := State.hs_crp st;
                State.hba1c := State.hba1c st;
                State.bmi := State.bmi st;
                State.hrv_ms := State.hrv_ms st;
                State.rhr_bpm := State.rhr_bpm st;
                State.sleep_hours := State.sleep_hours st;
                State.week_index := State.week_index st;
                State.adherence_log := State.adherence_log st;
                State.weekly_hours_committed :=
                  State.weekly_hours_committed st;
                State.weekly_hours_completed := done |}
    /\ Rng.pos g' = S (Rng.pos g).
Proof.
  intros st g. unfold State.sample_weekly_hours.
  destruct (Rng.gauss (dec 50 10) (dec 10 10) g) as [val g1] eqn:Eg.
  cbn [fst].
  set (v := py_max (dec 20 10) (py_min (dec 70 10) val)).
  assert (Hv : (2 <= v <= 7)%Q).
  { unfold v, py_max, py_min. cbn [ltb dec exact Z.to_pos]. unfold Qltb.
    repeat destruct (Qlt_le_dec _ _); lra. }
  destruct (round1_tenths v) as (n & Hn & Hnear).
  assert (Hrange : 20 <= n <= 70).
  { apply (tenths_between n 20 70 (v * 10)); [|exact Hnear].
    change (inject_Z 20) with 20%Q. change (inject_Z 70) with 70%Q. lra. }
  rewrite Hn.
  assert (Hq : (Qmake n 10 == inject_Z n / 10)%Q).
  { unfold Qeq, Qdiv, Qmult, Qinv, inject_Z. cbn. lia. }
  split; [|split; [|split; [|split]]].
  - unfold Qle. cbn. lia.
  - exists n. reflexivity.
  - apply Qabs_Qle_condition. rewrite Hq.
    assert (H10 : (inject_Z n / 10 * 10 == inject_Z n)%Q) by (field).
    split; lra.
  - reflexivity.
  - unfold Rng.gauss, Rng.next in Eg. injection Eg as _ <-. reflexivity.
Qed.

(** ** content/generator.py: the suppression gate over a whole run *)

Section GateSequences.
Import Generator.

(** A request to the gate: the message, its kind and the window. *)
Definition Request : Type := Message * string * Q.

Definition request_key (r : Request) : string * string :=
  (sender (fst (fst r)), snd (fst r)).

Definition request_window (r : Request) : Q := snd r.

(** Successive calls of [_emit] on the same engine; every message that went
    out is returned with the kind it went out under. *)
Fixpoint emit_all (e : ContentEngine) (reqs : list Request)
  : list (Message * string) * ContentEngine :=
  match reqs with
  | [] => ([], e)
  | r :: rest =>
      let '(out, e) := _emit e (fst (fst r)) (snd (fst r)) (snd r) in
      let '(more, e) := emit_all e rest in
      (map (fun m => (m, snd (fst r))) out ++ more, e)
  end.

Definition has_key (key : string * string) (mk : Message * string) : bool :=
  bool_decide ((sender (fst mk), snd mk) = key).

(** The instants at which messages of [key] went out. *)
Definition instants (key : string * string) (out : list (Message * string))
  : list Clock.datetime :=
  map (fun mk => timestamp (fst mk)) (List.filter (has_key key) out).

(** Each instant is at least [window_hours] after the one before it. *)
Fixpoint spaced (window_hours : Q) (prev : option Clock.datetime)
    (ts : list Clock.datetime) : Prop :=
  match ts with
  | [] => True
  | t :: rest =>
      match prev with
      | Some p => (window_hours <= inject_Z (t - p) / 60)%Q
      | None => True
      end
      /\ spaced window_hours (Some t) rest
  end.

Definition last_instant (prev : option Clock.datetime)
    (ts : list Clock.datetime) : option Clock.datetime :=
  match ts with
  | [] => prev
  | _ => Some (List.last ts 0)
  end.

Lemma last_instant_cons prev t ts :
  last_instant prev (t :: ts) = last_instant (Some t) ts.
Proof. destruct ts; reflexivity. Qed.

Lemma instants_hit key m k more :
  (sender m, k) = key ->
  instants key ((m, k) :: more) = timestamp m :: instants key more.
Proof.
  intros Hk. unfold instants. cbn [List.filter]. unfold has_key at 1.
  cbn [fst snd]. now rewrite bool_decide_eq_true_2 by exact Hk.
Qed.

Lemma instants_miss key m k more :
  (sender m, k) <> key -> instants key ((m, k) :: more) = instants key more.
Proof.
  intros Hk. unfold instants. cbn [List.filter]. unfold has_key at 1.
  cbn [fst snd]. now rewrite bool_decide_eq_false_2 by exact Hk.
Qed.

Lemma emit_all_spaced key window_hours reqs :
  Forall (fun r => request_key r = key -> request_window r = window_hours)
    reqs ->
  forall e,
    spaced window_hours (_recent e !! key)
      (instants key (fst (emit_all e reqs)))
    /\ _recent (snd (emit_all e reqs)) !! key
       = last_instant (_recent e !! key)
           (instants key (fst (emit_all e reqs))).
Proof.
  induction 1 as [|[[m k] w] rest Hr Hrest IH]; intros e.
  - cbn. split; [exact I | reflexivity].
  - cbn [emit_all fst snd]. rewrite _emit_unfold.
    unfold request_key, request_window in Hr. cbn [fst snd] in Hr.
    destruct (suppressed (_recent e) (sender m, k) (timestamp m) w) eqn:Es.
    + (* nothing goes out, nothing is recorded *)
      specialize (IH e). destruct (emit_all e rest) as [more e'].
      cbn [fst snd map app] in *. exact IH.
    + match goal with
      | |- context [emit_all ?e1 rest] => specialize (IH e1)
      end.
      destruct (emit_all _ rest) as [more e'].
      cbn [fst snd map app set_recent _recent] in *.
      destruct (decide ((sender m, k) = key)) as [Hk | Hk].
      * specialize (Hr Hk). subst w.
        rewrite (instants_hit key m k more Hk), last_instant_cons.
        subst key. rewrite lookup_insert_eq in IH.
        destruct IH as [IH1 IH2]. split; [|exact IH2].
        cbn [spaced]. split; [|exact IH1].
        unfold suppressed in Es.
        destruct (_recent e !! (sender m, k)) as [last|]; [|exact I].
        unfold Qltb in Es.
        destruct (Qlt_le_dec (inject_Z (timestamp m - last) / 60)
                    window_hours); [discriminate | assumption].
      * rewrite (instants_miss key m k more Hk).
        rewrite lookup_insert_ne in IH by exact Hk. exact IH.
Qed.

End GateSequences.

(** X12.  Over any sequence of calls of [_emit] in which the calls for one
    sender and kind all pass the same window, the messages of that sender
    and kind that go out are at least the window apart, the first of them
    at least the window after the instant on record at the start; the
    record at the end is the instant of the last one. *)
Theorem emit_keeps_messages_a_window_apart :
  forall key window_hours reqs e,
    Forall (fun r => request_key r = key -> request_window r = window_hours)
      reqs ->
    spaced window_hours (Generator._recent e !! key)
      (instants key (fst (emit_all e reqs)))
    /\ Generator._recent (snd (emit_all e reqs)) !! key
       = last_instant (Generator._recent e !! key)
           (instants key (fst (emit_all e reqs))).
Proof.
  intros key window_hours reqs e H. now apply emit_all_spaced.
Qed.

Lemma emit_keeps_messages_a_window_apart_witness :
  spaced 4 (Generator._recent (Generator.new_engine None)
              !! ("Rohan", "member_curiosity"))
    (instants ("Rohan", "member_curiosity")
       (fst (emit_all (Generator.new_engine None)
               [(sample_message 600, "member_curiosity", 4%Q);
                (sample_message 700, "member_curiosity", 4%Q);
                (sample_message 900, "member_curiosity", 4%Q)])))
  /\ Generator._recent
       (snd (emit_all (Generator.new_engine None)
               [(sample_message 600, "member_curiosity", 4%Q);
                (sample_message 700, "member_curiosity", 4%Q);
                (sample_message 900, "member_curiosity", 4%Q)]))
       !! ("Rohan", "member_curiosity")
     = last_instant (Generator._recent (Generator.new_engine None)
                       !! ("Rohan", "member_curiosity"))
         (instants ("Rohan", "member_curiosity")
            (fst (emit_all (Generator.new_engine None)
                    [(sample_message 600, "member_curiosity", 4%Q);
                     (sample_message 700, "member_curiosity", 4%Q);
                     (sample_message 900, "member_curiosity", 4%Q)]))).
Proof.
  apply (emit_keeps_messages_a_window_apart ("Rohan", "member_curiosity") 4
           [(sample_message 600, "member_curiosity", 4%Q);
            (sample_message 700, "member_curiosity", 4%Q);
            (sample_message 900, "member_curiosity", 4%Q)]
           (Generator.new_engine None)).
  repeat constructor.
Defined.

(** ** nlg.py: sampling parameters and the cache *)

Section AdapterFacts.
Import NLG.
Variable D : Delegate.

(** The payload handed to the server stays inside the clamps. *)
Definition payload_in_range (c : NLGConfig) (prompt : string) (p : Payload)
  : Prop :=
  p_model p = model c
  /\ p_prompt p = prompt
  /\ (2 # 10 <= p_temperature p <= 12 # 10)%Q
  /\ (5 # 10 <= p_top_p p <= 99 # 100)%Q
  /\ 96 <= p_num_predict p <= 240.

Lemma py_clamp_range (lo hi x : Q) :
  (lo <= hi)%Q -> (lo <= py_max lo (py_min hi x) <= hi)%Q.
Proof.
  intros H. unfold py_max, py_min. cbn [ltb exact]. unfold Qltb.
  repeat destruct (Qlt_le_dec _ _); lra.
Qed.

Lemma generate_and_polish_cache n key role header base_body prompt g :
  let '(r, n', g') :=
    generate_and_polish D n key role header base_body prompt g in
  n' = n
  \/ (enable_cache (cfg n) = true
      /\ exists text,
           r = Ok text
           /\ n' = {| cfg := cfg n; _cache := <[key := text]> (_cache n) |}).
Proof.
  unfold generate_and_polish. destruct prompt as [prompt | e]; [|now left].
  destruct (_ollama_generate D (cfg n) prompt g) as [[reply | e] g1];
    [|now left].
  destruct (String.eqb (Text.strip reply) ""); [now left|].
  destruct (polish D (Text.strip reply) role header g1) as [[text | e] g2];
    [|now left].
  destruct (enable_cache (cfg n)); [right; eauto | now left].
Qed.

Lemma enhance_try_cache n key role event header base_body facts g :
  let '(r, n', g') :=
    enhance_try D n key role event header base_body facts g in
  n' = n
  \/ (enable_cache (cfg n) = true
      /\ exists text,
           r = Ok text
           /\ n' = {| cfg := cfg n; _cache := <[key := text]> (_cache n) |}).
Proof.
  unfold enhance_try.
  destruct (String.eqb (mode (cfg n)) "paraphrase").
  - destruct (_prompt_paraphrase D _ _ _ _ _ _) as [prompt g1].
    apply generate_and_polish_cache.
  - destruct (String.eqb (mode (cfg n)) "full"); [|now left].
    destruct (_prompt_full D _ _ _ _ _) as [prompt g1].
    apply generate_and_polish_cache.
Qed.

End AdapterFacts.

(** X13.  Whatever the configuration and the random draws, the request
    [_ollama_generate] sends carries the configured model and the prompt, a
    temperature between 0.2 and 1.2, a top-p between 0.5 and 0.99 and a
    token budget between 96 and 240; the call reads three random numbers
    and turns an unreachable server into the empty text. *)
Theorem ollama_request_stays_in_range :
  forall D c prompt g,
    exists payload,
      payload_in_range c prompt payload
      /\ fst (NLG._ollama_generate D c prompt g)
         = match NLG.urlopen D payload with
           | NLG.Replied response => Ok response
           | NLG.Unreachable => Ok ""
           | NLG.Failed e => Raise e
           end
      /\ Rng.pos (snd (NLG._ollama_generate D c prompt g))
         = (Rng.pos g + 3)%nat.
Proof.
  intros D c prompt g.
  unfold NLG._ollama_generate, NLG.uniform, Rng.random, Rng.randint, Rng.next.
  cbn [Rng.tape Rng.pos].
  match goal with
  | |- context [NLG.urlopen D ?p] => exists p
  end.
  split; [|split].
  - unfold payload_in_range.
    cbn [NLG.p_model NLG.p_prompt NLG.p_temperature NLG.p_top_p
         NLG.p_num_predict].
    split; [reflexivity | split; [reflexivity|]].
    split; [|split].
    + apply (py_clamp_range (2 # 10) (12 # 10)). lra.
    + apply (py_clamp_range (5 # 10) (99 # 100)). lra.
    + lia.
  - destruct (NLG.urlopen D _); reflexivity.
  - destruct (NLG.urlopen D _); cbn [snd Rng.pos]; lia.
Qed.

(** X14.  A call of [enhance] never changes the configuration.  With the
    cache switched off (as in every engine [from_args] builds) it leaves the
    adapter as it was.  With the cache on it changes at most the entry of
    the request's own key, and only to the text it returns; the same request
    put again to the adapter it left behind then returns that text without
    touching the adapter or the random generator. *)
Theorem enhance_writes_only_its_own_cache_entry :
  forall D n role event header base_body facts g,
    let '(r, n', g') := NLG.enhance D n role event header base_body facts g in
    let key := NLG._key D role event header base_body facts
                 (NLG.mode (NLG.cfg n)) (NLG.model (NLG.cfg n)) in
    NLG.cfg n' = NLG.cfg n
    /\ (NLG.enable_cache (NLG.cfg n) = false -> n' = n)
    /\ (forall k, k <> key -> NLG._cache n' !! k = NLG._cache n !! k)
    /\ exists text,
         r = Ok text
         /\ (n' = n
             \/ (NLG._cache n' !! key = Some text
                 /\ forall g2,
                      NLG.enhance D n' role event header base_body facts g2
                      = (Ok text, n', g2))).
Proof.
  intros D n role event header base_body facts g. unfold NLG.enhance.
  destruct (String.eqb (NLG.provider (NLG.cfg n)) "none"
            || String.eqb (NLG.mode (NLG.cfg n)) "off") eqn:Eoff.
  { cbv zeta. repeat split; eauto. }
  set (key := NLG._key D role event header base_body facts
                (NLG.mode (NLG.cfg n)) (NLG.model (NLG.cfg n))).
  destruct (if NLG.enable_cache (NLG.cfg n) then NLG._cache n !! key else None)
    as [cached|] eqn:Ehit.
  { cbv zeta. repeat split; eauto. }
  pose proof (enhance_try_cache D n key role event header base_body facts g)
    as Htry.
  destruct (NLG.enhance_try D n key role event header base_body facts g)
    as [[r n1] g1].
  destruct Htry as [-> | (Hon & text & -> & ->)].
  - destruct r as [text | e]; cbv zeta; repeat split; eauto.
  - cbv zeta. cbn [NLG.cfg NLG._cache].
    split; [reflexivity|]. split; [congruence|].
    split; [intros k Hk; apply lookup_insert_ne; congruence|].
    exists text. split; [reflexivity|]. right.
    split; [apply lookup_insert_eq|].
    intros g2. rewrite Eoff, Hon. fold key.
    now rewrite lookup_insert_eq.
Qed.

(** ** validators.py: what the audit counts *)

Section AuditFacts.
Import Generator Audit.

Definition b2z (b : bool) : Z := if b then 1 else 0.

Lemma bump_count k k' kinds :
  count_of (bump k kinds) k' = count_of kinds k' + b2z (String.eqb k' k).
Proof.
  unfold count_of, bump. destruct (String.eqb_spec k' k) as [-> | Hne].
  - rewrite lookup_insert_eq. cbn. lia.
  - rewrite lookup_insert_ne by congruence. cbn. lia.
Qed.

(** Two prefixes of one text: one is a prefix of the other. *)
Lemma prefixes_comparable p q t :
  String.prefix p t = true -> String.prefix q t = true ->
  String.prefix p q = true \/ String.prefix q p = true.
Proof.
  revert p q. induction t as [|c t IH]; intros p q Hp Hq.
  - destruct p; [|discriminate]. left. now destruct q.
  - destruct p as [|a p]; [left; now destruct q|].
    destruct q as [|b q]; [right; reflexivity|].
    cbn [String.prefix] in *.
    destruct (ascii_dec a c) as [-> | ]; [|discriminate].
    destruct (ascii_dec b c) as [-> | ]; [|discriminate].
    destruct (ascii_dec c c) as [_ | Hc]; [|contradiction].
    now apply IH.
Qed.

Lemma prefix_excludes p q t :
  String.prefix p q = false -> String.prefix q p = false ->
  startswith t p = true -> startswith t q = false.
Proof.
  unfold startswith. intros Hpq Hqp Hp.
  destruct (String.prefix q t) eqn:Hq; [|reflexivity].
  destruct (prefixes_comparable p q t Hp Hq); congruence.
Qed.

(** The kinds a text without tag is counted under, in the order of the
    tests. *)
Definition text_kinds (text_lower : string) : list string :=
  (if startswith text_lower "weekly report" || startswith text_lower "wins"
      || startswith text_lower "good signs"
      || startswith text_lower "progress"
   then ["weekly_report"] else [])
  ++ (if startswith text_lower "exercise update"
      then ["exercise_update"] else [])
  ++ (if startswith text_lower "medical check-in"
      then ["medical_checkin"] else [])
  ++ (if startswith text_lower "nutrition update"
      then ["nutrition_update"] else [])
  ++ (if startswith text_lower "travel adaptation"
      then ["travel_adaptation"] else [])
  ++ (if startswith text_lower "ordering your diagnostic panel"
      then ["diagnostics_schedule"] else [])
  ++ (if startswith text_lower "diagnostics results"
      then ["diagnostics_results"] else [])
  ++ (if startswith text_lower "wearable note"
      then ["wearable_anomaly"] else []).

Definition bump_all (ks : list string) (kinds : gmap string Z)
  : gmap string Z :=
  fold_left (fun m k => bump k m) ks kinds.

Lemma _count_kind_from_text_bumps text_lower kinds :
  _count_kind_from_text text_lower kinds
  = bump_all (text_kinds text_lower) kinds.
Proof.
  unfold _count_kind_from_text, text_kinds, bump_all.
  destruct (startswith text_lower "weekly report"
            || startswith text_lower "wins"
            || startswith text_lower "good signs"
            || startswith text_lower "progress");
    destruct (startswith text_lower "exercise update");
    destruct (startswith text_lower "medical check-in");
    destruct (startswith text_lower "nutrition update");
    destruct (startswith text_lower "travel adaptation");
    destruct (startswith text_lower "ordering your diagnostic panel");
    destruct (startswith text_lower "diagnostics results");
    destruct (startswith text_lower "wearable note");
    reflexivity.
Qed.

(** The kinds one message is counted under: its tag when it has one, what
    its text looks like otherwise. *)
Definition message_kinds (m : Message) : list string :=
  let k := default "" (meta m !! "kind") in
  if negb (String.eqb k "") then [k]
  else text_kinds (Templates.str_lower (Text.strip (text m))).

Definition occurrences (k : string) (ks : list string) : Z :=
  Z.of_nat (length (List.filter (String.eqb k) ks)).

Lemma bump_all_count ks kinds k :
  count_of (bump_all ks kinds) k = count_of kinds k + occurrences k ks.
Proof.
  unfold bump_all, occurrences. revert kinds.
  induction ks as [|x ks IH]; intros kinds; [cbn; lia|].
  cbn [fold_left List.filter]. rewrite IH, bump_count.
  destruct (String.eqb k x); cbn [b2z length]; lia.
Qed.

Lemma tally_one_kinds acc m :
  tally_one acc m
  = (bump_all (message_kinds m) (fst acc),
     snd acc + b2z (initiated_by_member m)).
Proof.
  destruct acc as [kinds member]. unfold tally_one, message_kinds.
  cbn [fst snd]. f_equal.
  - destruct (negb _); [reflexivity|].
    apply _count_kind_from_text_bumps.
  - destruct (initiated_by_member m); cbn [b2z]; lia.
Qed.

Lemma fold_tally msgs acc k :
  count_of (fst (fold_left tally_one msgs acc)) k
  = count_of (fst acc) k + occurrences k (flat_map message_kinds msgs)
  /\ snd (fold_left tally_one msgs acc)
     = snd acc
       + Z.of_nat (length (List.filter initiated_by_member msgs)).
Proof.
  revert acc. induction msgs as [|m msgs IH]; intros acc.
  - cbn. unfold occurrences. cbn. lia.
  - cbn [fold_left flat_map List.filter].
    destruct (IH (tally_one acc m)) as [-> ->].
    rewrite tally_one_kinds. cbn [fst snd]. rewrite bump_all_count.
    unfold occurrences. rewrite List.filter_app, List.length_app.
    destruct (initiated_by_member m); cbn [b2z length]; lia.
Qed.

(** The number of messages counted under kind [k]. *)
Definition counted (k : string) (msgs : list Message) : Z :=
  occurrences k (flat_map message_kinds msgs).

Definition member_initiated (msgs : list Message) : Z :=
  Z.of_nat (length (List.filter initiated_by_member msgs)).

(** The assertions of [validate_conversation] on the counts. *)
Definition verdict (weekly_report exercise_update diagnostics_results
                      travel_adaptation member total_weeks : Z)
  : result unit :=
  if negb (total_weeks <=? weekly_report)
  then Raise "AssertionError: Weekly reports missing."
  else if negb (total_weeks / 2 - 1 <=? exercise_update)
  then Raise "AssertionError: Exercise updates too few."
  else if negb (diagnostics_results
                =? Validators._expected_diagnostics_count total_weeks)
  then Raise "AssertionError: Expected diagnostics result summaries"
  else if negb (total_weeks / 4 <=? travel_adaptation)
  then Raise "AssertionError: Travel adaptations too few."
  else
    let avg_member : Q :=
      if 0 <? total_weeks
      then (inject_Z member / inject_Z total_weeks)%Q else 0%Q in
    if negb (Qltb avg_member 3) && negb (Qltb 7 avg_member) then Ok tt
    else Raise "AssertionError: Member-initiated average out of band".

Lemma validate_conversation_counts msgs total_weeks :
  validate_conversation msgs total_weeks
  = verdict (counted "weekly_report" msgs) (counted "exercise_update" msgs)
      (counted "diagnostics_results" msgs)
      (counted "travel_adaptation" msgs) (member_initiated msgs) total_weeks.
Proof.
  unfold validate_conversation, tally, verdict, counted, member_initiated.
  pose proof (fun k => fold_tally msgs (∅, 0) k) as H.
  destruct (fold_left tally_one msgs (∅, 0)) as [kinds member].
  cbn [fst snd] in H.
  assert (Hk : forall k,
             count_of kinds k = occurrences k (flat_map message_kinds msgs)).
  { intros k. destruct (H k) as [-> _]. unfold count_of.
    rewrite lookup_empty. cbn. lia. }
  destruct (H "") as [_ ->]. rewrite !Hk. reflexivity.
Qed.

Lemma occurrences_perm k l l' :
  Permutation l l' -> occurrences k l = occurrences k l'.
Proof.
  intros H. unfold occurrences. f_equal.
  induction H; cbn [List.filter];
    repeat match goal with
           | |- context [String.eqb k ?x] => destruct (String.eqb k x)
           end; cbn [length]; congruence.
Qed.

Lemma member_initiated_perm l l' :
  Permutation l l' -> member_initiated l = member_initiated l'.
Proof.
  intros H. unfold member_initiated. f_equal.
  induction H; cbn [List.filter];
    repeat match goal with
           | |- context [initiated_by_member ?x] =>
               destruct (initiated_by_member x)
           end; cbn [length]; congruence.
Qed.

Lemma Qle_div_iff (a b c : Q) :
  (0 < c)%Q -> (b <= a / c <-> b * c <= a)%Q.
Proof.
  intros Hc. split; intros H.
  - destruct (Qlt_le_dec a (b * c)) as [Hlt | Hge]; [|exact Hge].
    exfalso. apply (Qlt_not_le (a / c) b); [|exact H].
    apply Qlt_shift_div_r; assumption.
  - apply Qle_shift_div_l; assumption.
Qed.

Lemma Qdiv_le_iff (a b c : Q) :
  (0 < c)%Q -> (a / c <= b <-> a <= b * c)%Q.
Proof.
  intros Hc. split; intros H.
  - destruct (Qlt_le_dec (b * c) a) as [Hlt | Hge]; [|exact Hge].
    exfalso. apply (Qlt_not_le b (a / c)); [|exact H].
    apply Qlt_shift_div_l; assumption.
  - apply Qle_shift_div_r; assumption.
Qed.

Lemma Qltb_false (x y : Q) : Qltb x y = false <-> (y <= x)%Q.
Proof.
  unfold Qltb. destruct (Qlt_le_dec x y) as [H | H].
  - split; [discriminate|]. intros Hle. exfalso.
    exact (Qlt_not_le _ _ H Hle).
  - split; [intros _; exact H | reflexivity].
Qed.

Lemma average_in_band (member total_weeks : Z) :
  0 < total_weeks ->
  negb (Qltb (inject_Z member / inject_Z total_weeks) 3)
  && negb (Qltb 7 (inject_Z member / inject_Z total_weeks)) = true
  <-> 3 * total_weeks <= member <= 7 * total_weeks.
Proof.
  intros Hn.
  assert (Hpos : (0 < inject_Z total_weeks)%Q)
    by (rewrite <- (Zlt_Qlt 0); exact Hn).
  rewrite andb_true_iff, !negb_true_iff, !Qltb_false.
  rewrite (Qle_div_iff _ _ _ Hpos), (Qdiv_le_iff _ _ _ Hpos).
  change 3%Q with (inject_Z 3). change 7%Q with (inject_Z 7).
  rewrite <- !inject_Z_mult, <- !Zle_Qle. lia.
Qed.

End AuditFacts.

Section AuditVerdicts.
Import Generator Audit.

Ltac exclude_others Hp :=
  lazymatch type of Hp with
  | startswith ?t ?p = true =>
      repeat match goal with
             | |- context [startswith t ?q] =>
                 rewrite (prefix_excludes p q t eq_refl eq_refl Hp)
             end
  end.

Lemma text_kinds_at_most_one text_lower :
  (length (text_kinds text_lower) <= 1)%nat.
Proof.
  unfold text_kinds.
  destruct (startswith text_lower "weekly report"
            || startswith text_lower "wins"
            || startswith text_lower "good signs"
            || startswith text_lower "progress") eqn:E0.
  { rewrite !orb_true_iff in E0.
    destruct E0 as [[[Hp | Hp] | Hp] | Hp];
      exclude_others Hp; cbn; lia. }
  repeat match goal with
         | |- context [if startswith text_lower ?p then _ else _] =>
             let Hp := fresh "Hp" in
             destruct (startswith text_lower p) eqn:Hp;
             [exclude_others Hp; cbn; lia|]
         end.
  cbn. lia.
Qed.

(** A message carries a kind tag. *)
Definition tagged (m : Message) : Prop :=
  exists k, meta m !! "kind" = Some k /\ k <> "".

Definition with_text (f : Message -> string) (m : Message) : Message :=
  {| timestamp := timestamp m; sender := sender m; text := f m;
     attachments := attachments m;
     initiated_by_member := initiated_by_member m; meta := meta m |}.

Lemma message_kinds_tagged f m :
  tagged m -> message_kinds (with_text f m) = message_kinds m.
Proof.
  intros (k & Hk & Hne). unfold message_kinds, with_text. cbn [meta text].
  rewrite Hk. apply String.eqb_neq in Hne. simpl. now rewrite Hne.
Qed.

End AuditVerdicts.

(** X15.  [_count_kind_from_text] counts a text under at most one kind: it
    leaves the counter as it was or adds one to a single entry. *)
Theorem text_is_counted_under_at_most_one_kind :
  forall text_lower kinds,
    Audit._count_kind_from_text text_lower kinds = kinds
    \/ exists k, Audit._count_kind_from_text text_lower kinds
                 = Audit.bump k kinds.
Proof.
  intros text_lower kinds. rewrite _count_kind_from_text_bumps.
  pose proof (text_kinds_at_most_one text_lower) as Hlen.
  destruct (text_kinds text_lower) as [|k [|k' rest]].
  - now left.
  - right. exists k. reflexivity.
  - cbn [length] in Hlen. lia.
Qed.

(** X16.  [validate_conversation] passes exactly when the number of weeks
    is positive, the weekly reports number at least the weeks, the exercise
    updates at least half the weeks less one, the diagnostics results are
    as many as the cadence of week 4 and every twelfth week after it gives,
    the travel adaptations number at least a quarter of the weeks, and the
    messages the member initiated number between three and seven times the
    weeks.  A message is counted under its tag when it has one, and under
    what its text starts with otherwise. *)
Theorem validate_conversation_passes_iff :
  forall msgs total_weeks,
    Audit.validate_conversation msgs total_weeks = Ok tt
    <-> 0 < total_weeks
        /\ total_weeks <= counted "weekly_report" msgs
        /\ total_weeks / 2 - 1 <= counted "exercise_update" msgs
        /\ counted "diagnostics_results" msgs
           = Z.max 0 ((total_weeks + 8) / 12)
        /\ total_weeks / 4 <= counted "travel_adaptation" msgs
        /\ 3 * total_weeks <= member_initiated msgs <= 7 * total_weeks.
Proof.
  intros msgs total_weeks. rewrite validate_conversation_counts.
  unfold verdict.
  assert (Hexp : Validators._expected_diagnostics_count total_weeks
                 = Z.max 0 ((total_weeks + 8) / 12)).
  { unfold Validators._expected_diagnostics_count.
    rewrite diagnostic_loop_closed_form. unfold py_range.
    rewrite length_map, length_seq.
    replace (total_weeks + 1 - 4 + 12 - 1) with (total_weeks + 8) by lia.
    lia. }
  rewrite Hexp.
  destruct (Z.leb_spec total_weeks (counted "weekly_report" msgs));
    cbn [negb]; [|split; [discriminate | lia]].
  destruct (Z.leb_spec (total_weeks / 2 - 1)
              (counted "exercise_update" msgs));
    cbn [negb]; [|split; [discriminate | lia]].
  destruct (Z.eqb_spec (counted "diagnostics_results" msgs)
              (Z.max 0 ((total_weeks + 8) / 12)));
    cbn [negb]; [|split; [discriminate | lia]].
  destruct (Z.leb_spec (total_weeks / 4)
              (counted "travel_adaptation" msgs));
    cbn [negb]; [|split; [discriminate | lia]].
  cbv zeta. destruct (Z.ltb_spec 0 total_weeks) as [Hpos | Hneg].
  - pose proof (average_in_band (member_initiated msgs) total_weeks Hpos)
      as Hband.
    destruct (negb _ && negb _).
    + split; [intros _ | reflexivity]. repeat split; try assumption;
        apply Hband; reflexivity.
    + split; [discriminate|]. intros (_ & _ & _ & _ & _ & Hb).
      apply Hband in Hb. discriminate.
  - split; [|lia]. change (Qltb 0 3) with true. cbn [negb andb].
    discriminate.
Qed.

(** X17.  The verdict of [validate_conversation] does not depend on the
    order of the messages. *)
Theorem validate_conversation_ignores_order :
  forall msgs msgs' total_weeks,
    Permutation msgs msgs' ->
    Audit.validate_conversation msgs total_weeks
    = Audit.validate_conversation msgs' total_weeks.
Proof.
  intros msgs msgs' total_weeks H. rewrite !validate_conversation_counts.
  unfold counted.
  assert (Hf : Permutation (flat_map message_kinds msgs)
                 (flat_map message_kinds msgs'))
    by (apply Permutation_flat_map; exact H).
  rewrite !(occurrences_perm _ _ _ Hf), (member_initiated_perm _ _ H).
  reflexivity.
Qed.

Lemma validate_conversation_ignores_order_witness :
  Audit.validate_conversation [sample_message 600; sample_message 900] 1
  = Audit.validate_conversation [sample_message 900; sample_message 600] 1.
Proof.
  apply (validate_conversation_ignores_order
           [sample_message 600; sample_message 900]
           [sample_message 900; sample_message 600] 1).
  apply perm_swap.
Defined.

(** X18.  When every message carries a kind tag the verdict of
    [validate_conversation] does not depend on the texts: the prefixes of
    the texts are only looked at for messages without tag. *)
Theorem validate_conversation_ignores_text_of_tagged_messages :
  forall (f : Generator.Message -> string) msgs total_weeks,
    Forall tagged msgs ->
    Audit.validate_conversation (map (with_text f) msgs) total_weeks
    = Audit.validate_conversation msgs total_weeks.
Proof.
  intros f msgs total_weeks H. rewrite !validate_conversation_counts.
  assert (Hk : flat_map message_kinds (map (with_text f) msgs)
               = flat_map message_kinds msgs).
  { induction H as [|m rest Hm Hrest IH]; [reflexivity|].
    cbn [map flat_map]. now rewrite IH, message_kinds_tagged. }
  assert (Hm : member_initiated (map (with_text f) msgs)
               = member_initiated msgs).
  { unfold member_initiated. f_equal. clear.
    induction msgs as [|m rest IH]; [reflexivity|].
    cbn [map List.filter with_text Generator.initiated_by_member].
    destruct (Generator.initiated_by_member m); cbn [length]; congruence. }
  unfold counted. now rewrite Hk, Hm.
Qed.

Lemma validate_conversation_ignores_text_of_tagged_messages_witness :
  Audit.validate_conversation
    (map (with_text (fun _ => "weekly report"))
       [sample_message 600; sample_message 900]) 1
  = Audit.validate_conversation [sample_message 600; sample_message 900] 1.
Proof.
  apply (validate_conversation_ignores_text_of_tagged_messages
           (fun _ => "weekly report")
           [sample_message 600; sample_message 900] 1).
  repeat constructor; exists "member_curiosity";
    (split; [reflexivity | discriminate]).
Defined.

(** ** content/generator.py: who a message is said to come from *)

Section BuilderFlags.
Import Generator.
Variable D : NLG.Delegate.
Variable T : Wording.

(** The builder that speaks for the member. *)
Definition member_builder (b : Builder) : bool :=
  match b with
  | MemberCuriosity => true
  | _ => false
  end.




End BuilderFlags.

(** ** run.py: the messages of a run *)

Section RunShape.
Import Generator.
Variable D : NLG.Delegate.
Variable T : Wording.











End RunShape.

Section ScheduleWellFormed.
Import Scheduler.

Lemma seg_one_well_formed c k0 w m base lo hi g :
  String.eqb k0 "travel_adaptation" = false \/ (exists d, m = Some d) ->
  forallb well_formed (fst (seg_one c k0 w m base lo hi g)) = true.
Proof.
  intros H. unfold seg_one. destruct c; [|reflexivity].
  destruct (_random_time base lo hi g) as [t g1]. cbn [fst forallb].
  unfold well_formed. cbn [kind meta].
  destruct H as [-> | [d ->]]; [reflexivity|].
  now rewrite orb_true_r.
Qed.

Lemma curiosity_well_formed n w base g :
  forallb well_formed (fst (curiosity_events n w base g)) = true.
Proof.
  revert g. induction n as [|n IH]; intros g; [reflexivity|].
  cbn [curiosity_events].
  destruct (Rng.randint 0 6 g) as [day g1].
  destruct (_random_time _ 8 20 g1) as [t g2].
  specialize (IH g2). destruct (curiosity_events n w base g2) as [rest g3].
  cbn [fst forallb] in *. now rewrite IH.
Qed.

Lemma week_events_well_formed clock travel w g :
  forallb well_formed (fst (week_events clock travel w g)) = true.
Proof.
  rewrite week_events_segments. unfold week_events_by_segment. cbv zeta.
  repeat match goal with
  | |- context [let '(_, _) := seg_one ?c ?k0 ?w0 ?m ?b ?lo ?hi ?g0 in _] =>
      pose proof (seg_one_well_formed c k0 w0 m b lo hi g0
                    ltac:(left; reflexivity));
      destruct (seg_one c k0 w0 m b lo hi g0)
  | |- context [let '(_, _) := seg_travel ?tr ?w0 ?b ?g0 in _] =>
      assert (forallb well_formed (fst (seg_travel tr w0 b g0)) = true)
        by (unfold seg_travel;
            destruct (Travel.destination_for_week tr w0);
            [apply seg_one_well_formed; right; eauto | reflexivity]);
      destruct (seg_travel tr w0 b g0)
  | |- context [let '(_, _) := seg_diagnostics ?w0 ?b ?g0 in _] =>
      assert (forallb well_formed (fst (seg_diagnostics w0 b g0)) = true)
        by (unfold seg_diagnostics;
            destruct (Travel.mem w0 diagnostic_weeks); [|reflexivity];
            destruct (_random_time b 8 11 g0);
            destruct (_random_time _ 13 18 _); reflexivity);
      destruct (seg_diagnostics w0 b g0)
  | |- context [let '(_, _) := seg_curiosity ?w0 ?b ?g0 in _] =>
      assert (forallb well_formed (fst (seg_curiosity w0 b g0)) = true)
        by (unfold seg_curiosity; destruct (Rng.randint 3 7 g0);
            apply curiosity_well_formed);
      destruct (seg_curiosity w0 b g0)
  | |- context [let '(_, _) := seg_wearable ?w0 ?b ?g0 in _] =>
      assert (forallb well_formed (fst (seg_wearable w0 b g0)) = true)
        by (unfold seg_wearable; destruct (Rng.random g0);
            destruct (Qlt_le_dec _ _); [|reflexivity];
            destruct (Rng.randint 1 6 _);
            destruct (_random_time _ 8 20 _); reflexivity);
      destruct (seg_wearable w0 b g0)
  end.
  cbn [fst] in *. rewrite !forallb_app.
  repeat match goal with
         | H : forallb well_formed _ = true |- _ => rewrite H; clear H
         end.
  reflexivity.
Qed.

Lemma all_weeks_well_formed clock travel ws g :
  forallb well_formed (fst (all_weeks clock travel ws g)) = true.
Proof.
  revert g. induction ws as [|w ws IH]; intros g; [reflexivity|].
  cbn [all_weeks].
  pose proof (week_events_well_formed clock travel w g) as Hw.
  destruct (week_events clock travel w g) as [evs g1]. specialize (IH g1).
  destruct (all_weeks clock travel ws g1) as [rest g2]. cbn [fst] in *.
  now rewrite forallb_app, Hw, IH.
Qed.

Lemma build_events_well_formed clock travel total_weeks g :
  forallb well_formed (fst (build_events clock travel total_weeks g)) = true.
Proof.
  unfold build_events.
  pose proof (all_weeks_well_formed clock travel
                (py_range 1 (total_weeks + 1) 1) g) as H.
  destruct (all_weeks clock travel _ g) as [events g1]. cbn [fst] in *.
  apply forallb_forall. intros e He.
  rewrite forallb_forall in H. apply H.
  eapply Permutation_in; [apply sort_by_when_perm | exact He].
Qed.

End ScheduleWellFormed.


(** ** Text helpers: stripping, lists of items, duplicate lines *)

Section StripFacts.
Import Text.

Definition starts_with_space (s : string) : bool :=
  match s with
  | String c _ => isspace c
  | EmptyString => false
  end.

Fixpoint ends_with_space (s : string) : bool :=
  match s with
  | EmptyString => false
  | String c EmptyString => isspace c
  | String _ r => ends_with_space r
  end.

Lemma lstrip_no_lead s : starts_with_space (lstrip s) = false.
Proof.
  induction s as [|c r IH]; [reflexivity|]. cbn [lstrip].
  destruct (isspace c) eqn:E; [exact IH | cbn; exact E].
Qed.

Lemma lstrip_fixed s : starts_with_space s = false -> lstrip s = s.
Proof. destruct s as [|c r]; [reflexivity|]. cbn. now intros ->. Qed.

Lemma rstrip_no_trail s : ends_with_space (rstrip s) = false.
Proof.
  induction s as [|c r IH]; [reflexivity|]. cbn [rstrip].
  destruct (rstrip r) as [|d r'] eqn:E.
  - destruct (isspace c) eqn:Ec; [reflexivity | cbn; exact Ec].
  - exact IH.
Qed.

Lemma rstrip_fixed s : ends_with_space s = false -> rstrip s = s.
Proof.
  induction s as [|c r IH]; [reflexivity|]. intros H. cbn [rstrip].
  destruct r as [|d r'].
  - cbn in *. now rewrite H.
  - rewrite IH by exact H. reflexivity.
Qed.

Lemma rstrip_keeps_lead s :
  starts_with_space s = false -> starts_with_space (rstrip s) = false.
Proof.
  destruct s as [|c r]; [reflexivity|]. cbn [starts_with_space rstrip].
  intros Hc. destruct (rstrip r); [rewrite Hc|]; cbn; [exact Hc | exact Hc].
Qed.

Lemma strip_clean s :
  starts_with_space (strip s) = false /\ ends_with_space (strip s) = false.
Proof.
  unfold strip. split.
  - apply rstrip_keeps_lead, lstrip_no_lead.
  - apply rstrip_no_trail.
Qed.

Lemma strip_fixed s :
  starts_with_space s = false -> ends_with_space s = false -> strip s = s.
Proof.
  intros H1 H2. unfold strip. rewrite lstrip_fixed by exact H1.
  now apply rstrip_fixed.
Qed.

Lemma strip_idempotent s : strip (strip s) = strip s.
Proof. destruct (strip_clean s). now apply strip_fixed. Qed.

Lemma re_sub_empty m : re_sub m "" = "".
Proof. reflexivity. Qed.

End StripFacts.

(** X20.  What [ContentEngine._tidy] and [templates._tidy_text] return
    neither starts nor ends with whitespace, and a text with no visible
    character is tidied to the empty text, unless the text is empty
    already, which both return as it is. *)
Theorem tidy_returns_stripped_text :
  forall s,
    (s <> "" ->
     starts_with_space (Text._tidy s) = false
     /\ ends_with_space (Text._tidy s) = false
     /\ starts_with_space (Text._tidy_text s) = false
     /\ ends_with_space (Text._tidy_text s) = false)
    /\ (Text.strip s = "" -> Text._tidy s = "" /\ Text._tidy_text s = "")
    /\ Text.strip (Text._tidy s) = Text._tidy s
    /\ Text.strip (Text._tidy_text s) = Text._tidy_text s.
Proof.
  intros s. destruct (String.eqb s "") eqn:Es.
  - apply String.eqb_eq in Es. subst s.
    split; [intros H; contradiction|]. repeat split.
  - assert (Ht : Text.strip (Text._tidy s) = Text._tidy s
                 /\ starts_with_space (Text._tidy s) = false
                 /\ ends_with_space (Text._tidy s) = false).
    { unfold Text._tidy. rewrite Es.
      split; [apply strip_idempotent | apply strip_clean]. }
    assert (Hx : Text.strip (Text._tidy_text s) = Text._tidy_text s
                 /\ starts_with_space (Text._tidy_text s) = false
                 /\ ends_with_space (Text._tidy_text s) = false).
    { unfold Text._tidy_text. rewrite Es.
      split; [apply strip_idempotent | apply strip_clean]. }
    destruct Ht as (Ha & Hb & Hc). destruct Hx as (Hd & He & Hf).
    split; [intros _; repeat split; assumption|].
    split; [|split; assumption].
    intros Hs. unfold Text._tidy, Text._tidy_text.
    rewrite Es, Hs. split; reflexivity.
Qed.

Section ListFacts.
Import Text Textstyle.

Lemma append_empty a b : String.append a b = "" -> a = "".
Proof. destruct a; [reflexivity | discriminate]. Qed.

Lemma blank_strip i : blank (strip i) = blank i.
Proof. unfold blank. now rewrite strip_idempotent. Qed.

(** The items [natural_list] keeps: those with visible text, stripped. *)
Definition visible (items : list string) : list string :=
  map strip (List.filter (fun i => negb (blank i)) items).

Lemma visible_nonempty items :
  Forall (fun a => a <> "") (visible items).
Proof.
  unfold visible. induction items as [|i items IH]; [constructor|].
  cbn [List.filter]. destruct (blank i) eqn:E; cbn [negb map]; [exact IH|].
  constructor; [|exact IH]. unfold blank in E.
  now apply String.eqb_neq in E.
Qed.

Lemma visible_idempotent items : visible (visible items) = visible items.
Proof.
  unfold visible. induction items as [|i items IH]; [reflexivity|].
  cbn [List.filter]. destruct (blank i) eqn:E; cbn [negb map]; [exact IH|].
  cbn [List.filter]. rewrite blank_strip, E. cbn [negb map].
  now rewrite strip_idempotent, IH.
Qed.

Lemma visible_nil items :
  visible items = [] <-> Forall (fun i => blank i = true) items.
Proof.
  unfold visible. induction items as [|i items IH].
  - split; [constructor | reflexivity].
  - cbn [List.filter]. destruct (blank i) eqn:E; cbn [negb map].
    + rewrite IH. split; [now constructor | now inversion 1].
    + split; [discriminate|]. inversion 1; congruence.
Qed.

Lemma natural_list_visible items conj :
  natural_list items conj
  = match visible items with
    | [] => ""
    | [a] => a
    | [a; b] => String.append a (String.append " " (String.append conj
                  (String.append " " b)))
    | _ => String.append (String.concat ", " (List.removelast (visible items)))
             (String.append ", " (String.append conj
                (String.append " " (List.last (visible items) ""))))
    end.
Proof. reflexivity. Qed.

End ListFacts.

(** X21.  [natural_list] only looks at the items that have visible text,
    without the whitespace around them: it returns the empty text exactly
    when no item has visible text, and blank items or whitespace around an
    item never change the result. *)
Theorem natural_list_ignores_blank_items :
  forall items conj,
    (Textstyle.natural_list items conj = ""
     <-> Forall (fun i => Textstyle.blank i = true) items)
    /\ Textstyle.natural_list (visible items) conj
       = Textstyle.natural_list items conj.
Proof.
  intros items conj. split.
  - rewrite <- visible_nil, natural_list_visible.
    pose proof (visible_nonempty items) as Hne.
    destruct (visible items) as [|a [|b [|c rest]]].
    + split; reflexivity.
    + inversion Hne; subst. split; [intros ->; contradiction | discriminate].
    + inversion Hne; subst.
      split; [intros H; apply append_empty in H; contradiction
             | discriminate].
    + inversion Hne; subst. split; [|discriminate]. intros H.
      apply append_empty in H. cbn [List.removelast String.concat] in H.
      apply append_empty in H. contradiction.
  - rewrite !natural_list_visible. now rewrite visible_idempotent.
Qed.

Section DedupeFacts.
Import Templates.

Lemma dedupe_loop_facts lines :
  forall seen : gset string,
    sublist (dedupe_loop seen lines) lines
    /\ List.NoDup (map _normalize_for_dupe (dedupe_loop seen lines))
    /\ (forall ln, In ln (dedupe_loop seen lines) ->
                   _normalize_for_dupe ln <> ""
                   /\ _normalize_for_dupe ln ∉ seen)
    /\ (forall ln, In ln lines -> _normalize_for_dupe ln <> "" ->
                   _normalize_for_dupe ln ∈ seen
                   \/ exists ln', In ln' (dedupe_loop seen lines)
                                  /\ _normalize_for_dupe ln'
                                     = _normalize_for_dupe ln)
    /\ dedupe_loop seen (dedupe_loop seen lines) = dedupe_loop seen lines.
Proof.
  induction lines as [|x rest IH]; intros seen.
  - cbn. split; [apply sublist_nil|]. split; [constructor|].
    split; [intros ln []|]. split; [intros ln []| reflexivity].
  - cbn [dedupe_loop].
    destruct (String.eqb_spec (_normalize_for_dupe x) "") as [Hx | Hx];
      cbn [negb andb].
    { destruct (IH seen) as (S1 & S2 & S3 & S4 & S5).
      split; [now apply sublist_cons|]. split; [exact S2|].
      split; [exact S3|].
      split; [|exact S5].
      intros ln [<- | Hin] Hne; [contradiction | now apply S4]. }
    destruct (bool_decide_reflect (_normalize_for_dupe x ∈ seen))
      as [Hin | Hnotin]; cbn [negb].
    { destruct (IH seen) as (S1 & S2 & S3 & S4 & S5).
      split; [now apply sublist_cons|]. split; [exact S2|].
      split; [exact S3|].
      split; [|exact S5].
      intros ln [<- | Hl] Hne; [now left | now apply S4]. }
    destruct (IH ({[_normalize_for_dupe x]} ∪ seen))
      as (S1 & S2 & S3 & S4 & S5).
    split; [now apply sublist_skip|]. split; [|split; [|split]].
    + cbn [map]. constructor; [|exact S2]. intros Hin.
      apply in_map_iff in Hin. destruct Hin as (ln & Hk & Hl).
      destruct (S3 ln Hl) as [_ Hn]. apply Hn. rewrite Hk.
      apply elem_of_union_l, elem_of_singleton. reflexivity.
    + intros ln [<- | Hl]; [split; assumption|].
      destruct (S3 ln Hl) as [Hne Hn]. split; [exact Hne|].
      intros Hs. apply Hn, elem_of_union_r, Hs.
    + intros ln [<- | Hl] Hne.
      * right. exists x. split; [now left | reflexivity].
      * destruct (S4 ln Hl Hne) as [Hs | (ln' & Hl' & Hk)].
        -- apply elem_of_union in Hs. destruct Hs as [Hs | Hs]; [|now left].
           apply elem_of_singleton in Hs. right. exists x.
           split; [now left | now symmetry].
        -- right. exists ln'. split; [now right | exact Hk].
    + cbn [dedupe_loop]. apply String.eqb_neq in Hx. rewrite Hx.
      rewrite bool_decide_eq_false_2 by exact Hnotin. cbn [negb andb].
      now rewrite S5.
Qed.

End DedupeFacts.

(** X22.  [_dedupe_lines] returns a selection of the lines in their order:
    no two lines it keeps have the same normalised form, it keeps no line
    whose normalised form is empty, every other line has its normalised form
    among those of the lines kept, and a list it returned is returned
    unchanged. *)
Theorem dedupe_lines_keeps_one_line_per_form :
  forall lines,
    sublist (Templates._dedupe_lines lines) lines
    /\ List.NoDup (map Templates._normalize_for_dupe
                     (Templates._dedupe_lines lines))
    /\ Forall (fun ln => Templates._normalize_for_dupe ln <> "")
         (Templates._dedupe_lines lines)
    /\ (forall ln, In ln lines -> Templates._normalize_for_dupe ln <> "" ->
                   exists ln', In ln' (Templates._dedupe_lines lines)
                               /\ Templates._normalize_for_dupe ln'
                                  = Templates._normalize_for_dupe ln)
    /\ Templates._dedupe_lines (Templates._dedupe_lines lines)
       = Templates._dedupe_lines lines.
Proof.
  intros lines. unfold Templates._dedupe_lines.
  destruct (dedupe_loop_facts lines ∅) as (S1 & S2 & S3 & S4 & S5).
  split; [exact S1|]. split; [exact S2|]. split; [|split; [|exact S5]].
  - apply List.Forall_forall. intros ln Hl. now apply S3.
  - intros ln Hl Hne. destruct (S4 ln Hl Hne) as [Hs | H]; [|exact H].
    apply elem_of_empty in Hs. contradiction.
Qed.

(** ** The events whose message is never held back *)

Section ScheduledDays.
Import Scheduler.

(** The day of the week, counted from the first day of the week, on which
    the scheduler puts the events of a kind with a fixed day. *)
Definition day_of (k : string) : option Z :=
  if existsb (String.eqb k)
       ["weekly_report"; "exercise_update"; "medical_checkin";
        "nutrition_update"; "travel_adaptation"; "diagnostics_schedule"]
  then Some 0
  else if String.eqb k "diagnostics_results" then Some 4 else None.

Definition on_its_day (clock : Clock.SimClock) (e : Event) : Prop :=
  forall d, day_of (kind e) = Some d ->
            Clock.toordinal (when e)
            = Clock.toordinal (Clock.start_date clock) + 7 * (week e - 1) + d.

Lemma _random_time_day clock w d lo hi g :
  0 <= lo <= hi -> hi < 24 ->
  Clock.toordinal
    (fst (_random_time
            (Clock.plus_days (Clock.datetime_for clock w 0 9 0) d) lo hi g))
  = Clock.toordinal (Clock.start_date clock) + 7 * (w - 1) + d.
Proof.
  intros Hlo Hhi.
  destruct (_random_time_parts
              (Clock.plus_days (Clock.datetime_for clock w 0 9 0) d) lo hi g
              Hlo Hhi) as (_ & _ & ->).
  destruct (plus_days_parts (Clock.datetime_for clock w 0 9 0) d)
    as (-> & _ & _).
  destruct (datetime_for_parts clock w 0 9 0 ltac:(lia) ltac:(lia))
    as (-> & _ & _). lia.
Qed.

Lemma _random_time_monday clock w lo hi g :
  0 <= lo <= hi -> hi < 24 ->
  Clock.toordinal
    (fst (_random_time (Clock.datetime_for clock w 0 9 0) lo hi g))
  = Clock.toordinal (Clock.start_date clock) + 7 * (w - 1) + 0.
Proof.
  intros Hlo Hhi.
  destruct (_random_time_parts (Clock.datetime_for clock w 0 9 0) lo hi g
              Hlo Hhi) as (_ & _ & ->).
  destruct (datetime_for_parts clock w 0 9 0 ltac:(lia) ltac:(lia))
    as (-> & _ & _). lia.
Qed.

Lemma seg_one_on_its_day clock c k0 w m lo hi g :
  0 <= lo <= hi -> hi < 24 ->
  (forall d, day_of k0 = Some d -> d = 0) ->
  Forall (on_its_day clock)
    (fst (seg_one c k0 w m (Clock.datetime_for clock w 0 9 0) lo hi g)).
Proof.
  intros Hlo Hhi Hk. unfold seg_one. destruct c; [|constructor].
  pose proof (_random_time_monday clock w lo hi g Hlo Hhi) as Ht.
  destruct (_random_time _ lo hi g) as [t g1]. cbn [fst] in *.
  constructor; [|constructor]. intros d Hd. cbn [kind week when] in *.
  rewrite (Hk d Hd). exact Ht.
Qed.

Lemma curiosity_on_its_day clock n w base g :
  Forall (on_its_day clock) (fst (curiosity_events n w base g)).
Proof.
  revert g. induction n as [|n IH]; intros g; [constructor|].
  cbn [curiosity_events].
  destruct (Rng.randint 0 6 g) as [day g1].
  destruct (_random_time _ 8 20 g1) as [t g2].
  specialize (IH g2). destruct (curiosity_events n w base g2) as [rest g3].
  cbn [fst] in *. constructor; [|exact IH].
  intros d Hd. discriminate Hd.
Qed.

Lemma seg_diagnostics_on_its_day clock w g :
  Forall (on_its_day clock)
    (fst (seg_diagnostics w (Clock.datetime_for clock w 0 9 0) g)).
Proof.
  unfold seg_diagnostics.
  destruct (Travel.mem w diagnostic_weeks); [|constructor].
  pose proof (_random_time_monday clock w 8 11 g ltac:(lia) ltac:(lia))
    as H1.
  destruct (_random_time _ 8 11 g) as [t1 g1].
  pose proof (_random_time_day clock w 4 13 18 g1 ltac:(lia) ltac:(lia))
    as H2.
  destruct (_random_time _ 13 18 g1) as [t2 g2]. cbn [fst] in *.
  constructor; [|constructor; [|constructor]];
    intros d Hd; vm_compute in Hd; injection Hd as <-;
    cbn [kind week when]; assumption.
Qed.

Lemma week_events_on_its_day clock travel w g :
  Forall (on_its_day clock) (fst (week_events clock travel w g)).
Proof.
  rewrite week_events_segments. unfold week_events_by_segment. cbv zeta.
  repeat match goal with
  | |- context [let '(_, _) := seg_one ?c ?k0 ?w0 ?m ?b ?lo ?hi ?g0 in _] =>
      pose proof (seg_one_on_its_day clock c k0 w0 m lo hi g0
                    ltac:(lia) ltac:(lia)
                    ltac:(intros d Hd; vm_compute in Hd; congruence));
      destruct (seg_one c k0 w0 m b lo hi g0)
  | |- context [let '(_, _) := seg_travel ?tr ?w0 ?b ?g0 in _] =>
      assert (Forall (on_its_day clock) (fst (seg_travel tr w0 b g0)))
        by (unfold seg_travel;
            destruct (Travel.destination_for_week tr w0); [|constructor];
            apply seg_one_on_its_day;
            [lia | lia | intros d Hd; vm_compute in Hd; congruence]);
      destruct (seg_travel tr w0 b g0)
  | |- context [let '(_, _) := seg_diagnostics ?w0 ?b ?g0 in _] =>
      pose proof (seg_diagnostics_on_its_day clock w0 g0);
      destruct (seg_diagnostics w0 b g0)
  | |- context [let '(_, _) := seg_curiosity ?w0 ?b ?g0 in _] =>
      assert (Forall (on_its_day clock) (fst (seg_curiosity w0 b g0)))
        by (unfold seg_curiosity; destruct (Rng.randint 3 7 g0);
            apply curiosity_on_its_day);
      destruct (seg_curiosity w0 b g0)
  | |- context [let '(_, _) := seg_wearable ?w0 ?b ?g0 in _] =>
      assert (Forall (on_its_day clock) (fst (seg_wearable w0 b g0)))
        by (unfold seg_wearable; destruct (Rng.random g0);
            destruct (Qlt_le_dec _ _); [|constructor];
            destruct (Rng.randint 1 6 _);
            destruct (_random_time _ 8 20 _);
            constructor; [|constructor]; intros d Hd; discriminate Hd);
      destruct (seg_wearable w0 b g0)
  end.
  cbn [fst] in *. repeat (apply Forall_app; split); assumption.
Qed.

Lemma build_events_on_its_day clock travel total_weeks g :
  Forall (on_its_day clock) (fst (build_events clock travel total_weeks g)).
Proof.
  unfold build_events.
  assert (H : forall ws g0,
             Forall (on_its_day clock) (fst (all_weeks clock travel ws g0))).
  { induction ws as [|w ws IH]; intros g0; [constructor|].
    cbn [all_weeks].
    pose proof (week_events_on_its_day clock travel w g0) as Hw.
    destruct (week_events clock travel w g0) as [evs g1].
    specialize (IH g1). destruct (all_weeks clock travel ws g1) as [rest g2].
    cbn [fst] in *. apply Forall_app. split; assumption. }
  specialize (H (py_range 1 (total_weeks + 1) 1) g).
  destruct (all_weeks clock travel _ g) as [events g1]. cbn [fst] in *.
  eapply Permutation_Forall; [symmetry; apply sort_by_when_perm | exact H].
Qed.

End ScheduledDays.

Section ExclusiveBuilders.
Import Generator.
Variable D : NLG.Delegate.
Variable T : Wording.

(** The builders the driver calls for the events of their own kind only. *)
Definition exclusive (b : Builder) : bool :=
  match b with
  | WeeklyReport | ExerciseUpdate | TravelAdaptation
  | DiagnosticsSchedule | DiagnosticsResults => true
  | _ => false
  end.

(** The builders the driver calls for the events of their own kind only,
    the one of the member's questions included. *)
Definition own_event_only (b : Builder) : bool :=
  exclusive b || member_builder b.

Lemma exclusive_own b : exclusive b = true -> own_event_only b = true.
Proof. unfold own_event_only. now intros ->. Qed.

Definition kind_of (b : Builder) : string := snd (gate_key b).

Definition same_kind (b b0 : Builder) : bool :=
  String.eqb (kind_of b) (kind_of b0).

Lemma same_kind_eq b b0 : same_kind b b0 = true -> b = b0.
Proof. destruct b, b0; intros H; try reflexivity; discriminate H. Qed.

Lemma other_kind_key b b0 :
  same_kind b b0 = false -> gate_key b <> gate_key b0.
Proof.
  intros H E. unfold same_kind, kind_of in H. rewrite E in H.
  rewrite String.eqb_refl in H. discriminate.
Qed.

Lemma kind_of_nonempty b : kind_of b <> "".
Proof. destruct b; discriminate. Qed.


Lemma counted_app k a b : counted k (a ++ b) = counted k a + counted k b.
Proof.
  unfold counted, occurrences.
  rewrite flat_map_app, List.filter_app, List.length_app. lia.
Qed.

Lemma counted_one k k' m :
  meta m !! "kind" = Some k' -> k' <> "" ->
  counted k [m] = b2z (String.eqb k k').
Proof.
  intros Hk Hne. unfold counted, occurrences, message_kinds.
  cbn [flat_map]. rewrite app_nil_r, Hk. simpl.
  apply String.eqb_neq in Hne. rewrite Hne. cbn [negb List.filter].
  destruct (String.eqb k k'); reflexivity.
Qed.

Lemma suppressed_lookup (r r' : gmap (string * string) Clock.datetime)
    (key : string * string) (when : Clock.datetime) (window_hours : Q) :
  r' !! key = r !! key ->
  suppressed r' key when window_hours = suppressed r key when window_hours.
Proof. intros H. unfold suppressed. now rewrite H. Qed.

(** What a step does to the messages of the kind of [b0] and to the record
    of its key: [own] tells whether the step is a call of [b0] itself. *)
Definition track (b0 : Builder) (own : bool) (when : Clock.datetime)
    (r : gmap (string * string) Clock.datetime) (out : list Message)
    (r' : gmap (string * string) Clock.datetime) : Prop :=
  let fired :=
    own && negb (suppressed r (gate_key b0) when (gate_window b0)) in
  counted (kind_of b0) out = b2z fired
  /\ r' !! gate_key b0 = if fired then Some when else r !! gate_key b0.

Lemma gate_track (b0 b : Builder) (when : Clock.datetime)
    (r r' : gmap (string * string) Clock.datetime) (out : list Message) :
  gate_outcome (gate_key b) (gate_window b) when r r' out ->
  track b0 (same_kind b b0) when r out r'.
Proof.
  intros Hg. unfold track. destruct (same_kind b b0) eqn:Es.
  - apply same_kind_eq in Es. subst b0. cbn [andb].
    unfold gate_outcome in Hg.
    destruct (suppressed r (gate_key b) when (gate_window b)); cbn [negb].
    + destruct Hg as [-> ->]. split; reflexivity.
    + destruct Hg as [(m & -> & _ & _ & Hk) ->].
      split; [|apply lookup_insert_eq].
      rewrite (counted_one _ _ _ Hk (kind_of_nonempty b)).
      unfold kind_of. now rewrite String.eqb_refl.
  - cbn [andb]. unfold gate_outcome in Hg.
    destruct (suppressed r (gate_key b) when (gate_window b)).
    + destruct Hg as [-> ->]. split; reflexivity.
    + destruct Hg as [(m & -> & _ & _ & Hk) ->].
      split; [|apply lookup_insert_ne, (other_kind_key _ _ Es)].
      rewrite (counted_one _ _ _ Hk (kind_of_nonempty b)).
      unfold same_kind, kind_of in *. rewrite String.eqb_sym in Es.
      rewrite Es. reflexivity.
Qed.

Lemma call_track b0 b when travel dest w :
  exists out w',
    call D T b when travel dest w = (Ok out, w')
    /\ track b0 (same_kind b b0) when (_recent (eng w)) out
         (_recent (eng w')).
Proof.
  destruct (call_gate D T b when travel dest w) as (out & w' & Hc & Hg).
  exists out, w'. split; [exact Hc | now apply gate_track].
Qed.

(** A step that leaves the kind of [b0] alone, after one that may not. *)
Lemma track_then_other (b0 : Builder) (own : bool) (when : Clock.datetime)
    (r : gmap (string * string) Clock.datetime) (out1 : list Message)
    (r1 : gmap (string * string) Clock.datetime) (own2 : bool)
    (when2 : Clock.datetime) (out2 : list Message)
    (r2 : gmap (string * string) Clock.datetime) :
  track b0 own when r out1 r1 ->
  track b0 false when2 r1 out2 r2 ->
  own2 = own ->
  track b0 own2 when r (out1 ++ out2) r2.
Proof.
  unfold track. cbn [andb b2z]. intros [H1 H2] [H3 H4] ->.
  rewrite counted_app, H1, H3, H4, H2. split; [lia | reflexivity].
Qed.

Lemma track_then_quiet (b0 : Builder) (own : bool) (when : Clock.datetime)
    (r : gmap (string * string) Clock.datetime) (out1 : list Message)
    (r1 : gmap (string * string) Clock.datetime) (out2 : list Message)
    (r2 : gmap (string * string) Clock.datetime) :
  track b0 own when r out1 r1 ->
  counted (kind_of b0) out2 = 0 ->
  r2 !! gate_key b0 = r1 !! gate_key b0 ->
  track b0 own when r (out1 ++ out2) r2.
Proof.
  unfold track. intros [H1 H2] H3 H4.
  rewrite counted_app, H1, H3, H4, H2. split; [lia | reflexivity].
Qed.

Lemma track_other_first (b0 : Builder) (when : Clock.datetime)
    (r : gmap (string * string) Clock.datetime) (out1 : list Message)
    (r1 : gmap (string * string) Clock.datetime) (own : bool)
    (when2 : Clock.datetime) (out2 : list Message)
    (r2 : gmap (string * string) Clock.datetime) :
  track b0 false when r out1 r1 ->
  track b0 own when2 r1 out2 r2 ->
  track b0 own when2 r (out1 ++ out2) r2.
Proof.
  unfold track. cbn [andb b2z]. intros [H1 H2] [H3 H4].
  rewrite counted_app, H1, H3, H4.
  rewrite (suppressed_lookup r r1 _ _ _ H2). rewrite H2.
  split; [lia | reflexivity].
Qed.

Ltac literal_tests :=
  repeat match goal with
         | |- context [String.eqb ?a ?b] =>
             let v := eval vm_compute in (String.eqb a b) in
             change (String.eqb a b) with v
         end;
  cbv iota.

Ltac single b0 b ev traveling dest w :=
  let o := fresh "o" in
  let w1 := fresh "w" in
  let Hc := fresh "Hc" in
  let Ht := fresh "Ht" in
  destruct (call_track b0 b (Scheduler.when ev) traveling dest w)
    as (o & w1 & Hc & Ht);
  cbn [call] in Hc; exists o, w1; split; [exact Hc | exact Ht].

(** The driver's routing of one event, seen from a builder that is only
    called for the events of its own kind. *)
Lemma route_track b0 ev traveling w :
  own_event_only b0 = true -> well_formed ev = true ->
  exists out w',
    Run.route D T ev traveling w = (Ok out, w')
    /\ track b0 (String.eqb (Scheduler.kind ev) (kind_of b0))
         (Scheduler.when ev) (_recent (eng w)) out (_recent (eng w')).
Proof.
  intros Hex Hwf.
  destruct (String.eqb_spec (Scheduler.kind ev) "member_curiosity") as [Hk|Hk].
  { destruct (route_curiosity D T ev traveling w Hk)
      as (m0 & w0 & r1 & w1 & r2 & w2 & r3 & w3
          & Hc0 & Hg0 & Hc1 & Hg1 & Hc2 & Hg2 & Hc3 & Hg3 & Hr).
    eexists _, _. split; [exact Hr|]. cbn [eng].
    apply (gate_track b0) in Hg0, Hg1, Hg2, Hg3.
    rewrite Hk.
    assert (Hs : same_kind NutritionUpdate b0 = false
                 /\ same_kind MedicalCheckin b0 = false
                 /\ same_kind WearableAnomaly b0 = false)
      by (destruct b0; try discriminate Hex; repeat split).
    destruct Hs as (S1 & S2 & S3).
    rewrite S1 in Hg1. rewrite S2 in Hg2. rewrite S3 in Hg3.
    change (String.eqb "member_curiosity" (kind_of b0))
      with (same_kind MemberCuriosity b0).
    apply (track_then_quiet _ _ _ _ _ _ _ _ Hg0).
    - unfold track in Hg1, Hg2, Hg3. cbn [andb b2z] in Hg1, Hg2, Hg3.
      destruct (choice_of_three [] r1 r2 r3 (rng w3)) as [-> | [-> | ->]];
        [apply Hg1 | apply Hg2 | apply Hg3].
    - unfold track in Hg1, Hg2, Hg3. cbn [andb b2z] in Hg1, Hg2, Hg3.
      destruct Hg1 as [_ R1], Hg2 as [_ R2], Hg3 as [_ R3]. congruence. }
  unfold Run.route, well_formed in *.
  destruct (String.eqb_spec (Scheduler.kind ev) "weekly_report") as [E|E].
  { rewrite E. single b0 WeeklyReport ev traveling "" w. }
  destruct (String.eqb_spec (Scheduler.kind ev) "exercise_update") as [E1|E1].
  { rewrite E1. single b0 ExerciseUpdate ev traveling "" w. }
  destruct (String.eqb_spec (Scheduler.kind ev) "medical_checkin") as [E2|E2].
  { rewrite E2. single b0 MedicalCheckin ev traveling "" w. }
  destruct (String.eqb_spec (Scheduler.kind ev) "nutrition_update")
    as [E3|E3].
  { rewrite E3. single b0 NutritionUpdate ev traveling "" w. }
  destruct (String.eqb_spec (Scheduler.kind ev) "travel_adaptation")
    as [E4|E4].
  { cbn [negb orb] in Hwf. unfold Run.meta_dest.
    destruct (Scheduler.meta ev) as [m|]; [|discriminate].
    rewrite bind_ret, E4.
    single b0 TravelAdaptation ev traveling (default "" (m !! "dest")) w. }
  destruct (String.eqb_spec (Scheduler.kind ev) "diagnostics_schedule")
    as [E5|E5].
  { destruct (call_track b0 DiagnosticsSchedule (Scheduler.when ev) traveling
                "" w) as (o1 & w1 & H1 & T1).
    destruct (call_track b0 PaSchedulingAck
                (minutes_apart (Scheduler.when ev) 20) traveling "" w1)
      as (o2 & w2 & H2 & T2).
    cbn [call] in H1, H2.
    rewrite (bind_ok _ _ _ _ _ H1), (bind_ok _ _ _ _ _ H2).
    eexists _, _. split; [reflexivity|]. rewrite E5.
    assert (Hpa : same_kind PaSchedulingAck b0 = false)
      by (destruct b0; try discriminate Hex; reflexivity).
    rewrite Hpa in T2.
    exact (track_then_other _ _ _ _ _ _ _ _ _ _ T1 T2 eq_refl). }
  destruct (String.eqb_spec (Scheduler.kind ev) "diagnostics_results")
    as [E6|E6].
  { rewrite E6. single b0 DiagnosticsResults ev traveling "" w. }
  destruct (String.eqb_spec (Scheduler.kind ev) "wearable_anomaly")
    as [E7|E7].
  { rewrite E7. single b0 WearableAnomaly ev traveling "" w. }
  destruct (String.eqb_spec (Scheduler.kind ev) "member_curiosity");
    [contradiction|].
  eexists _, _. split; [reflexivity|].
  assert (Hown : String.eqb (Scheduler.kind ev) (kind_of b0) = false).
  { apply String.eqb_neq. destruct b0; try discriminate Hex;
      unfold kind_of; cbn [gate_key snd]; assumption. }
  rewrite Hown. unfold track. cbn [andb b2z]. split; reflexivity.
Qed.

Lemma begin_week_m_recent travel busy w amap w' :
  begin_week_m travel busy w = (Ok amap, w') ->
  _recent (eng w') = _recent (eng w).
Proof.
  unfold begin_week_m, begin_week.
  destruct (adherence_loop _ _ _ _ _ _ _) as [[am st1] g1].
  destruct (State.add_noise _ g1) as [st2 g2].
  intros H. injection H as _ <-. reflexivity.
Qed.

Lemma process_event_track b0 travel_plan ev w :
  own_event_only b0 = true -> well_formed ev = true ->
  exists out w',
    Run.process_event D T travel_plan ev w = (Ok (out, update_of ev), w')
    /\ track b0 (String.eqb (Scheduler.kind ev) (kind_of b0))
         (Scheduler.when ev) (_recent (eng w)) out (_recent (eng w')).
Proof.
  intros Hex Hwf. unfold Run.process_event, update_of.
  destruct (Run.in_update_window ev).
  - rewrite bind_assoc.
    match goal with
    | |- context [bind (begin_week_m ?tr ?bu) _ ?w0] =>
        destruct (begin_week_m_total tr bu w0) as (amap & w1 & Hb)
    end.
    rewrite (bind_ok _ _ _ _ _ Hb), bind_ret.
    rewrite <- (begin_week_m_recent _ _ _ _ _ Hb).
    match goal with
    | |- context [bind (Run.route D T ev ?tr) _ ?w1] =>
        destruct (route_track b0 ev tr w1 Hex Hwf) as (out & w' & H & Ht)
    end.
    rewrite (bind_ok _ _ _ _ _ H). eauto.
  - rewrite bind_ret.
    match goal with
    | |- context [bind (Run.route D T ev ?tr) _ ?w1] =>
        destruct (route_track b0 ev tr w1 Hex Hwf) as (out & w' & H & Ht)
    end.
    rewrite (bind_ok _ _ _ _ _ H). eauto.
Qed.

(** Two events of the kind of [b0] are at least its window apart. *)
Definition apart (b0 : Builder) (a b : Scheduler.Event) : Prop :=
  Scheduler.kind a = kind_of b0 -> Scheduler.kind b = kind_of b0 ->
  (gate_window b0 * 60 <= inject_Z (Scheduler.when b - Scheduler.when a))%Q.

(** No event of the kind of [b0] in [events] would be held back. *)
Definition clear_ahead (b0 : Builder)
    (r : gmap (string * string) Clock.datetime)
    (events : list Scheduler.Event) : Prop :=
  Forall (fun e => Scheduler.kind e = kind_of b0 ->
                   suppressed r (gate_key b0) (Scheduler.when e)
                     (gate_window b0) = false) events.

Lemma run_events_track b0 travel_plan events :
  exclusive b0 = true ->
  forallb well_formed events = true ->
  StronglySorted (apart b0) events ->
  forall w,
    clear_ahead b0 (_recent (eng w)) events ->
    exists msgs w',
      Run.run_events D T travel_plan events w
      = (Ok (msgs, flat_map update_of events), w')
      /\ counted (kind_of b0) msgs
         = Z.of_nat (count_kind (kind_of b0) (fun _ => true) events).
Proof.
  intros Hex Hwf Hsorted.
  induction Hsorted as [|ev rest Hrest IH Hev]; intros w Hclear.
  - eexists _, _. split; reflexivity.
  - cbn [forallb] in Hwf. apply andb_true_iff in Hwf as [Hwf1 Hwf2].
    cbn [Run.run_events flat_map].
    destruct (process_event_track b0 travel_plan ev w
                (exclusive_own b0 Hex) Hwf1)
      as (out & w1 & H1 & [Hc Hr]).
    rewrite (bind_ok _ _ _ _ _ H1).
    inversion Hclear as [|? ? Hhead Htail]; subst.
    assert (Hclear1 : clear_ahead b0 (_recent (eng w1)) rest).
    { unfold clear_ahead in *. rewrite List.Forall_forall in *.
      intros e He Hk.
      destruct (String.eqb_spec (Scheduler.kind ev) (kind_of b0))
        as [Hown | Hother].
      - rewrite (Hhead Hown) in Hr. cbn [andb negb] in Hr.
        apply (suppressed_elapsed _ _ _ _ _ Hr).
        exact (Hev e He Hown Hk).
      - cbn [andb] in Hr. rewrite (suppressed_lookup _ _ _ _ _ Hr).
        exact (Htail e He Hk). }
    destruct (IH Hwf2 w1 Hclear1) as (msgs & w2 & H2 & Hcount).
    rewrite (bind_ok _ _ _ _ _ H2). eexists _, _.
    split; [reflexivity|]. cbn [fst].
    rewrite counted_app, Hc, Hcount. unfold count_kind.
    cbn [List.filter]. rewrite andb_true_r.
    destruct (String.eqb_spec (Scheduler.kind ev) (kind_of b0))
      as [Hown | Hother].
    + rewrite (Hhead Hown). cbn [andb negb b2z length]. lia.
    + cbn [andb b2z]. lia.
Qed.



End ExclusiveBuilders.

Section NeverHeldBack.
Import Generator.

Lemma count_kind_member k (p : Z -> bool) e l :
  In e l -> Scheduler.kind e = k -> p (Scheduler.week e) = true ->
  (1 <= count_kind k p l)%nat.
Proof.
  intros Hin Hk Hp. unfold count_kind.
  assert (He : In e (List.filter
                       (fun e0 => String.eqb (Scheduler.kind e0) k
                                  && p (Scheduler.week e0)) l)).
  { apply filter_In. split; [exact Hin|].
    rewrite Hk, String.eqb_refl, Hp. reflexivity. }
  destruct (List.filter _ l); [contradiction | cbn; lia].
Qed.

Lemma exclusive_day b0 :
  exclusive b0 = true -> exists d, day_of (kind_of b0) = Some d.
Proof. destruct b0; try discriminate; intros _; eexists; reflexivity. Qed.

Lemma window_within_a_day b0 :
  (gate_window b0 * 60 <= inject_Z 1440)%Q.
Proof. destruct b0; vm_compute; discriminate. Qed.

Lemma days_apart (a b : Clock.datetime) :
  Clock.toordinal a + 7 <= Clock.toordinal b -> 1440 <= b - a.
Proof.
  unfold Clock.toordinal. intros H.
  pose proof (Z.div_mod a 1440 ltac:(lia)).
  pose proof (Z.div_mod b 1440 ltac:(lia)).
  pose proof (Z.mod_pos_bound a 1440 ltac:(lia)).
  pose proof (Z.mod_pos_bound b 1440 ltac:(lia)). lia.
Qed.

Lemma earlier_day (a b : Clock.datetime) :
  a <= b -> Clock.toordinal a <= Clock.toordinal b.
Proof. unfold Clock.toordinal. intros H. apply Z.div_le_mono; lia. Qed.

(** In a list of events sorted by time that holds at most one event of the
    kind of [b0] per week, each on the day of its kind, any two events of
    that kind are at least the window of [b0] apart. *)
Lemma sorted_events_apart clock b0 l :
  exclusive b0 = true ->
  StronglySorted not_after l ->
  Forall (on_its_day clock) l ->
  (forall w, (count_kind (kind_of b0) (Z.eqb w) l <= 1)%nat) ->
  StronglySorted (apart b0) l.
Proof.
  intros Hex Hsorted. destruct (exclusive_day b0 Hex) as [d Hd].
  induction Hsorted as [|a rest Hrest IH Ha]; intros Hday Hone;
    [constructor|].
  inversion Hday as [|? ? Hda Hdrest]; subst.
  constructor.
  - apply IH; [exact Hdrest|]. intros w. specialize (Hone w).
    unfold count_kind in *. cbn [List.filter] in Hone.
    destruct (_ && _) in Hone; cbn [length] in Hone; lia.
  - rewrite List.Forall_forall in *. intros b Hb Hka Hkb.
    eapply Qle_trans; [apply window_within_a_day|].
    rewrite <- Zle_Qle. apply days_apart.
    pose proof (Hda d ltac:(rewrite Hka; exact Hd)) as Hoa.
    pose proof (Hdrest b Hb d ltac:(rewrite Hkb; exact Hd)) as Hob.
    pose proof (earlier_day _ _ (Ha b Hb)) as Hle.
    assert (Hne : Scheduler.week b <> Scheduler.week a).
    { intros Heq. specialize (Hone (Scheduler.week a)).
      unfold count_kind in Hone. cbn [List.filter] in Hone.
      rewrite Hka, String.eqb_refl, Z.eqb_refl in Hone.
      cbn [andb length] in Hone.
      pose proof (count_kind_member (kind_of b0)
                    (Z.eqb (Scheduler.week a)) b rest Hb Hkb
                    ltac:(rewrite Heq; apply Z.eqb_refl)) as H1.
      unfold count_kind in H1. lia. }
    lia.
Qed.

Lemma week_profile_exclusive travel w b0 :
  exclusive b0 = true ->
  (week_profile travel w 7 1 (kind_of b0) <= 1)%nat.
Proof.
  destruct b0; try discriminate; intros _;
    unfold week_profile, kind_of; cbn [gate_key snd];
    repeat match goal with
           | |- context [String.eqb ?a ?b] =>
               let v := eval vm_compute in (String.eqb a b) in
               change (String.eqb a b) with v
           end;
    cbn [andb one];
    repeat match goal with
           | |- context [one ?b] =>
               lazymatch b with
               | true => fail
               | false => fail
               | _ => destruct b
               end
           end; cbn [one]; lia.
Qed.

Lemma build_events_one_per_week clock travel total_weeks g b0 w :
  exclusive b0 = true ->
  (count_kind (kind_of b0) (Z.eqb w)
     (fst (Scheduler.build_events clock travel total_weeks g)) <= 1)%nat.
Proof.
  intros Hex.
  pose proof (build_events_profile clock travel total_weeks g (kind_of b0)
                (Z.eqb w)) as [_ H].
  rewrite profile_sum_one_week in H by (apply py_range_NoDup; lia).
  pose proof (week_profile_exclusive travel w b0 Hex).
  destruct (Travel.mem w _); cbn [one] in H; lia.
Qed.

Lemma build_events_apart clock travel total_weeks g b0 :
  exclusive b0 = true ->
  StronglySorted (apart b0)
    (fst (Scheduler.build_events clock travel total_weeks g)).
Proof.
  intros Hex. apply (sorted_events_apart clock); [exact Hex | | |].
  - unfold Scheduler.build_events.
    destruct (Scheduler.all_weeks clock travel _ g) as [events g1].
    apply sort_by_when_sorted.
  - apply build_events_on_its_day.
  - intros w. now apply build_events_one_per_week.
Qed.

End NeverHeldBack.

(** X23.  In a run the gate never holds back the message of a weekly
    report, an exercise update, a travel adaptation, an order of a
    diagnostics panel or its results: the messages of each of these kinds
    are as many as the scheduled events of the kind.  A run of [weeks]
    weeks therefore carries [weeks] weekly reports, [weeks // 2] exercise
    updates and [weeks // 4] travel adaptations, which is what the first,
    second and fourth check of [validate_conversation] ask for. *)
Theorem scheduled_messages_are_never_held_back :
  forall D T g0 start weeks nlg_provider nlg_mode llm_model,
    exists msgs updates w',
      Run.main D T g0 start weeks nlg_provider nlg_mode llm_model
      = (Ok (msgs, updates), w')
      /\ (forall b0,
            exclusive b0 = true ->
            counted (kind_of b0) msgs
            = Z.of_nat
                (count_kind (kind_of b0) (fun _ => true)
                   (fst (Scheduler.build_events
                           {| Clock.start_date := start |}
                           (Travel.build_travel_plan weeks) weeks g0))))
      /\ counted "weekly_report" msgs = Z.max 0 weeks
      /\ counted "exercise_update" msgs = Z.max 0 (weeks / 2)
      /\ counted "travel_adaptation" msgs = Z.max 0 (weeks / 4).
Proof.
  intros D T g0 start weeks nlg_provider nlg_mode llm_model.
  pose proof (schedule_totals {| Clock.start_date := start |} weeks g0)
    as (Hw & He & _ & Ht & _).
  pose proof (build_events_well_formed {| Clock.start_date := start |}
                (Travel.build_travel_plan weeks) weeks g0) as Hwf.
  pose proof (fun b0 =>
                build_events_apart {| Clock.start_date := start |}
                  (Travel.build_travel_plan weeks) weeks g0 b0) as Hap.
  unfold Run.main.
  destruct (Scheduler.build_events _ _ weeks g0) as [events g].
  cbn [fst] in *.
  set (w0 := {| Generator.rng := g;
                Generator.eng :=
                  Generator.new_engine
                    (NLG.from_args nlg_provider nlg_mode llm_model);
                Generator.bio := State.baseline |}).
  assert (Hall : forall b0,
             exclusive b0 = true ->
             exists msgs w',
               Run.run_events D T (Travel.build_travel_plan weeks) events w0
               = (Ok (msgs, flat_map update_of events), w')
               /\ counted (kind_of b0) msgs
                  = Z.of_nat (count_kind (kind_of b0) (fun _ => true) events)).
  { intros b0 Hex.
    apply (run_events_track D T b0 _ events Hex Hwf (Hap b0 Hex)).
    unfold clear_ahead. apply List.Forall_forall. intros e _ _.
    apply suppressed_fresh. apply lookup_empty. }
  destruct (Hall WeeklyReport eq_refl) as (msgs & w' & Hrun & Hcw).
  exists msgs, (flat_map update_of events), w'.
  split; [exact Hrun|]. split.
  - intros b0 Hex. destruct (Hall b0 Hex) as (msgs' & w'' & Hrun' & Hc).
    rewrite Hrun in Hrun'. injection Hrun' as <- _. exact Hc.
  - destruct (Hall ExerciseUpdate eq_refl) as (m1 & w1 & Hr1 & Hce).
    destruct (Hall TravelAdaptation eq_refl) as (m2 & w2 & Hr2 & Hct).
    rewrite Hrun in Hr1, Hr2. injection Hr1 as <- _. injection Hr2 as <- _.
    unfold kind_of in Hcw, Hce, Hct. cbn [gate_key snd] in Hcw, Hce, Hct.
    rewrite Hcw, Hce, Hct, Hw, He, Ht. lia.
Qed.


(** ** textstyle.py: short fragments and sentences *)

Section MergeFacts.
Import Textstyle.

Lemma append_cons (x : ascii) (a b : string) :
  String.append (String x a) b = String x (String.append a b).
Proof. reflexivity. Qed.

Lemma append_assoc (a b c : string) :
  String.append (String.append a b) c = String.append a (String.append b c).
Proof.
  induction a as [|x a IH]; [reflexivity|].
  rewrite !append_cons. f_equal. exact IH.
Qed.

Lemma append_empty_r (a : string) : String.append a "" = a.
Proof.
  induction a as [|x a IH]; [reflexivity|].
  rewrite append_cons. f_equal. exact IH.
Qed.

Lemma concat_cons sep x l :
  l <> [] ->
  String.concat sep (x :: l)
  = String.append x (String.append sep (String.concat sep l)).
Proof. destruct l; [contradiction | reflexivity]. Qed.

(** Joining a list in which a run has been joined already. *)
Lemma concat_joined sep (b c : list string) :
  b <> [] ->
  String.concat sep (String.concat sep b :: c) = String.concat sep (b ++ c).
Proof.
  intros Hb. induction b as [|x b IH]; [contradiction|].
  destruct b as [|y b].
  - reflexivity.
  - specialize (IH ltac:(discriminate)).
    destruct c as [|z c].
    + now rewrite app_nil_r.
    + rewrite concat_cons by discriminate.
      change ((x :: y :: b) ++ z :: c) with (x :: ((y :: b) ++ z :: c)).
      rewrite (concat_cons sep x ((y :: b) ++ z :: c)) by discriminate.
      rewrite <- IH. rewrite (concat_cons sep _ (z :: c)) by discriminate.
      rewrite (concat_cons sep x (y :: b)) by discriminate.
      now rewrite !append_assoc.
Qed.

Lemma concat_joined_middle sep (a b c : list string) :
  b <> [] ->
  String.concat sep (a ++ String.concat sep b :: c)
  = String.concat sep (a ++ b ++ c).
Proof.
  intros Hb. induction a as [|x a IH]; [cbn [app]; now apply concat_joined|].
  cbn [app]. rewrite !concat_cons, IH; [reflexivity | |].
  - destruct a; [destruct b; [contradiction | discriminate] | discriminate].
  - destruct a; discriminate.
Qed.

Lemma flush_concat out buf rest :
  String.concat " " (flush out buf ++ rest)
  = String.concat " " (out ++ buf ++ rest).
Proof.
  unfold flush. destruct buf as [|x buf]; [reflexivity|].
  rewrite <- app_assoc. cbn [app].
  apply concat_joined_middle. discriminate.
Qed.

Lemma merge_loop_concat parts :
  forall out buf,
    String.concat " " (merge_loop out buf parts)
    = String.concat " " (out ++ buf ++ parts).
Proof.
  induction parts as [|p rest IH]; intros out buf; cbn [merge_loop].
  - rewrite <- (app_nil_r (flush out buf)), flush_concat. reflexivity.
  - destruct (String.length p <? 28)%nat.
    + rewrite IH, <- app_assoc. reflexivity.
    + rewrite IH. cbn [app]. rewrite <- app_assoc.
      rewrite flush_concat. reflexivity.
Qed.

Lemma flush_length out buf :
  (length (flush out buf) <= length out + length buf)%nat.
Proof.
  unfold flush. destruct buf; [lia|]. rewrite List.length_app. cbn. lia.
Qed.

Lemma merge_loop_length parts :
  forall out buf,
    (length (merge_loop out buf parts)
     <= length out + length buf + length parts)%nat.
Proof.
  induction parts as [|p rest IH]; intros out buf; cbn [merge_loop].
  - pose proof (flush_length out buf). cbn. lia.
  - destruct (String.length p <? 28)%nat.
    + specialize (IH out (buf ++ [p])). rewrite List.length_app in IH.
      cbn [length] in *. lia.
    + specialize (IH (flush out buf ++ [p]) []).
      rewrite List.length_app in IH. pose proof (flush_length out buf).
      cbn [length] in *. lia.
Qed.

Lemma merge_loop_keeps_out parts :
  forall out buf x, In x out -> In x (merge_loop out buf parts).
Proof.
  induction parts as [|p rest IH]; intros out buf x Hx; cbn [merge_loop].
  - unfold flush. destruct buf; [exact Hx | apply in_or_app; now left].
  - destruct (String.length p <? 28)%nat; [now apply IH|].
    apply IH. apply in_or_app. left.
    unfold flush. destruct buf; [exact Hx | apply in_or_app; now left].
Qed.

Lemma merge_loop_long parts :
  forall out buf p,
    In p parts -> (28 <= String.length p)%nat ->
    In p (merge_loop out buf parts).
Proof.
  induction parts as [|q rest IH]; intros out buf p Hin Hlen; [contradiction|].
  cbn [merge_loop]. destruct Hin as [-> | Hin].
  - destruct (Nat.ltb_spec (String.length p) 28); [lia|].
    apply merge_loop_keeps_out. apply in_or_app. right. now left.
  - destruct (String.length q <? 28)%nat; now apply IH.
Qed.

Lemma merge_loop_all_long parts :
  forall out,
    Forall (fun p => (28 <= String.length p)%nat) parts ->
    merge_loop out [] parts = out ++ parts.
Proof.
  induction parts as [|p rest IH]; intros out H; cbn [merge_loop flush].
  - now rewrite app_nil_r.
  - inversion H as [|? ? Hp Hrest]; subst.
    destruct (Nat.ltb_spec (String.length p) 28); [lia|].
    rewrite IH by exact Hrest. now rewrite <- app_assoc.
Qed.

End MergeFacts.

(** X25.  [_merge_short_lines] only regroups: joining its result with
    single spaces gives the same text as joining the fragments it was
    given.  It returns no more lines than it was given, keeps every
    fragment of 28 characters or more as a line of its own, and returns a
    list of such fragments unchanged. *)
Theorem merge_short_lines_only_regroups :
  forall parts,
    String.concat " " (Textstyle._merge_short_lines parts)
    = String.concat " " parts
    /\ (length (Textstyle._merge_short_lines parts) <= length parts)%nat
    /\ (forall p, In p parts -> (28 <= String.length p)%nat ->
                  In p (Textstyle._merge_short_lines parts))
    /\ (Forall (fun p => (28 <= String.length p)%nat) parts ->
        Textstyle._merge_short_lines parts = parts).
Proof.
  intros parts. unfold Textstyle._merge_short_lines.
  split; [apply (merge_loop_concat parts [] [])|].
  split; [apply (merge_loop_length parts [] [])|].
  split; [intros p; apply merge_loop_long|].
  intros H. now rewrite merge_loop_all_long.
Qed.

Section SentenceFacts.
Import Text Textstyle.

Definition ends_terminal (s : string) : bool :=
  match last_char s with
  | Some c => is_terminal c
  | None => false
  end.

(** The text ends with a question or exclamation mark and a dot. *)
Fixpoint ends_mark_dot (s : string) : bool :=
  match s with
  | EmptyString => false
  | String c (String d EmptyString) =>
      (Ascii.eqb c "?" || Ascii.eqb c "!") && Ascii.eqb d "."
  | String _ r => ends_mark_dot r
  end.

Lemma last_char_cons c r :
  r <> "" -> last_char (String c r) = last_char r.
Proof. destruct r; [contradiction | reflexivity]. Qed.

Lemma last_char_append x y :
  y <> "" -> last_char (String.append x y) = last_char y.
Proof.
  intros Hy. induction x as [|c x IH]; [reflexivity|].
  rewrite append_cons, last_char_cons; [exact IH|].
  destruct x; [exact Hy | discriminate].
Qed.

Lemma ends_terminal_nonempty s : ends_terminal s = true -> s <> "".
Proof. intros H ->. discriminate. Qed.

(** A substitution whose replacements all end with a terminal mark keeps
    the terminal mark at the end of a text. *)
Lemma re_sub_from_terminal (m : string -> option (string * nat)) :
  (forall s repl n, m s = Some (repl, n) -> ends_terminal repl = true) ->
  forall s skip,
    ends_terminal s = true ->
    (re_sub_from m skip s = "" /\ skip <> 0%nat)
    \/ ends_terminal (re_sub_from m skip s) = true.
Proof.
  intros Hm. induction s as [|c r IH]; intros skip Hs; [discriminate|].
  assert (Hr : r = "" \/ ends_terminal r = true).
  { destruct r as [|d r']; [now left|]. right.
    unfold ends_terminal in *. now rewrite last_char_cons in Hs. }
  cbn [re_sub_from]. destruct skip as [|k].
  - right. destruct (m (String c r)) as [[repl n]|] eqn:Em.
    + pose proof (Hm _ _ _ Em) as Hrepl.
      destruct Hr as [-> | Hr].
      * cbn [re_sub_from]. unfold ends_terminal.
        destruct repl; [discriminate|].
        rewrite append_empty_r. exact Hrepl.
      * destruct (IH (Nat.pred n) Hr) as [[-> _] | Ht].
        -- rewrite append_empty_r. exact Hrepl.
        -- unfold ends_terminal in *.
           rewrite last_char_append; [exact Ht|].
           intros E. rewrite E in Ht. discriminate.
    + destruct Hr as [-> | Hr].
      * cbn [re_sub_from]. exact Hs.
      * destruct (IH 0%nat Hr) as [[_ Hne] | Ht]; [contradiction|].
        unfold ends_terminal in *. rewrite last_char_cons; [exact Ht|].
        intros E. rewrite E in Ht. discriminate.
  - destruct Hr as [-> | Hr]; [left; split; [reflexivity | discriminate]|].
    destruct (IH k Hr) as [[E Hk] | Ht]; [|now right].
    left. split; [exact E | discriminate].
Qed.

Lemma re_sub_terminal (m : string -> option (string * nat)) s :
  (forall s repl n, m s = Some (repl, n) -> ends_terminal repl = true) ->
  ends_terminal s = true -> ends_terminal (re_sub m s) = true.
Proof.
  intros Hm Hs. unfold re_sub.
  destruct (re_sub_from_terminal m Hm s 0%nat Hs) as [[_ H] | H];
    [contradiction | exact H].
Qed.

Lemma m_mark_dot_terminal mark s repl n :
  is_terminal mark = true ->
  m_mark_dot mark s = Some (repl, n) -> ends_terminal repl = true.
Proof.
  intros Hmark. unfold m_mark_dot.
  destruct s as [|c [|d r]]; try discriminate.
  destruct (_ && _); [|discriminate]. intros H. injection H as <- _.
  exact Hmark.
Qed.

Lemma m_bang_dot_end_shape s repl n :
  m_bang_dot_end s = Some (repl, n) ->
  exists c r,
    s = String c r /\ repl = String c ""
    /\ (Ascii.eqb c "?" || Ascii.eqb c "!") = true
    /\ n = (count_while isspace r + 2)%nat
    /\ (drop (count_while isspace r) r = "."
        \/ drop (count_while isspace r) r = String "." (String "010" "")).
Proof.
  unfold m_bang_dot_end. destruct s as [|c r]; [discriminate|].
  destruct (Ascii.eqb c "?" || Ascii.eqb c "!") eqn:Ec; [|discriminate].
  destruct (drop (count_while isspace r) r) as [|d [|e [|f t]]] eqn:Ed;
    try discriminate.
  - destruct (Ascii.eqb_spec d "."); [|discriminate]. subst d.
    intros H. injection H as <- <-. exists c, r. repeat split; auto.
  - destruct (Ascii.eqb_spec d "."); [|discriminate].
    destruct (Ascii.eqb_spec e "010"); [|discriminate]. subst d e.
    cbn [andb]. intros H. injection H as <- <-. exists c, r.
    repeat split; auto.
Qed.

Lemma m_bang_dot_end_terminal s repl n :
  m_bang_dot_end s = Some (repl, n) -> ends_terminal repl = true.
Proof.
  intros H. destruct (m_bang_dot_end_shape s repl n H)
    as (c & r & -> & -> & Hc & _).
  unfold ends_terminal, is_terminal. cbn [last_char].
  apply orb_true_iff in Hc. destruct Hc as [-> | ->];
    [reflexivity | now rewrite orb_true_r].
Qed.

End SentenceFacts.

Section SentenceEnd.
Import Text Textstyle.

Lemma re_sub_from_drop (m : string -> option (string * nat)) s :
  forall k, re_sub_from m k s = re_sub_from m 0 (drop k s).
Proof.
  induction s as [|c r IH]; intros k; [now destruct k|].
  destruct k as [|k]; [reflexivity|]. cbn [re_sub_from drop]. apply IH.
Qed.

Lemma drop_succ s : forall k, drop (S k) s = drop 1 (drop k s).
Proof.
  induction s as [|c r IH]; intros k; [now destruct k|].
  destruct k as [|k]; [reflexivity|].
  change (drop (S (S k)) (String c r)) with (drop (S k) r).
  change (drop (S k) (String c r)) with (drop k r). apply IH.
Qed.

Lemma re_sub_bang_empty r :
  re_sub_from m_bang_dot_end 0 r = "" -> r = "".
Proof.
  destruct r as [|d r']; [reflexivity|]. cbn [re_sub_from].
  destruct (m_bang_dot_end (String d r')) as [[repl n]|] eqn:Em;
    [|discriminate].
  destruct (m_bang_dot_end_shape _ _ _ Em) as (c & r & _ & -> & _).
  discriminate.
Qed.

Lemma re_sub_bang_dot r :
  re_sub_from m_bang_dot_end 0 r = "." -> r = ".".
Proof.
  destruct r as [|d r']; [discriminate|]. cbn [re_sub_from].
  destruct (m_bang_dot_end (String d r')) as [[repl n]|] eqn:Em.
  - destruct (m_bang_dot_end_shape _ _ _ Em) as (c & r & _ & -> & Hc & _).
    rewrite append_cons. intros H. injection H as -> _. discriminate Hc.
  - intros H. injection H as -> H. apply re_sub_bang_empty in H.
    now subst.
Qed.

Lemma ends_mark_dot_cons c x :
  ends_mark_dot (String c x)
  = match x with
    | String d EmptyString =>
        (Ascii.eqb c "?" || Ascii.eqb c "!") && Ascii.eqb d "."
    | _ => ends_mark_dot x
    end.
Proof. destruct x as [|d [|e x]]; reflexivity. Qed.

Lemma re_sub_bang_clean s :
  ends_mark_dot (re_sub m_bang_dot_end s) = false.
Proof.
  unfold re_sub. induction s as [|c r IH]; [reflexivity|].
  cbn [re_sub_from].
  destruct (m_bang_dot_end (String c r)) as [[repl n]|] eqn:Em.
  - destruct (m_bang_dot_end_shape _ _ _ Em)
      as (c' & r' & E & -> & Hc & -> & Hd).
    injection E as <- <-.
    rewrite Nat.add_comm. cbn [Nat.add Nat.pred].
    rewrite re_sub_from_drop, drop_succ, append_cons.
    change (String.append "" ?x) with x.
    destruct Hd as [-> | ->].
    + change (re_sub_from m_bang_dot_end 0 (drop 1 ".")) with "".
      reflexivity.
    + replace (re_sub_from m_bang_dot_end 0
                 (drop 1 (String "." (String "010" ""))))
        with (String "010" "") by (vm_compute; reflexivity).
      rewrite ends_mark_dot_cons. apply andb_false_r.
  - rewrite ends_mark_dot_cons.
    destruct (re_sub_from m_bang_dot_end 0 r) as [|d [|e x]] eqn:Ex;
      [reflexivity | | exact IH].
    destruct (Ascii.eqb_spec d "."); [|now rewrite andb_false_r].
    subst d. apply re_sub_bang_dot in Ex. subst r.
    destruct (Ascii.eqb c "?" || Ascii.eqb c "!") eqn:Ec; [|reflexivity].
    unfold m_bang_dot_end in Em. rewrite Ec in Em. cbn in Em. discriminate.
Qed.

End SentenceEnd.

(** X26.  [to_sentence] returns the empty text for the empty text; for any
    other text, blank ones included, what it returns ends with a full stop,
    a question mark or an exclamation mark, and never with a question or
    exclamation mark followed by a full stop. *)
Theorem to_sentence_ends_with_one_mark :
  Textstyle.to_sentence "" = ""
  /\ forall s,
       s <> "" ->
       ends_terminal (Textstyle.to_sentence s) = true
       /\ ends_mark_dot (Textstyle.to_sentence s) = false.
Proof.
  split; [reflexivity|]. intros s Hs. unfold Textstyle.to_sentence.
  apply String.eqb_neq in Hs. rewrite Hs.
  set (t := Text.re_sub Text.m_spaces _).
  assert (Hpair : exists t' mark,
             match Textstyle.last_char t with
             | Some c => if Textstyle.is_terminal c
                         then (Text.rstrip (Textstyle.but_last t), c)
                         else (t, "."%char)
             | None => (t, "."%char)
             end = (t', mark)
             /\ Textstyle.is_terminal mark = true).
  { destruct (Textstyle.last_char t) as [c|]; [|eauto].
    destruct (Textstyle.is_terminal c) eqn:Ec; eauto. }
  destruct Hpair as (t' & mark & -> & Hmark).
  split; [|apply re_sub_bang_clean].
  apply re_sub_terminal; [apply m_bang_dot_end_terminal|].
  apply re_sub_terminal;
    [intros x repl n; apply m_mark_dot_terminal; reflexivity|].
  apply re_sub_terminal;
    [intros x repl n; apply m_mark_dot_terminal; reflexivity|].
  unfold ends_terminal. rewrite last_char_append by discriminate.
  exact Hmark.
Qed.

Lemma to_sentence_ends_with_one_mark_witness :
  ends_terminal (Textstyle.to_sentence "plan: walk after dinner ?.") = true
  /\ ends_mark_dot (Textstyle.to_sentence "plan: walk after dinner ?.")
     = false.
Proof.
  apply (proj2 to_sentence_ends_with_one_mark). discriminate.
Defined.
